(** * Extractor registry and Mildom / NHK / TwitCasting extractors

    A shallow embedding of the parts of
      - [yt_dlp/extractor/__init__.py]      (the ordered extractor list),
      - [youtube_dl/extractor/mildom.py]    (dispatcher config, guest id, VOD listing),
      - [yt_dlp/extractor/nhk.py]           (NHK for School URL predicates),
      - [yt_dlp/extractor/twitcasting.py]   (media result, live redirect, history listing)
    that the properties below are about.  Python values are a small tagged
    union, exceptions are a sum in the result type, and the extractor
    instance together with the outside world (network, cookie jar, clock,
    random source) is an explicit state threaded through every call. *)

From Stdlib Require Import List String Ascii ZArith Bool Arith Lia DecimalString.
From Stdlib Require Import Sorted Permutation.
Import ListNotations.
Set Warnings "-register-all".
Open Scope string_scope.
Open Scope list_scope.

(* ================================================================== *)
(** ** Python values, exceptions and the state-and-error monad *)
(* ================================================================== *)

Module Py.

(** The JSON-shaped fragment of Python values the extractors handle. *)
Inductive pyval : Type :=
| PNone
| PBool (b : bool)
| PInt (z : Z)
| PStr (s : string)
| PList (l : list pyval)
| PDict (d : list (string * pyval)).

(** Python truthiness ([if v:], [not v], [v or w]). *)
Definition truthy (v : pyval) : bool :=
  match v with
  | PNone => false
  | PBool b => b
  | PInt z => negb (Z.eqb z 0)
  | PStr s => negb (String.eqb s "")
  | PList l => match l with [] => false | _ => true end
  | PDict d => match d with [] => false | _ => true end
  end.

(** [a or b]. *)
Definition py_or (a b : pyval) : pyval := if truthy a then a else b.

(** [isinstance(v, compat_str)] and [isinstance(v, dict)]. *)
Definition compat_str (v : pyval) : bool :=
  match v with PStr _ => true | _ => false end.

Definition is_dict (v : pyval) : bool :=
  match v with PDict _ => true | _ => false end.

Definition is_none (v : pyval) : bool :=
  match v with PNone => true | _ => false end.

(** The exception classes that occur in the modelled code. *)
Inductive exn : Type :=
| ExtractorError
| KeyError
| TypeError
| AttributeError
| IndexError
| ValueError
| NameError.

(** Outcome of a call: a value, a raised exception, or [NoFuel] when the
    bound on loop iterations / call depth given to the model ran out. *)
Inductive res (A : Type) : Type :=
| Ok (a : A)
| Raise (e : exn)
| NoFuel.
Arguments Ok {A} a.
Arguments Raise {A} e.
Arguments NoFuel {A}.

Definition M (S A : Type) : Type := S -> res A * S.

Definition ret {S A} (a : A) : M S A := fun st => (Ok a, st).
Definition raise {S A} (e : exn) : M S A := fun st => (Raise e, st).
Definition bind {S A B} (m : M S A) (k : A -> M S B) : M S B :=
  fun st =>
    match m st with
    | (Ok a, st') => k a st'
    | (Raise e, st') => (Raise e, st')
    | (NoFuel, st') => (NoFuel, st')
    end.

(** Lifting of a pure fallible computation. *)
Definition lift {S A} (r : res A) : M S A := fun st => (r, st).

Fixpoint assoc (k : string) (d : list (string * pyval)) : option pyval :=
  match d with
  | [] => None
  | (k', v) :: d' => if String.eqb k k' then Some v else assoc k d'
  end.

(** [v[key]] for a string key: dictionaries are looked up, every other
    value rejects a string subscript. *)
Definition getitem (v : pyval) (key : string) : res pyval :=
  match v with
  | PDict d => match assoc key d with Some x => Ok x | None => Raise KeyError end
  | _ => Raise TypeError
  end.

(** [d.get(key, default)] on a value; only dictionaries have [.get]. *)
Definition dict_get (v : pyval) (key : string) (default : pyval) : res pyval :=
  match v with
  | PDict d => match assoc key d with Some x => Ok x | None => Ok default end
  | _ => Raise AttributeError
  end.

(** [s.endswith(suffix)]. *)
Definition endswith (s suffix : string) : bool :=
  let n := String.length s in
  let m := String.length suffix in
  (m <=? n)%nat && String.eqb (substring (n - m) m s) suffix.

(** [s.startswith(p)], returning the rest of [s] on success. *)
Fixpoint strip_prefix (p s : string) : option string :=
  match p with
  | EmptyString => Some s
  | String c p' =>
      match s with
      | EmptyString => None
      | String d s' => if Ascii.eqb c d then strip_prefix p' s' else None
      end
  end.

(** [needle in haystack]. *)
Fixpoint contains (needle hay : string) : bool :=
  match strip_prefix needle hay with
  | Some _ => true
  | None =>
      match hay with
      | EmptyString => false
      | String _ hay' => contains needle hay'
      end
  end.

(** The double-quote character, as a one-character string. *)
Definition dquote : string := String (ascii_of_nat 34) EmptyString.

End Py.
Import Py.

Declare Scope py_scope.
Delimit Scope py_scope with py.
Notation "x <- c1 ;; c2" := (bind c1 (fun x => c2))
  (at level 61, c1 at next level, right associativity) : py_scope.
Notation "c1 ;;; c2" := (bind c1 (fun _ => c2))
  (at level 61, right associativity) : py_scope.

(* ================================================================== *)
(** ** [yt_dlp/extractor/__init__.py]: the ordered extractor list *)
(* ================================================================== *)

Module Registry.

(** An extractor class as the registry sees it: its name, the
    [_SELF_HOSTED] attribute and its [suitable] class method. *)
Record klass : Type := {
  ie_name : string;
  _SELF_HOSTED : bool;
  suitable : string -> bool
}.

(** A module namespace ([globals()]): names in insertion order. *)
Definition namespace : Type := list (string * klass).

Fixpoint ns_lookup (name : string) (g : namespace) : option klass :=
  match g with
  | [] => None
  | (n, k) :: g' => if String.eqb name n then Some k else ns_lookup name g'
  end.

Definition name_in (name : string) (names : list string) : bool :=
  existsb (String.eqb name) names.

(** What the module leaves behind once imported. *)
Record module_state : Type := {
  _LAZY_LOADER : bool;
  _ALL_CLASSES : list klass;
  _SELFHOSTED_CLASSES : list klass;
  _PLUGIN_CLASSES : namespace
}.

(** The list comprehension of the eager path: every global whose name ends
    in [IE], except [GenericIE] and [StreamlinkIE], in namespace order. *)
Definition eager_classes (g : namespace) : list klass :=
  map snd
    (filter (fun nk => endswith (fst nk) "IE"
                       && negb (name_in (fst nk) ["GenericIE"; "StreamlinkIE"]))
            g).

(** Module initialisation.
    - [no_lazy]: the environment variable [YTDLP_NO_LAZY_EXTRACTORS] is set
      to a non-empty string;
    - [lazy_module]: [None] when importing [.lazy_extractors] raises
      [ImportError], otherwise the [_ALL_CLASSES] that module exports;
    - [extractors]: the namespace after [from .extractors import *];
    - [plugins]: the dictionary returned by [load_plugins].
    The name [GenericIE] is looked up in the namespace; an unbound name is a
    [NameError]. *)
Definition module_init (no_lazy : bool) (lazy_module : option (list klass))
    (extractors : namespace) (plugins : namespace) : res module_state :=
  let lazy :=
    if no_lazy then None else lazy_module in
  let base :=
    match lazy with
    | Some all => Ok (true, all, [])
    | None =>
        let all := eager_classes extractors in
        let selfhosted := filter _SELF_HOSTED all in
        match ns_lookup "GenericIE" extractors with
        | Some generic => Ok (false, all ++ [generic], selfhosted)
        | None => Raise NameError
        end
    end in
  match base with
  | Ok (lz, all, sh) =>
      Ok {| _LAZY_LOADER := lz;
            _ALL_CLASSES := map snd plugins ++ all;
            _SELFHOSTED_CLASSES := sh;
            _PLUGIN_CLASSES := plugins |}
  | Raise e => Raise e
  | NoFuel => NoFuel
  end.

Definition gen_extractor_classes (m : module_state) : list klass :=
  _ALL_CLASSES m.

Definition gen_selfhosted_extractor_classes (m : module_state) : list klass :=
  _SELFHOSTED_CLASSES m.

(** Modelled from the spec: [resolve(url)] of the registry, which is not in
    this module ("scans descriptors in order, returns the first whose
    predicate matches"; the docstring of [gen_extractor_classes] says the
    same).  The position is returned together with the class. *)
Fixpoint resolve_from (i : nat) (l : list klass) (url : string) : option (nat * klass) :=
  match l with
  | [] => None
  | k :: l' => if suitable k url then Some (i, k) else resolve_from (S i) l' url
  end.

Definition resolve (l : list klass) (url : string) : option (nat * klass) :=
  resolve_from 0 l url.

End Registry.

(* ================================================================== *)
(** ** [utils.try_get] *)
(* ================================================================== *)

Module Utils.

(** Modelled from the spec: the "individual source failures" that
    [try_get] swallows.  They are the failures of a lookup that finds
    nothing, [AttributeError], [KeyError], [TypeError] and [IndexError]:
    what the subscripts and attribute accesses of its callers raise
    ([x['anchor_intro']], [.get('gid').value], [...["2"][0]]).  An
    exception of any other class is not caught by the helper. *)
Definition passes_over (e : exn) : bool :=
  match e with
  | AttributeError | KeyError | TypeError | IndexError => true
  | _ => false
  end.

(** Modelled from the spec: [try_get(src, getters, expected_type)] of
    [utils], which is imported by the extractors but is not among the
    modelled files.  "Given an ordered sequence of zero-argument producers,
    evaluate lazily in order, return the first result that is non-null and
    of the expected type, short-circuiting remaining producers"; the
    result is null when no producer yields a usable value.  Each getter is
    applied to [src]; the effects of a producer that was run persist.  A
    producer that fails on a lookup is passed over; any other exception
    of a producer, an [ExtractorError] or a [ValueError] among them,
    leaves the helper at once, and the producers after it are not run. *)
Fixpoint try_get {S Src : Type} (src : Src) (getters : list (Src -> M S pyval))
    (expected_type : pyval -> bool) : M S pyval :=
  match getters with
  | [] => ret PNone
  | get :: rest =>
      fun st =>
        match get src st with
        | (Ok v, st') =>
            if negb (is_none v) && expected_type v then (Ok v, st')
            else try_get src rest expected_type st'
        | (Raise e, st') =>
            if passes_over e then try_get src rest expected_type st'
            else (Raise e, st')
        | (NoFuel, st') => (NoFuel, st')
        end
  end.

(** The producers [pre], run in order from [st], each failed on a lookup
    or gave a value that is null or not of the expected type; [st'] is the
    state they leave behind. *)
Fixpoint skipped {S Src : Type} (src : Src) (pre : list (Src -> M S pyval))
    (expected_type : pyval -> bool) (st st' : S) : Prop :=
  match pre with
  | [] => st' = st
  | get :: rest =>
      match get src st with
      | (Ok v, st1) =>
          negb (is_none v) && expected_type v = false /\
          skipped src rest expected_type st1 st'
      | (Raise e, st1) =>
          passes_over e = true /\ skipped src rest expected_type st1 st'
      | (NoFuel, _) => False
      end
  end.

End Utils.
Import Utils.

(* ================================================================== *)
(** ** [youtube_dl/extractor/mildom.py] *)
(* ================================================================== *)

Module Mildom.

(** The outside world of one extractor instance.  Every interaction
    consumes one tick of a logical clock, and the answer may depend on it.
    - [net t url data]: [_download_json]; [None] is the [ExtractorError] it
      raises on a transport or JSON failure;
    - [now t]: the text [iso_timestamp] builds from [datetime.utcnow()];
    - [choice t]: the random source behind [random.choice];
    - [jar t url]: the cookies [_get_cookies(url)] finds;
    - [update_url_query], [b64decode] ([None]: a [binascii.Error], which is
      a [ValueError]), [_parse_json] ([None]: [ExtractorError]),
      [serverListV2_data] (the POST body built by [json.dumps] and
      [base64.b64encode] from the timestamp and the user agent),
      [user_agent] ([std_headers['User-Agent']]) and [fmt_s] (['%s' % v])
      are the library functions the module calls. *)
Record env : Type := {
  net : nat -> string -> option string -> option pyval;
  now : nat -> string;
  choice : nat -> nat;
  jar : nat -> string -> list (string * string);
  update_url_query : string -> list (string * pyval) -> string;
  b64decode : string -> option string;
  _parse_json : string -> option pyval;
  serverListV2_data : string -> string -> string;
  user_agent : string;
  fmt_s : pyval -> string
}.

(** What an observer of the process sees, in order. *)
Inductive event : Type :=
| EvDownload (url : string) (data : option string)
| EvCookies (url : string)
| EvClock
| EvRandom
| EvWarning
| EvGuestId.   (* entry into [guest_id] *)

(** The attributes of the extractor instance ([self._GUEST_ID],
    [self._DISPATCHER_CONFIG], both [None] in the class) and the world's
    clock and history. *)
Record state : Type := {
  _GUEST_ID : pyval;
  _DISPATCHER_CONFIG : pyval;
  clock : nat;
  trace : list event
}.

Definition fresh : state :=
  {| _GUEST_ID := PNone; _DISPATCHER_CONFIG := PNone; clock := 0; trace := [] |}.

Definition set_GUEST_ID (v : pyval) : M state unit :=
  fun st => (Ok tt, {| _GUEST_ID := v; _DISPATCHER_CONFIG := _DISPATCHER_CONFIG st;
                       clock := clock st; trace := trace st |}).

Definition set_DISPATCHER_CONFIG (v : pyval) : M state unit :=
  fun st => (Ok tt, {| _GUEST_ID := _GUEST_ID st; _DISPATCHER_CONFIG := v;
                       clock := clock st; trace := trace st |}).

Definition get_GUEST_ID : M state pyval := fun st => (Ok (_GUEST_ID st), st).
Definition get_DISPATCHER_CONFIG : M state pyval :=
  fun st => (Ok (_DISPATCHER_CONFIG st), st).

(** [st] after [n] further interactions [evs] with the world, the two
    attributes being [gid] and [cfg]. *)
Definition advanced (st : state) (gid cfg : pyval) (n : nat) (evs : list event)
  : state :=
  {| _GUEST_ID := gid; _DISPATCHER_CONFIG := cfg;
     clock := n + clock st; trace := trace st ++ evs |}.

(** One interaction with the world: returns the clock and advances it. *)
Definition tick (ev : event) : M state nat :=
  fun st => (Ok (clock st),
             {| _GUEST_ID := _GUEST_ID st; _DISPATCHER_CONFIG := _DISPATCHER_CONFIG st;
                clock := S (clock st); trace := trace st ++ [ev] |}).

(** A note in the history that does not touch the world. *)
Definition log (ev : event) : M state unit :=
  fun st => (Ok tt,
             {| _GUEST_ID := _GUEST_ID st; _DISPATCHER_CONFIG := _DISPATCHER_CONFIG st;
                clock := clock st; trace := trace st ++ [ev] |}).

(** [try: m except ExtractorError: h]. *)
Definition try_except_ExtractorError {A} (m h : M state A) : M state A :=
  fun st =>
    match m st with
    | (Raise ExtractorError, st') => h st'
    | r => r
    end.

Definition _MILDOM_PROXY_HOSTS : list string :=
  ["bookish-octo-barnacle.vercel.app"; "free-mountain-goal.glitch.me"].

(** [d[k] = v] and [d.update(q)] on insertion-ordered dictionaries. *)
Fixpoint dict_set (k : string) (v : pyval) (d : list (string * pyval))
  : list (string * pyval) :=
  match d with
  | [] => [(k, v)]
  | (k', v') :: d' =>
      if String.eqb k k' then (k, v) :: d' else (k', v') :: dict_set k v d'
  end.

Definition dict_update (d q : list (string * pyval)) : list (string * pyval) :=
  fold_left (fun acc kv => dict_set (fst kv) (snd kv) acc) q d.

Fixpoint cookie_get (name : string) (c : list (string * string)) : option string :=
  match c with
  | [] => None
  | (n, v) :: c' => if String.eqb name n then Some v else cookie_get name c'
  end.

(** Number of entries into [guest_id] recorded in a history. *)
Definition guest_calls (tr : list event) : nat :=
  List.length (filter (fun ev => match ev with EvGuestId => true | _ => false end) tr).

(** A computation that needs no call depth and never enters [guest_id]. *)
Definition quiet {A} (m : M state A) : Prop :=
  forall st,
    fst (m st) <> NoFuel /\
    exists evs, trace (snd (m st)) = trace st ++ evs /\ guest_calls evs = 0.

Section WithEnv.
Variable E : env.

Definition _download_json (url : string) (data : option string) : M state pyval :=
  (t <- tick (EvDownload url data) ;;
   match net E t url data with
   | Some v => ret v
   | None => raise ExtractorError
   end)%py.

Definition iso_timestamp : M state string :=
  (t <- tick EvClock ;; ret (now E t))%py.

Definition lang_code : M state string := ret "ja".

Definition _mildom_proxy_host : M state string :=
  (t <- tick EvRandom ;;
   ret (nth (choice E t mod List.length _MILDOM_PROXY_HOSTS) _MILDOM_PROXY_HOSTS ""))%py.

Definition _get_cookies (url : string) : M state (list (string * string)) :=
  (t <- tick (EvCookies url) ;; ret (jar E t url))%py.

(** [base64.b64decode(v)]: only text is accepted. *)
Definition py_b64decode (v : pyval) : res string :=
  match v with
  | PStr s => match b64decode E s with Some b => Ok b | None => Raise ValueError end
  | _ => Raise TypeError
  end.

Definition parse_json (b : string) : res pyval :=
  match _parse_json E b with Some v => Ok v | None => Raise ExtractorError end.

(** The three steps between the primary download and the assignment:
    [self._parse_json(base64.b64decode(tmp['data']), ...)]. *)
Definition decode_serverList (tmp : pyval) : res pyval :=
  match getitem tmp "data" with
  | Ok d =>
      match py_b64decode d with
      | Ok b => parse_json b
      | Raise e => Raise e
      | NoFuel => NoFuel
      end
  | Raise e => Raise e
  | NoFuel => NoFuel
  end.

Definition _fetch_dispatcher_config : M state pyval :=
  (dc <- get_DISPATCHER_CONFIG ;;
   (if negb (truthy dc) then
      try_except_ExtractorError
        (rtm <- iso_timestamp ;;
         tmp <- _download_json "https://disp.mildom.com/serverListV2"
                  (Some (serverListV2_data E rtm (user_agent E))) ;;
         v <- lift (decode_serverList tmp) ;;
         set_DISPATCHER_CONFIG v)
        (host <- _mildom_proxy_host ;;
         v <- _download_json ("https://" ++ host ++ "/api/mildom/dispatcher_config")%string
                None ;;
         set_DISPATCHER_CONFIG v)
    else ret tt) ;;;
   get_DISPATCHER_CONFIG)%py.

(** [_common_queries] with the method it may call back, [guest_id], as an
    argument: the three methods are mutually recursive in the source. *)
Definition _common_queries (guest_id : M state pyval)
    (query : list (string * pyval)) (init : bool) : M state (list (string * pyval)) :=
  (dc <- _fetch_dispatcher_config ;;
   ts <- iso_timestamp ;;
   gid <- (if init then ret (PStr "") else guest_id) ;;
   location <- lift (getitem dc "location") ;;
   country <- lift (getitem dc "country") ;;
   cluster <- lift (getitem dc "cluster") ;;
   la <- lang_code ;;
   ret (dict_update
          [("timestamp", PStr ts);
           ("__guest_id", gid);
           ("__location", location);
           ("__country", country);
           ("__cluster", cluster);
           ("__platform", PStr "web");
           ("__la", PStr la);
           ("__pcv", PStr "v2.9.44");
           ("sfr", PStr "pc");
           ("accessToken", PStr "")]
          query))%py.

(** [_call_api(url, video_id, query, note, init)]; [video_id] and [note]
    only label the progress message. *)
Definition _call_api (guest_id : M state pyval) (url : string)
    (query : list (string * pyval)) (init : bool) : M state pyval :=
  (q <- _common_queries guest_id query init ;;
   resp <- _download_json (update_url_query E url q) None ;;
   lift (getitem resp "body"))%py.

Definition serverListV2_url : string := "https://disp.mildom.com/serverListV2".

Definition www : string := "https://www.mildom.com".
Definition mobile : string := "https://m.mildom.com".

Definition h5init_url : string :=
  "https://cloudac.mildom.com/nonolive/gappserv/guest/h5init".

(** [x._get_cookies(url).get('gid').value]: a missing cookie is
    [None.value], an [AttributeError]. *)
Definition cookie_gid (url : string) : M state pyval :=
  (c <- _get_cookies url ;;
   match cookie_get "gid" c with
   | Some v => ret (PStr v)
   | None => raise AttributeError
   end)%py.

(** The first producer of [guest_id]:
    [x._call_api(h5init, ..., init=True)['guest_id'] or None]. *)
Definition h5init_guest_id (guest_id : M state pyval) : M state pyval :=
  (body <- _call_api guest_id h5init_url [] true ;;
   g <- lift (getitem body "guest_id") ;;
   ret (py_or g PNone))%py.

(** [guest_id]; [depth] bounds the nesting of [guest_id] calls. *)
Fixpoint guest_id (depth : nat) : M state pyval :=
  match depth with
  | O => fun st => (NoFuel, st)
  | S n =>
      (log EvGuestId ;;;
       cached <- get_GUEST_ID ;;
       if truthy cached then ret cached
       else
         v <- try_get tt
                [ (fun _ : unit => h5init_guest_id (guest_id n));
                  (fun _ : unit => cookie_gid www);
                  (fun _ : unit => cookie_gid mobile) ]
                compat_str ;;
         set_GUEST_ID (py_or v (PStr "")) ;;;
         get_GUEST_ID)%py
  end.


(** *** [MildomUserVodIE] *)

Record url_result : Type := { ur_url : string; ur_ie_key : option string }.

Record playlist : Type := {
  pl_entries : list url_result;
  pl_id : string;
  pl_title : string
}.

Definition playback_url (user_id : string) (v_id : pyval) : string :=
  ("https://www.mildom.com/playback/" ++ user_id ++ "/" ++ fmt_s E v_id)%string.

(** The generator [(... % (user_id, x['v_id']) for x in reply)] run to
    its end.  Iterating a dictionary or a string gives strings, which
    reject the subscript; numbers are not iterable. *)
Fixpoint entry_urls (user_id : string) (items : list pyval) : res (list string) :=
  match items with
  | [] => Ok []
  | x :: rest =>
      match getitem x "v_id" with
      | Ok v =>
          match entry_urls user_id rest with
          | Ok us => Ok (playback_url user_id v :: us)
          | Raise e => Raise e
          | NoFuel => NoFuel
          end
      | Raise e => Raise e
      | NoFuel => NoFuel
      end
  end.

Definition reply_urls (user_id : string) (reply : pyval) : res (list string) :=
  match reply with
  | PList items => entry_urls user_id items
  | _ => Raise TypeError
  end.

Definition playbackList_url : string :=
  "https://cloudac.mildom.com/nonolive/videocontent/profile/playbackList".

Definition page_query (user_id : string) (page : nat) : list (string * pyval) :=
  [("user_id", PStr user_id); ("page", PInt (Z.of_nat page)); ("limit", PStr "30")].

(** The loop [for page in itertools.count(1)]; [fuel] bounds the number
    of iterations the model follows. *)
Fixpoint drain_pages (guest_id : M state pyval) (user_id : string)
    (fuel page : nat) (results : list string) : M state (list string) :=
  match fuel with
  | O => fun st => (NoFuel, st)
  | S fuel' =>
      (reply <- _call_api guest_id playbackList_url (page_query user_id page) false ;;
       if negb (truthy reply) then ret results
       else
         urls <- lift (reply_urls user_id reply) ;;
         drain_pages guest_id user_id fuel' (S page) (results ++ urls))%py
  end.

(** What the listing API serves to one run of the loop that asks for
    [page] in state [st]: the playback URLs of the truthy replies in page
    order, up to the first falsy reply, which is received in [st']. *)
Inductive listing (guest_id : M state pyval) (user_id : string)
  : nat -> state -> list (list string) -> state -> Prop :=
| listing_end (page : nat) (st st' : state) (reply : pyval) :
    _call_api guest_id playbackList_url (page_query user_id page) false st
    = (Ok reply, st') ->
    truthy reply = false ->
    listing guest_id user_id page st [] st'
| listing_page (page : nat) (st st1 st' : state) (reply : pyval)
    (urls : list string) (rest : list (list string)) :
    _call_api guest_id playbackList_url (page_query user_id page) false st
    = (Ok reply, st1) ->
    truthy reply = true ->
    reply_urls user_id reply = Ok urls ->
    listing guest_id user_id (S page) st1 rest st' ->
    listing guest_id user_id page st (urls :: rest) st'.

Definition MildomUserVodIE_real_extract (depth fuel : nat) (user_id : string)
  : M state playlist :=
  (log EvWarning ;;;
   body <- _call_api (guest_id depth)
             "https://cloudac.mildom.com/nonolive/gappserv/user/profileV2"
             [("user_id", PStr user_id)] false ;;
   profile <- lift (getitem body "user_info") ;;
   results <- drain_pages (guest_id depth) user_id fuel 1 [] ;;
   loginname <- lift (getitem profile "loginname") ;;
   ret {| pl_entries :=
            map (fun u => {| ur_url := u; ur_ie_key := Some "MildomVod" |}) results;
          pl_id := user_id;
          pl_title := ("Uploads from " ++ fmt_s E loginname)%string |})%py.

End WithEnv.

End Mildom.

(* ================================================================== *)
(** ** Regular expressions, as far as [re.match] decides a match *)
(* ================================================================== *)

Module Regex.

(** The constructs the [_VALID_URL] patterns below use.  [Cls p] is one
    character satisfying [p]. *)
Inductive regex : Type :=
| Void
| Eps
| Cls (p : ascii -> bool)
| Seq (r1 r2 : regex)
| Alt (r1 r2 : regex)
| Star (r : regex).

Definition Chr (c : ascii) : regex := Cls (Ascii.eqb c).
Definition Opt (r : regex) : regex := Alt r Eps.
Definition Plus (r : regex) : regex := Seq r (Star r).

Fixpoint Lit (s : string) : regex :=
  match s with
  | EmptyString => Eps
  | String c s' => Seq (Chr c) (Lit s')
  end.

Fixpoint AltOf (rs : list regex) : regex :=
  match rs with
  | [] => Void
  | r :: rs' => Alt r (AltOf rs')
  end.

Fixpoint nullable (r : regex) : bool :=
  match r with
  | Void => false
  | Eps => true
  | Cls _ => false
  | Seq r1 r2 => nullable r1 && nullable r2
  | Alt r1 r2 => nullable r1 || nullable r2
  | Star _ => true
  end.

(** What remains to be matched after reading [c]. *)
Fixpoint deriv (c : ascii) (r : regex) : regex :=
  match r with
  | Void => Void
  | Eps => Void
  | Cls p => if p c then Eps else Void
  | Seq r1 r2 =>
      Alt (Seq (deriv c r1) r2) (if nullable r1 then deriv c r2 else Void)
  | Alt r1 r2 => Alt (deriv c r1) (deriv c r2)
  | Star r1 => Seq (deriv c r1) (Star r1)
  end.

(** [re.match(r, s) is not None]: some prefix of [s] matches [r]. *)
Fixpoint re_match (r : regex) (s : string) : bool :=
  nullable r ||
  match s with
  | EmptyString => false
  | String c s' => re_match (deriv c r) s'
  end.

End Regex.
Import Regex.

(* ================================================================== *)
(** ** [yt_dlp/extractor/nhk.py]: NHK for School URL predicates *)
(* ================================================================== *)

Module Nhk.

Definition KNOWN_SUBJECTS : list string :=
  ["rika"; "syakai"; "kokugo"; "sansuu"; "seikatsu"; "doutoku"; "ongaku";
   "taiiku"; "zukou"; "gijutsu"; "katei"; "sougou"; "eigo"; "tokkatsu";
   "tokushi"; "sonota"].

(** ['|'.join(re.escape(s) for s in KNOWN_SUBJECTS)]: the names are
    alphabetic, so escaping leaves them as they are. *)
Definition subjects_re : regex := AltOf (map Lit KNOWN_SUBJECTS).

(** [https?://www\.nhk\.or\.jp/school/] *)
Definition school_re : regex :=
  Seq (Lit "http") (Seq (Opt (Chr "s")) (Lit "://www.nhk.or.jp/school/")).

Definition is_digit (c : ascii) : bool :=
  let n := nat_of_ascii c in (48 <=? n)%nat && (n <=? 57)%nat.
Definition is_lower (c : ascii) : bool :=
  let n := nat_of_ascii c in (97 <=? n)%nat && (n <=? 122)%nat.
Definition is_upper (c : ascii) : bool :=
  let n := nat_of_ascii c in (65 <=? n)%nat && (n <=? 90)%nat.

(** [[a-zA-Z0-9_-]] *)
Definition id_char (c : ascii) : bool :=
  is_lower c || is_upper c || is_digit c || Ascii.eqb c "_" || Ascii.eqb c "-".

Definition NhkForSchoolSubjectIE_VALID_URL : regex :=
  Seq school_re subjects_re.

Definition NhkForSchoolProgramListIE_VALID_URL : regex :=
  Seq school_re (Seq subjects_re (Seq (Chr "/") (Plus (Cls id_char)))).

(** Modelled from the spec: [InfoExtractor.suitable] of the base class,
    which is not in this module: the descriptor's URL-matching predicate,
    a match of [_VALID_URL] at the start of the URL. *)
Definition InfoExtractor_suitable (valid_url : regex) (url : string) : bool :=
  re_match valid_url url.

(** [NhkForSchoolProgramListIE] inherits [suitable]. *)
Definition NhkForSchoolProgramListIE_suitable (url : string) : bool :=
  InfoExtractor_suitable NhkForSchoolProgramListIE_VALID_URL url.

(** [NhkForSchoolSubjectIE.suitable]: the inherited predicate, and not a
    program list. *)
Definition NhkForSchoolSubjectIE_suitable (url : string) : bool :=
  InfoExtractor_suitable NhkForSchoolSubjectIE_VALID_URL url
  && negb (NhkForSchoolProgramListIE_suitable url).

End Nhk.

(* ================================================================== *)
(** ** [yt_dlp/extractor/twitcasting.py] *)
(* ================================================================== *)

Module TwitCasting.

(** The world and the helpers of the base class the extractors call.
    - [download_webpage t url data]: [_download_webpage]; [None] is the
      [ExtractorError] of a failed download;
    - [match_valid_url url]: the groups [(uploader_id, id)] of
      [re.match(TwitCastingIE._VALID_URL, url)], [None] when there is no
      match;
    - [match_id url]: [_match_id] of the live and user extractors
      ([None]: no match);
    - [html_search_meta], [search_movie_url], [og_search_thumbnail],
      [description_of], [duration_fallback], [view_count_of],
      [timestamp_of]: the non-fatal scrapers applied to the page;
    - [movie_playlist_entry page]: the expression
      [_parse_json(_search_regex(...), video_id)["2"][0]], which may raise;
    - [float_or_none v]: [float_or_none(v, 1000)];
    - [extract_m3u8_formats t m3u8_url]: the manifest download, which may
      raise; [sort_formats]: [_sort_formats], which raises on no formats;
    - [search_current_live page]: [_search_regex] of the two live-id
      patterns with [default=None];
    - [movie_hrefs page]: group [url] of every thumbnail anchor, in page
      order; [next_href uploader_id page_num page]: the next-page link
      ([default=None]);
    - [urljoin base path] ([path] may be [None]) and
      [urlencode_postdata password]. *)
Record env : Type := {
  download_webpage : nat -> string -> option string -> option string;
  match_valid_url : string -> option (string * string);
  match_id : string -> option string;
  urlencode_postdata : pyval -> string;
  html_search_meta : list string -> string -> pyval;
  movie_playlist_entry : string -> res pyval;
  search_movie_url : string -> pyval;
  extract_m3u8_formats : nat -> pyval -> res (list pyval);
  sort_formats : list pyval -> res (list pyval);
  og_search_thumbnail : string -> pyval;
  description_of : string -> pyval;
  float_or_none : pyval -> pyval;
  duration_fallback : string -> pyval;
  view_count_of : string -> pyval;
  timestamp_of : string -> pyval;
  search_current_live : string -> option string;
  movie_hrefs : string -> list string;
  next_href : string -> nat -> string -> option string;
  urljoin : string -> option string -> option string
}.

Inductive event : Type :=
| EvWebpage (url : string) (data : option string)
| EvManifest (url : pyval)
| EvScreen.

(** A [url_result]: the target (what [urljoin] returned) and the
    extractor key, which these extractors leave unset. *)
Record url_result : Type := { ur_url : option string; ur_ie_key : option string }.

(** The world's clock and history, and the entries a running generator
    has yielded so far. *)
Record state : Type := {
  clock : nat;
  trace : list event;
  yielded : list url_result
}.

Definition fresh : state := {| clock := 0; trace := []; yielded := [] |}.

Definition tick (ev : event) : M state nat :=
  fun st => (Ok (clock st),
             {| clock := S (clock st); trace := trace st ++ [ev];
                yielded := yielded st |}).

Definition log (ev : event) : M state unit :=
  fun st => (Ok tt,
             {| clock := clock st; trace := trace st ++ [ev];
                yielded := yielded st |}).

(** [yield e]. *)
Definition yield (e : url_result) : M state unit :=
  fun st => (Ok tt,
             {| clock := clock st; trace := trace st;
                yielded := yielded st ++ [e] |}).

Fixpoint yield_all (es : list url_result) : M state unit :=
  match es with
  | [] => ret tt
  | e :: es' => (yield e ;;; yield_all es')%py
  end.

(** [not next_url] for an optional string. *)
Definition falsy_url (u : option string) : bool :=
  match u with
  | None => true
  | Some s => String.eqb s ""
  end.

Record media_result : Type := {
  mr_id : string;
  mr_title : pyval;
  mr_description : pyval;
  mr_thumbnail : pyval;
  mr_timestamp : pyval;
  mr_uploader : string;
  mr_uploader_id : string;
  mr_duration : pyval;
  mr_view_count : pyval;
  mr_formats : list pyval;
  mr_is_live : bool
}.

(** The text [data-status="online"]. *)
Definition online_marker : string :=
  ("data-status=" ++ dquote ++ "online" ++ dquote)%string.

(** A result with its format list blanked. *)
Definition without_formats (m : media_result) : media_result :=
  {| mr_id := mr_id m;
     mr_title := mr_title m;
     mr_description := mr_description m;
     mr_thumbnail := mr_thumbnail m;
     mr_timestamp := mr_timestamp m;
     mr_uploader := mr_uploader m;
     mr_uploader_id := mr_uploader_id m;
     mr_duration := mr_duration m;
     mr_view_count := mr_view_count m;
     mr_formats := [];
     mr_is_live := mr_is_live m |}.

Definition twitcasting_headers : pyval :=
  PDict [("Accept", PStr "*/*");
         ("Origin", PStr "https://twitcasting.tv");
         ("Referer", PStr "https://twitcasting.tv/")].

Section WithEnv.
Variable E : env.

Definition _download_webpage (url : string) (data : option string) : M state string :=
  (t <- tick (EvWebpage url data) ;;
   match download_webpage E t url data with
   | Some page => ret page
   | None => raise ExtractorError
   end)%py.

Definition _extract_m3u8_formats (m3u8_url : pyval) : M state (list pyval) :=
  (t <- tick (EvManifest m3u8_url) ;; lift (extract_m3u8_formats E t m3u8_url))%py.

(** [video_js_data['source']['url']]. *)
Definition source_url (video_js_data : pyval) : res pyval :=
  match getitem video_js_data "source" with
  | Ok s => getitem s "url"
  | Raise e => Raise e
  | NoFuel => NoFuel
  end.

(** The dictionary [TwitCastingIE._real_extract] returns, given the values
    of [video_js_data.get('thumbnailUrl')], [video_js_data.get('duration')]
    and [formats]. *)
Definition info_dict (uploader_id video_id webpage : string)
    (title thumb dur : pyval) (formats : list pyval) : media_result :=
  {| mr_id := video_id;
     mr_title := title;
     mr_description := description_of E webpage;
     mr_thumbnail := py_or thumb (og_search_thumbnail E webpage);
     mr_timestamp := timestamp_of E webpage;
     mr_uploader := uploader_id;
     mr_uploader_id := uploader_id;
     mr_duration := py_or (float_or_none E dur) (duration_fallback E webpage);
     mr_view_count := view_count_of E webpage;
     mr_formats := formats;
     mr_is_live := true |}.

(** [TwitCastingIE._real_extract] from the point where [is_live] has been
    computed; the flag is an argument so that its uses can be followed. *)
Definition TwitCastingIE_extract_with (is_live : bool) (uploader_id video_id : string)
    (webpage : string) (title video_js_data : pyval) : M state media_result :=
  (m3u8_url <- try_get webpage
                 [ (fun x => ret (search_movie_url E x));
                   (fun _ => lift (source_url video_js_data));
                   (fun _ => ret (if is_live
                                  then PStr ("https://twitcasting.tv/" ++ uploader_id
                                             ++ "/metastream.m3u8")%string
                                  else PNone)) ]
                 compat_str ;;
   formats <- (if is_live then
                 fs <- _extract_m3u8_formats m3u8_url ;;
                 lift (sort_formats E fs)
               else
                 ret [PDict [("url", m3u8_url);
                             ("format_id", PStr "hls");
                             ("ext", PStr "mp4");
                             ("protocol", PStr "m3u8");
                             ("http_headers", twitcasting_headers);
                             ("input_params", PList [PStr "-re"])]]) ;;
   thumb <- lift (dict_get video_js_data "thumbnailUrl" PNone) ;;
   dur <- lift (dict_get video_js_data "duration" PNone) ;;
   ret (info_dict uploader_id video_id webpage title thumb dur formats))%py.

(** [TwitCastingIE._real_extract(url)]; [videopassword] is the downloader
    parameter of that name. *)
Definition TwitCastingIE_real_extract (videopassword : pyval) (url : string)
  : M state media_result :=
  match match_valid_url E url with
  | None => raise AttributeError
  | Some (uploader_id, video_id) =>
      (let request_data :=
         if truthy videopassword then Some (urlencode_postdata E videopassword)
         else None in
       webpage <- _download_webpage url request_data ;;
       title <- try_get webpage
                  [ (fun x => ret (html_search_meta E ["og:title"; "twitter:title"] x)) ]
                  compat_str ;;
       if negb (truthy title) then raise ExtractorError
       else
         js <- try_get webpage [ (fun x => lift (movie_playlist_entry E x)) ] is_dict ;;
         let video_js_data := py_or js (PDict []) in
         let is_live := contains online_marker webpage in
         TwitCastingIE_extract_with is_live uploader_id video_id webpage title
           video_js_data)%py
  end.

(** [TwitCastingLiveIE._real_extract(url)]. *)
Definition TwitCastingLiveIE_real_extract (url : string) : M state url_result :=
  match match_id E url with
  | None => raise AttributeError
  | Some uploader_id =>
      (log EvScreen ;;;
       webpage <- _download_webpage url None ;;
       match search_current_live E webpage with
       | Some current_live =>
           if String.eqb current_live "" then raise ExtractorError
           else ret {| ur_url := Some ("https://twitcasting.tv/" ++ uploader_id
                                       ++ "/movie/" ++ current_live)%string;
                       ur_ie_key := None |}
       | None => raise ExtractorError
       end)%py
  end.

(** The results one page contributes:
    [self.url_result(urljoin(base_url, mobj.group('url')))] for every
    thumbnail anchor. *)
Definition page_entries (base_url webpage : string) : list url_result :=
  map (fun href => {| ur_url := urljoin E base_url (Some href); ur_ie_key := None |})
      (movie_hrefs E webpage).

(** [TwitCastingUserIE._entries(uploader_id)], drained to its end; the
    entries come out through [yielded].  [fuel] bounds the number of
    pages the model follows. *)
Fixpoint entries_from (uploader_id base_url : string) (fuel page_num : nat)
    (next_url : string) : M state unit :=
  match fuel with
  | O => fun st => (NoFuel, st)
  | S fuel' =>
      (webpage <- _download_webpage next_url None ;;
       yield_all (page_entries base_url webpage) ;;;
       let next := urljoin E base_url (next_href E uploader_id page_num webpage) in
       match next with
       | Some u =>
           if falsy_url next then ret tt
           else entries_from uploader_id base_url fuel' (S page_num) u
       | None => ret tt
       end)%py
  end.

Definition with_yielded (st : state) (es : list url_result) : state :=
  {| clock := clock st; trace := trace st; yielded := yielded st ++ es |}.

(** The chain of history pages as the site serves it to one run that
    fetches [url] as page [page_num] in state [st]: the entries of each
    page fetched, the last one being the first page without a next-page
    link; [st'] is the state when the generator returns. *)
Inductive history (uploader_id base_url : string)
  : nat -> string -> state -> list (list url_result) -> state -> Prop :=
| history_last (page_num : nat) (url webpage : string) (st st1 : state) :
    _download_webpage url None st = (Ok webpage, st1) ->
    falsy_url (urljoin E base_url (next_href E uploader_id page_num webpage)) = true ->
    history uploader_id base_url page_num url st
            [page_entries base_url webpage]
            (with_yielded st1 (page_entries base_url webpage))
| history_next (page_num : nat) (url webpage next : string) (st st1 st' : state)
    (rest : list (list url_result)) :
    _download_webpage url None st = (Ok webpage, st1) ->
    urljoin E base_url (next_href E uploader_id page_num webpage) = Some next ->
    falsy_url (Some next) = false ->
    history uploader_id base_url (S page_num) next
            (with_yielded st1 (page_entries base_url webpage)) rest st' ->
    history uploader_id base_url page_num url st
            (page_entries base_url webpage :: rest) st'.

Definition show_url (uploader_id : string) : string :=
  ("https://twitcasting.tv/" ++ uploader_id ++ "/show")%string.

Definition _entries (fuel : nat) (uploader_id : string) : M state unit :=
  let base_url := show_url uploader_id in
  entries_from uploader_id base_url fuel 1 base_url.

End WithEnv.

End TwitCasting.

(* ================================================================== *)
(** ** Resolution of redirect results *)
(* ================================================================== *)

Module Pipeline.

(** What a handler hands back: a leaf, a playlist, or a pointer to another
    URL (a [url] / [url_transparent] result) with an optional extractor
    key. *)
Inductive extraction_result (Media Playlist : Type) : Type :=
| MediaResult (m : Media)
| PlaylistResult (p : Playlist)
| RedirectResult (target : string) (hint : option string).
Arguments MediaResult {Media Playlist} m.
Arguments PlaylistResult {Media Playlist} p.
Arguments RedirectResult {Media Playlist} target hint.

(** The error taxonomy of the spec. *)
Inductive failure : Type :=
| NoMatch
| UpstreamUnavailable
| ExtractionFailed (reason : exn)
| RedirectLoop
| AuthRequired.

(** A resolution request has finished with a result or has failed;
    [Running] stands for a handler that did not finish within the bound
    its own model was given. *)
Inductive outcome (A : Type) : Type :=
| Done (a : A)
| Failed (f : failure)
| Running.
Arguments Done {A} a.
Arguments Failed {A} f.
Arguments Running {A}.

Section Resolution.
Variables St Media Playlist : Type.

(** Registry lookup followed by the matched handler's extraction. *)
Variable extract : string -> option string -> M St (extraction_result Media Playlist).

(** The cap on the number of redirects followed for one request: "a
    small fixed depth". *)
Variable max_depth : nat.

(** Modelled from the spec: the resolution loop of the downloader, which is
    not among the modelled files.  "Start: invoke matched handler with the
    URL.  Handler returns MediaResult: terminal.  Handler returns
    RedirectResult: re-run Start with the new URL/hint, with a
    recursion-depth guard (transparent redirects must not cycle; cap at a
    small fixed depth and fail with RedirectLoop past it)"; "any handler
    step fails: propagate as ExtractionFailed".  [depth_left] is the
    number of redirects that may still be followed.  The children of a
    playlist are resolved by requests of their own. *)
Fixpoint start_at (depth_left : nat) (url : string) (hint : option string)
  : St -> outcome (extraction_result Media Playlist) * St :=
  fun st =>
    match extract url hint st with
    | (Ok (RedirectResult target hint'), st') =>
        match depth_left with
        | O => (Failed RedirectLoop, st')
        | S d => start_at d target hint' st'
        end
    | (Ok r, st') => (Done r, st')
    | (Raise e, st') => (Failed (ExtractionFailed e), st')
    | (NoFuel, st') => (Running, st')
    end.

Definition start : string -> option string
                   -> St -> outcome (extraction_result Media Playlist) * St :=
  start_at max_depth.

(** [redirects n url hint st url' hint' st']: invoked [n] times in a row,
    starting with [url] and [hint] in [st], the handlers each return a
    redirect, the last of them to [url'] with [hint'], leaving [st']. *)
Inductive redirects
  : nat -> string -> option string -> St -> string -> option string -> St -> Prop :=
| redirects_none (url : string) (hint : option string) (st : St) :
    redirects 0 url hint st url hint st
| redirects_next (n : nat) (url target url' : string) (hint hint1 hint' : option string)
    (st st1 st' : St) :
    extract url hint st = (Ok (RedirectResult target hint1), st1) ->
    redirects n target hint1 st1 url' hint' st' ->
    redirects (S n) url hint st url' hint' st'.

(** A result that ends the request. *)
Definition terminal (r : extraction_result Media Playlist) : bool :=
  match r with
  | RedirectResult _ _ => false
  | _ => true
  end.

End Resolution.

(** The two TwitCasting handlers of a single video as one [extract]:
    [TwitCastingIE] where its pattern matches, otherwise
    [TwitCastingLiveIE]. *)
Definition twitcasting_extract (E : TwitCasting.env) (videopassword : pyval)
    (url : string) (hint : option string)
  : M TwitCasting.state (extraction_result TwitCasting.media_result unit) :=
  match TwitCasting.match_valid_url E url with
  | Some _ =>
      (m <- TwitCasting.TwitCastingIE_real_extract E videopassword url ;;
       ret (MediaResult m))%py
  | None =>
      (r <- TwitCasting.TwitCastingLiveIE_real_extract E url ;;
       match TwitCasting.ur_url r with
       | Some target => ret (RedirectResult target (TwitCasting.ur_ie_key r))
       | None => raise TypeError
       end)%py
  end.

End Pipeline.

(* ================================================================== *)
(** ** Concrete inputs used to run the definitions *)
(* ================================================================== *)

Module Examples.

Import Registry.

Definition never : string -> bool := fun _ => false.
Definition always : string -> bool := fun _ => true.
Definition on_prefix (p : string) : string -> bool :=
  fun url => match strip_prefix p url with Some _ => true | None => false end.

Definition GenericIE : klass :=
  {| ie_name := "generic"; _SELF_HOSTED := false; suitable := always |}.
Definition MildomIE : klass :=
  {| ie_name := "mildom"; _SELF_HOSTED := false;
     suitable := on_prefix "https://www.mildom.com/" |}.
Definition PeerTubeIE : klass :=
  {| ie_name := "PeerTube"; _SELF_HOSTED := true;
     suitable := on_prefix "peertube:" |}.
Definition StreamlinkIE : klass :=
  {| ie_name := "streamlink"; _SELF_HOSTED := false; suitable := never |}.
Definition SamplePluginIE : klass :=
  {| ie_name := "SamplePlugin"; _SELF_HOSTED := false;
     suitable := on_prefix "https://plugin.example/" |}.

(** A namespace in which [GenericIE] was bound before other extractors. *)
Definition extractors_ns : namespace :=
  [("GenericIE", GenericIE); ("InfoExtractor", StreamlinkIE);
   ("MildomIE", MildomIE); ("StreamlinkIE", StreamlinkIE);
   ("PeerTubeIE", PeerTubeIE)].

Definition plugins_ns : namespace := [("SamplePluginIE", SamplePluginIE)].

Definition eager_module : module_state :=
  {| _LAZY_LOADER := false;
     _ALL_CLASSES := [SamplePluginIE; MildomIE; PeerTubeIE; GenericIE];
     _SELFHOSTED_CLASSES := [PeerTubeIE];
     _PLUGIN_CLASSES := plugins_ns |}.

(** *** Mildom worlds *)

Definition fmt (v : pyval) : string :=
  match v with
  | PStr s => s
  | PInt z => NilZero.string_of_int (Z.to_int z)
  | _ => ""
  end.

Fixpoint urlencode (q : list (string * pyval)) : string :=
  match q with
  | [] => ""
  | (k, v) :: q' => (k ++ "=" ++ fmt v ++ "&" ++ urlencode q')%string
  end.

Definition add_query (url : string) (q : list (string * pyval)) : string :=
  (url ++ "?" ++ urlencode q)%string.

Definition dispatcher : pyval :=
  PDict [("location", PStr "Japan|Tokyo"); ("country", PStr "Japan");
         ("cluster", PStr "aws_japan")].

Definition vod (v_id : string) : pyval := PDict [("v_id", PStr v_id)].

Definition body_of (v : pyval) : option pyval := Some (PDict [("body", v)]).

(** A server that answers every request: the dispatcher (primary
    endpoint), a guest id [h5init_gid], a profile, and a VOD listing of
    three pages [[a, b], [c], []]. *)
Definition net_with (serverList : option pyval) (h5init_gid : pyval)
    (t : nat) (url : string) (data : option string) : option pyval :=
  if on_prefix "https://disp.mildom.com/serverListV2" url then serverList
  else if contains "/api/mildom/dispatcher_config" url then Some dispatcher
  else if contains "/guest/h5init" url then
    body_of (PDict [("guest_id", h5init_gid)])
  else if contains "/user/profileV2" url then
    body_of (PDict [("user_info", PDict [("loginname", PStr "neko")])])
  else if contains "/profile/playbackList" url then
    if contains "&page=1&" url then body_of (PList [vod "a"; vod "b"])
    else if contains "&page=2&" url then body_of (PList [vod "c"])
    else body_of (PList [])
  else None.

Definition world (serverList : option pyval) (h5init_gid : pyval)
    (cookies : nat -> string -> list (string * string)) : Mildom.env :=
  {| Mildom.net := net_with serverList h5init_gid;
     Mildom.now := fun _ => "2021-06-20T00:00:00.000Z";
     Mildom.choice := fun t => t;
     Mildom.jar := cookies;
     Mildom.update_url_query := add_query;
     Mildom.b64decode := fun s => if String.eqb s "ZGlzcA==" then Some "disp" else None;
     Mildom._parse_json := fun b => if String.eqb b "disp" then Some dispatcher else None;
     Mildom.serverListV2_data := fun rtm ua => ("rtm=" ++ rtm ++ ";ua=" ++ ua)%string;
     Mildom.user_agent := "Mozilla/5.0";
     Mildom.fmt_s := fmt |}.

Definition no_cookies : nat -> string -> list (string * string) := fun _ _ => [].

Definition serverList_ok : option pyval := Some (PDict [("data", PStr "ZGlzcA==")]).

(** The server hands out the guest id [guest-42]. *)
Definition world_ok : Mildom.env := world serverList_ok (PStr "guest-42") no_cookies.

(** The server hands out an empty guest id and the jar holds no [gid]. *)
Definition world_anonymous : Mildom.env := world serverList_ok (PStr "") no_cookies.

(** The primary dispatcher endpoint answers with an error object that has
    no [data] member; the fallback endpoint is healthy. *)
Definition world_nodata : Mildom.env :=
  world (Some (PDict [("code", PInt 1); ("message", PStr "error")]))
        (PStr "guest-42") no_cookies.

(** The primary dispatcher endpoint is unreachable. *)
Definition world_primary_down : Mildom.env := world None (PStr "guest-42") no_cookies.

(** [N] calls of the same method, one after the other. *)
Fixpoint calls {St A : Type} (m : M St A) (N : nat) (st : St) : list (res A) * St :=
  match N with
  | O => ([], st)
  | S N' =>
      let (r, st') := m st in
      let (rs, st'') := calls m N' st' in
      (r :: rs, st'')
  end.

Definition is_download_of (part : string) (ev : Mildom.event) : bool :=
  match ev with
  | Mildom.EvDownload url _ => contains part url
  | _ => false
  end.

Definition downloads_of (part : string) (tr : list Mildom.event) : nat :=
  List.length (filter (is_download_of part) tr).

(** *** Lazy producers that leave a note when they are evaluated *)

Definition producer (name : string) (outcome : res pyval)
  : unit -> M (list string) pyval :=
  fun _ notes => (outcome, notes ++ [name]).

(** The producers [[null, null, "X", "Y"]]. *)
Definition four_producers : list (unit -> M (list string) pyval) :=
  [producer "first" (Ok PNone); producer "second" (Ok PNone);
   producer "third" (Ok (PStr "X")); producer "fourth" (Ok (PStr "Y"))].

(** *** TwitCasting worlds *)

Definition tw_urljoin (base : string) (path : option string) : option string :=
  match path with
  | None => None
  | Some p => if String.eqb p "" then None else Some ("https://twitcasting.tv" ++ p)%string
  end.

Definition user_show : string := "https://twitcasting.tv/noriyukicas/show".
Definition user_live : string := "https://twitcasting.tv/noriyukicas".
Definition movie_url : string := "https://twitcasting.tv/noriyukicas/movie/189037369".
Definition manifest_url : string :=
  "https://dl01.twitcasting.tv/noriyukicas/download/189037369?dl=0&format=m3u8".

Definition archived_page : string := "<html><video data-movie-url=...></html>".
Definition online_page : string :=
  ("<html><div " ++ TwitCasting.online_marker ++ "></div></html>")%string.
Definition user_page : string := "<html>tw-sound-flag-open-link</html>".

Definition serve (movie_page : string) (t : nat) (url : string) (data : option string)
  : option string :=
  if String.eqb url user_show then Some "history page 1"
  else if String.eqb url (user_show ++ "/1-100") then Some "history page 2"
  else if String.eqb url (user_show ++ "/2-100") then Some "history page 3"
  else if String.eqb url movie_url then Some movie_page
  else if String.eqb url user_live then Some user_page
  else None.

Definition tw_world (movie_page : string) (hrefs : string -> list string)
    (next : string -> option string) : TwitCasting.env :=
  {| TwitCasting.download_webpage := serve movie_page;
     TwitCasting.match_valid_url :=
       fun url => if String.eqb url movie_url
                  then Some ("noriyukicas", "189037369") else None;
     TwitCasting.match_id :=
       fun url => if on_prefix user_live url then Some "noriyukicas" else None;
     TwitCasting.urlencode_postdata := fun _ => "password=abc";
     TwitCasting.html_search_meta := fun _ _ => PStr "Live #189037369";
     TwitCasting.movie_playlist_entry := fun _ => Raise TypeError;
     TwitCasting.search_movie_url := fun _ => PStr manifest_url;
     TwitCasting.extract_m3u8_formats :=
       fun _ u => Ok [PDict [("url", u); ("format_id", PStr "hls-0")]];
     TwitCasting.sort_formats :=
       fun fs => match fs with [] => Raise ExtractorError | _ => Ok fs end;
     TwitCasting.og_search_thumbnail := fun _ => PStr "https://twitcasting.tv/thumb.jpg";
     TwitCasting.description_of := fun _ => PStr "history";
     TwitCasting.float_or_none := fun v => v;
     TwitCasting.duration_fallback := fun _ => PInt 32;
     TwitCasting.view_count_of := fun _ => PInt 12;
     TwitCasting.timestamp_of := fun _ => PInt 1314010824;
     TwitCasting.search_current_live :=
       fun page => if String.eqb page user_page then Some "189037369" else None;
     TwitCasting.movie_hrefs := hrefs;
     TwitCasting.next_href := fun _ _ page => next page;
     TwitCasting.urljoin := tw_urljoin |}.

Definition href (n : string) : string := ("/noriyukicas/movie/" ++ n)%string.

Definition entry (n : string) : TwitCasting.url_result :=
  {| TwitCasting.ur_url := Some ("https://twitcasting.tv" ++ href n)%string;
     TwitCasting.ur_ie_key := None |}.

(** Three linked history pages [[a, b], [c], []]: the first two carry a
    next-page link, the third, which lists nothing, carries none. *)
Definition world_three_pages : TwitCasting.env :=
  tw_world archived_page
    (fun page => if String.eqb page "history page 1" then [href "1"; href "2"]
                 else if String.eqb page "history page 2" then [href "3"]
                 else [])
    (fun page => if String.eqb page "history page 1" then Some "/noriyukicas/show/1-100"
                 else if String.eqb page "history page 2" then Some "/noriyukicas/show/2-100"
                 else None).

(** The first history page lists nothing but links to a second page,
    which lists one movie and links no further. *)
Definition world_gap : TwitCasting.env :=
  tw_world archived_page
    (fun page => if String.eqb page "history page 2" then [href "3"] else [])
    (fun page => if String.eqb page "history page 1" then Some "/noriyukicas/show/1-100"
                 else None).

(** The movie page reports [data-status="online"]. *)
Definition world_online : TwitCasting.env :=
  tw_world online_page (fun _ => []) (fun _ => None).

(** A handler whose result points back at the URL it was given. *)
Definition loop_extract (url : string) (hint : option string)
  : M unit (Pipeline.extraction_result unit unit) :=
  fun st => (Ok (Pipeline.RedirectResult url hint), st).

End Examples.

(* ================================================================== *)
(** ** [yt_dlp/extractor/__init__.py]: listing and lookup *)
(* ================================================================== *)

Module Listing.

Import Registry.

(** [sorted(iterable, key=key)]: the stable arrangement of the items in
    non-decreasing order of their keys, strings being compared character
    by character.  It is computed here by insertion; an item goes in
    front of the first item whose key is not smaller. *)
Fixpoint insert_by {A : Type} (key : A -> string) (x : A) (l : list A) : list A :=
  match l with
  | [] => [x]
  | y :: l' =>
      if String.leb (key x) (key y) then x :: y :: l'
      else y :: insert_by key x l'
  end.

Fixpoint sorted {A : Type} (key : A -> string) (l : list A) : list A :=
  match l with
  | [] => []
  | x :: l' => insert_by key x (sorted key l')
  end.

(** [x] does not come after [y] in the order of their keys. *)
Definition key_le {A : Type} (key : A -> string) (x y : A) : Prop :=
  String.leb (key x) (key y) = true.

(** [gen_extractors]: one instance per class, in list order; an instance
    is identified with its class here. *)
Definition gen_extractors (m : module_state) : list klass :=
  gen_extractor_classes m.

Section WithHelpers.

(** [ie.is_suitable(age_limit)] of the base class and [str.lower]. *)
Variable is_suitable : klass -> nat -> bool.
Variable lower : string -> string.

(** [lambda ie: ie.IE_NAME.lower()] *)
Definition name_key (ie : klass) : string := lower (ie_name ie).

Definition list_extractors (m : module_state) (age_limit : nat) : list klass :=
  sorted name_key (filter (fun ie => is_suitable ie age_limit) (gen_extractors m)).

End WithHelpers.

(** [get_info_extractor(ie_name)]: [globals()[ie_name + 'IE']]. *)
Definition get_info_extractor (g : namespace) (name : string) : res klass :=
  match ns_lookup (name ++ "IE")%string g with
  | Some k => Ok k
  | None => Raise KeyError
  end.

End Listing.

(* ================================================================== *)
(** ** Mildom: what a history shows *)
(* ================================================================== *)

Module MildomObs.

Import Mildom.

Definition is_download (ev : event) : bool :=
  match ev with EvDownload _ _ => true | _ => false end.

Definition is_cookie_lookup (ev : event) : bool :=
  match ev with EvCookies _ => true | _ => false end.

(** Number of requests sent and of cookie-jar lookups in a history. *)
Definition requests (tr : list event) : nat := List.length (filter is_download tr).
Definition cookie_lookups (tr : list event) : nat :=
  List.length (filter is_cookie_lookup tr).

(** [m] sends at most [n] requests and looks at most [c] times into the
    cookie jar, from every state and whatever its outcome. *)
Definition costs_at_most {A : Type} (n c : nat) (m : M state A) : Prop :=
  forall st,
    exists evs,
      trace (snd (m st)) = trace st ++ evs /\
      requests evs <= n /\ cookie_lookups evs <= c.

(** The parameters [_common_queries] sets itself, given the timestamp,
    the guest id and the three members of the dispatcher configuration. *)
Definition default_queries (ts : string) (gid location country cluster : pyval)
  : list (string * pyval) :=
  [("timestamp", PStr ts);
   ("__guest_id", gid);
   ("__location", location);
   ("__country", country);
   ("__cluster", cluster);
   ("__platform", PStr "web");
   ("__la", PStr "ja");
   ("__pcv", PStr "v2.9.44");
   ("sfr", PStr "pc");
   ("accessToken", PStr "")].

End MildomObs.

(* ================================================================== *)
(** ** Further sample worlds *)
(* ================================================================== *)

Module Examples2.

Import Examples.

(** The primary dispatcher endpoint is unreachable, the server hands out
    an empty guest id and the jar holds no [gid] cookie. *)
Definition world_worst : Mildom.env := world None (PStr "") no_cookies.

(** An instance whose two caches are filled. *)
Definition warm : Mildom.state :=
  {| Mildom._GUEST_ID := PStr "guest-42";
     Mildom._DISPATCHER_CONFIG := dispatcher;
     Mildom.clock := 7;
     Mildom.trace := [] |}.

(** The first history page lists two movies and links to a second page
    whose download fails. *)
Definition world_broken : TwitCasting.env :=
  tw_world archived_page
    (fun page => if String.eqb page "history page 1" then [href "1"; href "2"] else [])
    (fun page => if String.eqb page "history page 1" then Some "/noriyukicas/show/9-999"
                 else None).

(** The [h5init] request fails; everything else is served as by
    [world_ok], and the jar holds a [gid] cookie for every domain. *)
Definition world_h5init_down : Mildom.env :=
  {| Mildom.net :=
       fun t url data =>
         if contains "/guest/h5init" url then None
         else net_with serverList_ok (PStr "guest-42") t url data;
     Mildom.now := Mildom.now world_ok;
     Mildom.choice := Mildom.choice world_ok;
     Mildom.jar := fun _ _ => [("gid", "cookie-7")];
     Mildom.update_url_query := Mildom.update_url_query world_ok;
     Mildom.b64decode := Mildom.b64decode world_ok;
     Mildom._parse_json := Mildom._parse_json world_ok;
     Mildom.serverListV2_data := Mildom.serverListV2_data world_ok;
     Mildom.user_agent := Mildom.user_agent world_ok;
     Mildom.fmt_s := Mildom.fmt_s world_ok |}.

End Examples2.





(* ================================================================== *)
(** ** The strings a regular expression matches *)
(* ================================================================== *)

Module RegexSem.

(** [lang r s]: the whole of [s] is matched by [r]. *)
Inductive lang : regex -> string -> Prop :=
| lang_eps : lang Eps ""
| lang_cls (p : ascii -> bool) (c : ascii) :
    p c = true -> lang (Cls p) (String c "")
| lang_seq (r1 r2 : regex) (s1 s2 : string) :
    lang r1 s1 -> lang r2 s2 -> lang (Seq r1 r2) (s1 ++ s2)
| lang_alt_l (r1 r2 : regex) (s : string) : lang r1 s -> lang (Alt r1 r2) s
| lang_alt_r (r1 r2 : regex) (s : string) : lang r2 s -> lang (Alt r1 r2) s
| lang_star_nil (r : regex) : lang (Star r) ""
| lang_star_cons (r : regex) (s1 s2 : string) :
    lang r s1 -> lang (Star r) s2 -> lang (Star r) (s1 ++ s2).

(** Every character of [s] satisfies [p]. *)
Fixpoint all_chars (p : ascii -> bool) (s : string) : bool :=
  match s with
  | EmptyString => true
  | String c s' => p c && all_chars p s'
  end.

End RegexSem.

(* ================================================================== *)
(** ** TwitCasting: patterns and the pieces of a media result *)
(* ================================================================== *)

Module TwitCastingParts.

Import TwitCasting.

(** [[^/]] *)
Definition not_slash (c : ascii) : bool := negb (Ascii.eqb c "/").

(** [TwitCastingIE._VALID_URL]:
    [https?://(?:[^/]+\.)?twitcasting\.tv/(?P<uploader_id>[^/]+)/(?:movie|twplayer)/(?P<id>\d+)].
    [\d] is taken as the ASCII digits, which it contains. *)
Definition TwitCastingIE_VALID_URL : regex :=
  Seq (Lit "http")
  (Seq (Opt (Chr "s"))
  (Seq (Lit "://")
  (Seq (Opt (Seq (Plus (Cls not_slash)) (Chr ".")))
  (Seq (Lit "twitcasting.tv/")
  (Seq (Plus (Cls not_slash))
  (Seq (Chr "/")
  (Seq (Alt (Lit "movie") (Lit "twplayer"))
  (Seq (Chr "/")
       (Plus (Cls Nhk.is_digit)))))))))).

Section WithEnv.
Variable E : env.

(** The value of [video_js_data] when its producer does not fail the
    extraction: the playlist entry when the page has one that is a
    dictionary, otherwise the empty dictionary. *)
Definition video_js_data_of (webpage : string) : pyval :=
  match movie_playlist_entry E webpage with
  | Ok (PDict d) => PDict d
  | _ => PDict []
  end.

(** The exception with which the producer of [video_js_data] leaves
    [try_get], if any: a failure that is no lookup failure, such as the
    [ExtractorError] of [_parse_json] on a [data-movie-playlist] attribute
    that is not JSON. *)
Definition playlist_failure (webpage : string) : option exn :=
  match movie_playlist_entry E webpage with
  | Raise e => if passes_over e then None else Some e
  | _ => None
  end.

(** The value of [m3u8_url]: the page's [data-movie-url] if it is a
    string, else the playlist's source URL if it is one, else the
    [metastream] URL of the uploader for a live page, else [None]. *)
Definition m3u8_choice (is_live : bool) (uploader_id webpage : string)
    (video_js_data : pyval) : pyval :=
  if compat_str (search_movie_url E webpage) then search_movie_url E webpage
  else
    match source_url video_js_data with
    | Ok (PStr s) => PStr s
    | _ =>
        if is_live
        then PStr ("https://twitcasting.tv/" ++ uploader_id ++ "/metastream.m3u8")%string
        else PNone
    end.

(** The single format of a page that is not live. *)
Definition hls_format (m3u8_url : pyval) : pyval :=
  PDict [("url", m3u8_url);
         ("format_id", PStr "hls");
         ("ext", PStr "mp4");
         ("protocol", PStr "m3u8");
         ("http_headers", twitcasting_headers);
         ("input_params", PList [PStr "-re"])].

(** [video_js_data.get(key)]. *)
Definition js_get (webpage key : string) : pyval :=
  match dict_get (video_js_data_of webpage) key PNone with
  | Ok v => v
  | _ => PNone
  end.

(** The result for a page, given its formats. *)
Definition result_for (uploader_id video_id webpage : string) (formats : list pyval)
  : media_result :=
  info_dict E uploader_id video_id webpage
    (html_search_meta E ["og:title"; "twitter:title"] webpage)
    (js_get webpage "thumbnailUrl") (js_get webpage "duration") formats.

(** A chain of history pages that breaks: the pages fetched before a
    download raises [e], with their entries. *)
Inductive broken_history (uploader_id base_url : string)
  : nat -> string -> state -> list (list url_result) -> exn -> state -> Prop :=
| broken_here (page_num : nat) (url : string) (st st1 : state) (e : exn) :
    _download_webpage E url None st = (Raise e, st1) ->
    broken_history uploader_id base_url page_num url st [] e st1
| broken_later (page_num : nat) (url webpage next : string) (st st1 st' : state)
    (rest : list (list url_result)) (e : exn) :
    _download_webpage E url None st = (Ok webpage, st1) ->
    urljoin E base_url (next_href E uploader_id page_num webpage) = Some next ->
    falsy_url (Some next) = false ->
    broken_history uploader_id base_url (S page_num) next
                   (with_yielded st1 (page_entries E base_url webpage)) rest e st' ->
    broken_history uploader_id base_url page_num url st
                   (page_entries E base_url webpage :: rest) e st'.

End WithEnv.

End TwitCastingParts.





(* ================================================================== *)
(** ** [yt_dlp/extractor/nhk.py]: NHK World on demand *)
(* ================================================================== *)

Module NhkWorld.

(** The world and the helpers the extractors call.
    - [download_json t url]: [_download_json] (the API key is part of the
      request); [None] is the [ExtractorError] it raises;
    - [vod_groups url]: the groups [(lang, type, id)] of
      [NhkVodIE._match_valid_url(url)], [None] when there is no match;
    - [program_groups url]: the groups [(lang, type, id, episode_type)] of
      [NhkVodProgramIE._match_valid_url(url)];
    - [extract_m3u8_formats t url]: [_extract_m3u8_formats] called with
      [fatal=False], which gives an empty list when the manifest cannot be
      had;
    - [sort_formats]: [_sort_formats], which raises on no formats;
    - [urljoin base path] ([None]: no usable URL) and [fmt_s] (['%s' % v]);
    - [unicode_isdigit c]: [c.isdigit()] for one character [c] outside
      ASCII, as the Unicode database of the interpreter has it (the
      decimal digits of other scripts, superscript digits and the like). *)
Record env : Type := {
  unicode_isdigit : string -> bool;
  download_json : nat -> string -> option pyval;
  vod_groups : string -> option (string * string * string);
  program_groups : string -> option (string * string * string * option string);
  extract_m3u8_formats : nat -> string -> list pyval;
  sort_formats : list pyval -> res (list pyval);
  urljoin : string -> pyval -> option string;
  fmt_s : pyval -> string
}.

Inductive event : Type :=
| EvApi (url : string)
| EvManifest (url : string).

Record state : Type := { clock : nat; trace : list event }.

Definition fresh : state := {| clock := 0; trace := [] |}.

Definition tick (ev : event) : M state nat :=
  fun st => (Ok (clock st), {| clock := S (clock st); trace := trace st ++ [ev] |}).

Record thumbnail : Type := {
  th_id : string;
  th_height : nat;
  th_width : nat;
  th_url : string
}.

(** The [info] dictionary of [_extract_episode_info]; the last four
    members are absent unless set. *)
Record info : Type := {
  i_id : string;
  i_title : pyval;
  i_description : pyval;
  i_thumbnails : list thumbnail;
  i_series : pyval;
  i_episode : pyval;
  i_type : option string;
  i_ie_key : option string;
  i_url : option string;
  i_formats : option (list pyval)
}.

Record playlist : Type := {
  pl_entries : list info;
  pl_id : string;
  pl_title : pyval
}.

(** The characters of a text.  A [string] holds the UTF-8 encoding of a
    text, so a character is a byte that is no continuation byte
    ([10xxxxxx]) together with the continuation bytes that follow it; an
    ASCII character is one byte. *)
Definition is_continuation (c : ascii) : bool :=
  let n := nat_of_ascii c in (128 <=? n)%nat && (n <? 192)%nat.

Fixpoint chars (s : string) : list string :=
  match s with
  | EmptyString => []
  | String c rest =>
      let cs := chars rest in
      match rest with
      | String c' _ =>
          if is_continuation c' then
            match cs with
            | g :: gs => String c g :: gs
            | [] => [String c EmptyString]
            end
          else String c EmptyString :: cs
      | EmptyString => [String c EmptyString]
      end
  end.

(** [s[:n]] and [s[n:]], counted in characters. *)
Definition take (n : nat) (s : string) : string :=
  String.concat "" (firstn n (chars s)).
Definition drop (n : nat) (s : string) : string :=
  String.concat "" (skipn n (chars s)).

(** [_API_URL_TEMPLATE % (...)]. *)
Definition api_url (m_id lang : string) (is_video is_episode is_clip : bool) : string :=
  ("https://api.nhk.or.jp/nhkworld/" ++ (if is_video then "v" else "r")
   ++ "od" ++ (if is_clip then "clip" else "esd")
   ++ "list/v7a/" ++ (if is_episode then "episode" else "program")
   ++ "/" ++ m_id ++ "/" ++ lang ++ "/all" ++ (if is_video then "/all" else "")
   ++ ".json")%string.

(** [v[0]]. *)
Definition first_item (v : pyval) : res pyval :=
  match v with
  | PList (x :: _) => Ok x
  | PList [] => Raise IndexError
  | PStr s =>
      match chars s with
      | c :: _ => Ok (PStr c)
      | [] => Raise IndexError
      end
  | PDict _ => Raise KeyError
  | _ => Raise TypeError
  end.

(** [for x in v]: the items a loop over [v] sees. *)
Definition iter_items (v : pyval) : res (list pyval) :=
  match v with
  | PList l => Ok l
  | PDict d => Ok (map (fun kv => PStr (fst kv)) d)
  | PStr s => Ok (map PStr (chars s))
  | _ => Raise TypeError
  end.

(** ['https://...' + v]: only text can be appended to text. *)
Definition str_add (prefix : string) (v : pyval) : res string :=
  match v with
  | PStr s => Ok (prefix ++ s)%string
  | _ => Raise TypeError
  end.

(** [f['language'] = lang] for every format. *)
Fixpoint set_language (lang : string) (fs : list pyval) : res (list pyval) :=
  match fs with
  | [] => Ok []
  | PDict d :: rest =>
      match set_language lang rest with
      | Ok rest' => Ok (PDict (Mildom.dict_set "language" (PStr lang) d) :: rest')
      | other => other
      end
  | _ :: _ => Raise TypeError
  end.

Definition sizes : list (string * nat * nat) := [("", 640, 360); ("_l", 1280, 720)].

Definition height_id (h : nat) : string :=
  (NilZero.string_of_uint (Nat.to_uint h) ++ "p")%string.

(** The loop over [('', 640, 360)] and [('_l', 1280, 720)]. *)
Fixpoint thumbnails_of (episode : pyval) (todo : list (string * nat * nat))
  : res (list thumbnail) :=
  match todo with
  | [] => Ok []
  | (s, w, h) :: rest =>
      match dict_get episode ("image" ++ s)%string PNone with
      | Ok img_path =>
          if negb (truthy img_path) then thumbnails_of episode rest
          else
            match str_add "https://www3.nhk.or.jp" img_path with
            | Ok url =>
                match thumbnails_of episode rest with
                | Ok ths => Ok ({| th_id := height_id h; th_height := h;
                                   th_width := w; th_url := url |} :: ths)
                | Raise e => Raise e
                | NoFuel => NoFuel
                end
            | Raise e => Raise e
            | NoFuel => NoFuel
            end
      | Raise e => Raise e
      | NoFuel => NoFuel
      end
  end.

Section WithEnv.
Variable E : env.

Definition _download_json (url : string) : M state pyval :=
  (t <- tick (EvApi url) ;;
   match download_json E t url with
   | Some v => ret v
   | None => raise ExtractorError
   end)%py.

(** [NhkBaseIE._call_api]: [...['data']['episodes'] or []]. *)
Definition _call_api (m_id lang : string) (is_video is_episode is_clip : bool)
  : M state pyval :=
  (resp <- _download_json (api_url m_id lang is_video is_episode is_clip) ;;
   data <- lift (getitem resp "data") ;;
   episodes <- lift (getitem data "episodes") ;;
   ret (py_or episodes (PList [])))%py.

(** [get_clean_field(key)]. *)
Definition get_clean_field (episode : pyval) (key : string) : res pyval :=
  match dict_get episode (key ++ "_clean")%string PNone with
  | Ok v =>
      if truthy v then Ok v else dict_get episode key PNone
  | other => other
  end.

(** [episode.get('sub_title_clean') or episode['sub_title']]. *)
Definition episode_title (episode : pyval) : res pyval :=
  match dict_get episode "sub_title_clean" PNone with
  | Ok v => if truthy v then Ok v else getitem episode "sub_title"
  | other => other
  end.

(** [c.isdigit()] for one character: among the ASCII characters the ten
    digits, for any other character what the Unicode database says. *)
Definition char_isdigit (c : string) : bool :=
  match c with
  | String a EmptyString =>
      if (nat_of_ascii a <? 128)%nat then Nhk.is_digit a else unicode_isdigit E c
  | _ => unicode_isdigit E c
  end.

(** [s.isdigit()]: at least one character, and every character a digit. *)
Definition isdigit (s : string) : bool :=
  match chars s with
  | [] => false
  | cs => forallb char_isdigit cs
  end.

(** The episode id as the API wants it: an id that is all digits gets a
    dash after its fourth character. *)
Definition normalize_id (episode_id : string) : string :=
  if isdigit episode_id
  then (take 4 episode_id ++ "-" ++ drop 4 episode_id)%string
  else episode_id.

(** [NhkBaseIE._extract_episode_info(url, episode)]; [url] is [None] when
    the caller's [urljoin] gave nothing, which the pattern match rejects. *)
Definition _extract_episode_info (url : option string) (episode : option pyval)
  : M state info :=
  match url with
  | None => raise TypeError
  | Some url =>
      match vod_groups E url with
      | None => raise AttributeError
      | Some (lang, m_type, raw_id) =>
          (let fetch_episode :=
             match episode with None => true | Some _ => false end in
           let episode_id := normalize_id raw_id in
           let is_video := String.eqb m_type "video" in
           episode <- match episode with
                      | Some ep => ret ep
                      | None =>
                          eps <- _call_api episode_id lang is_video true
                                   (String.eqb (take 4 episode_id) "9999") ;;
                          lift (first_item eps)
                      end ;;
           title <- lift (episode_title episode) ;;
           series <- lift (get_clean_field episode "title") ;;
           thumbnails <- lift (thumbnails_of episode sizes) ;;
           description <- lift (get_clean_field episode "description") ;;
           let info0 :=
             {| i_id := (episode_id ++ "-" ++ lang)%string;
                i_title := if truthy series && truthy title
                           then PStr (fmt_s E series ++ " - " ++ fmt_s E title)%string
                           else title;
                i_description := description;
                i_thumbnails := thumbnails;
                i_series := series;
                i_episode := title;
                i_type := None; i_ie_key := None; i_url := None;
                i_formats := None |} in
           if is_video then
             vod_id <- lift (getitem episode "vod_id") ;;
             target <- lift (str_add "https://player.piksel.com/v/refid/nhkworld/prefid/"
                                     vod_id) ;;
             ret {| i_id := match vod_id with PStr s => s | _ => i_id info0 end;
                    i_title := i_title info0;
                    i_description := i_description info0;
                    i_thumbnails := i_thumbnails info0;
                    i_series := i_series info0;
                    i_episode := i_episode info0;
                    i_type := Some "url_transparent";
                    i_ie_key := Some "Piksel";
                    i_url := Some target;
                    i_formats := None |}
           else if fetch_episode then
             audio <- lift (getitem episode "audio") ;;
             audio_path <- lift (getitem audio "audio") ;;
             t <- tick (EvManifest ("https://nhkworld-vh.akamaihd.net/i"
                                    ++ fmt_s E audio_path ++ "/master.m3u8")%string) ;;
             fs <- lift (set_language lang
                           (extract_m3u8_formats E t
                              ("https://nhkworld-vh.akamaihd.net/i"
                               ++ fmt_s E audio_path ++ "/master.m3u8")%string)) ;;
             sorted <- lift (sort_formats E fs) ;;
             ret {| i_id := i_id info0;
                    i_title := i_title info0;
                    i_description := i_description info0;
                    i_thumbnails := i_thumbnails info0;
                    i_series := i_series info0;
                    i_episode := i_episode info0;
                    i_type := None; i_ie_key := None; i_url := None;
                    i_formats := Some sorted |}
           else
             ret {| i_id := i_id info0;
                    i_title := i_title info0;
                    i_description := i_description info0;
                    i_thumbnails := i_thumbnails info0;
                    i_series := i_series info0;
                    i_episode := i_episode info0;
                    i_type := Some "url_transparent";
                    i_ie_key := Some "NhkVod";
                    i_url := Some url;
                    i_formats := None |})%py
      end
  end.

(** [NhkVodIE._real_extract]. *)
Definition NhkVodIE_real_extract (url : string) : M state info :=
  _extract_episode_info (Some url) None.

(** The loop of [NhkVodProgramIE._real_extract] over the episodes. *)
Fixpoint program_entries (url : string) (episodes : list pyval) (entries : list info)
  : M state (list info) :=
  match episodes with
  | [] => ret entries
  | episode :: rest =>
      (episode_path <- lift (dict_get episode "url" PNone) ;;
       if negb (truthy episode_path) then program_entries url rest entries
       else
         entry <- _extract_episode_info (urljoin E url episode_path) (Some episode) ;;
         program_entries url rest (entries ++ [entry]))%py
  end.

(** [NhkVodProgramIE._real_extract]. *)
Definition NhkVodProgramIE_real_extract (url : string) : M state playlist :=
  match program_groups E url with
  | None => raise AttributeError
  | Some (lang, m_type, program_id, episode_type) =>
      (episodes <- _call_api program_id lang (String.eqb m_type "video") false
                     (match episode_type with
                      | Some ty => String.eqb ty "clip"
                      | None => false
                      end) ;;
       items <- lift (iter_items episodes) ;;
       entries <- program_entries url items [] ;;
       ret {| pl_entries := entries;
              pl_id := program_id;
              pl_title := match entries with
                          | e :: _ => i_series e
                          | [] => PNone
                          end |})%py
  end.

End WithEnv.

(** *** [NhkForSchoolBangumiIE]: chapters *)

Record chapter : Type := {
  start_time : pyval;
  end_time : pyval;
  ch_title : string
}.

(** [zip(start_time, end_time, chapter_titles)]. *)
Fixpoint zip3 (starts ends : list pyval) (titles : list string) : list chapter :=
  match starts, ends, titles with
  | s :: starts', e :: ends', t :: titles' =>
      {| start_time := s; end_time := e; ch_title := t |} :: zip3 starts' ends' titles'
  | _, _, _ => []
  end.

(** The [chapters] member: [None] unless both lists are non-empty and of
    the same length. *)
Definition chapters_of (chapter_durations : list pyval) (chapter_titles : list string)
    (duration : pyval) : option (list chapter) :=
  match chapter_durations, chapter_titles with
  | _ :: _, _ :: _ =>
      if Nat.eqb (List.length chapter_durations) (List.length chapter_titles)
      then Some (zip3 chapter_durations (tl chapter_durations ++ [duration])
                      chapter_titles)
      else None
  | _, _ => None
  end.

End NhkWorld.



(* ================================================================== *)
(** ** NHK World: what an entry of a program listing is *)
(* ================================================================== *)

Module NhkEntries.

Import NhkWorld.

(** A transparent redirect that carries no formats of its own. *)
Definition redirect_only (i : info) : Prop :=
  i_type i = Some "url_transparent" /\ i_formats i = None.

End NhkEntries.

(* ================================================================== *)
(** ** A sample NHK World *)
(* ================================================================== *)

Module Examples3.

Import NhkWorld.

Definition audio_url : string :=
  "https://www3.nhk.or.jp/nhkworld/en/ondemand/audio/plugin-20190404-1/".
Definition video_url : string :=
  "https://www3.nhk.or.jp/nhkworld/en/ondemand/video/9999011/".
Definition program_url : string :=
  "https://www3.nhk.or.jp/nhkworld/en/ondemand/program/audio/listener/".

Definition audio_episode : pyval :=
  PDict [("url", PStr "/nhkworld/en/ondemand/audio/plugin-20190404-1/");
         ("sub_title", PStr "Miniature Video Cameras");
         ("title", PStr "Japan's Top Inventions");
         ("image", PStr "/nhkworld/en/ondemand/audio/plugin/1.jpg");
         ("audio", PDict [("audio", PStr "/radioondemand/plugin-20190404-1")])].

(** An episode of the listing that has no page of its own. *)
Definition unlisted_episode : pyval :=
  PDict [("sub_title", PStr "Coming soon"); ("title", PStr "Japan's Top Inventions")].

Definition episodes_answer (episodes : pyval) : option pyval :=
  Some (PDict [("data", PDict [("episodes", episodes)])]).

(** The API knows the program [listener] with two episodes, the audio
    episode [plugin-20190404-1], and no video episode [9999-011]. *)
Definition nhk_world : env :=
  {| unicode_isdigit :=
       (* the Arabic-Indic digits U+0660 to U+0669 *)
       fun c =>
         match c with
         | String a (String b EmptyString) =>
             (nat_of_ascii a =? 217)%nat
             && (160 <=? nat_of_ascii b)%nat && (nat_of_ascii b <=? 169)%nat
         | _ => false
         end;
     download_json :=
       fun _ url =>
         if String.eqb url (api_url "listener" "en" false false false)
         then episodes_answer (PList [unlisted_episode; audio_episode])
         else if String.eqb url (api_url "plugin-20190404-1" "en" false true false)
         then episodes_answer (PList [audio_episode])
         else if String.eqb url (api_url "9999-011" "en" true true true)
         then episodes_answer PNone
         else None;
     vod_groups :=
       fun url =>
         if String.eqb url audio_url then Some ("en", "audio", "plugin-20190404-1")
         else if String.eqb url video_url then Some ("en", "video", "9999011")
         else None;
     program_groups :=
       fun url =>
         if String.eqb url program_url then Some ("en", "audio", "listener", None)
         else None;
     extract_m3u8_formats := fun _ u => [PDict [("url", PStr u)]];
     sort_formats := fun fs => match fs with [] => Raise ExtractorError | _ => Ok fs end;
     urljoin :=
       fun _ path => match path with
                     | PStr p => Some ("https://www3.nhk.or.jp" ++ p)%string
                     | _ => None
                     end;
     fmt_s := Examples.fmt |}.

(** An id of seven Arabic-Indic digits, U+0662 U+0660 U+0661 U+0665
    U+0661 U+0667 U+0663, two bytes each. *)
Definition arabic_indic (n : nat) : string :=
  String (ascii_of_nat 217) (String (ascii_of_nat (160 + n)) EmptyString).

Definition arabic_indic_id : string :=
  String.concat "" (map arabic_indic [2; 0; 1; 5; 1; 7; 3]).

End Examples3.

(* ================================================================== *)
(** ** Mildom: the query of the proxied stream URLs *)
(* ================================================================== *)

Module MildomStreams.

Import Mildom.

(** [del d[k]] on an insertion-ordered dictionary: [KeyError] when the
    key is absent. *)
Fixpoint dict_del (k : string) (d : list (string * pyval))
  : res (list (string * pyval)) :=
  match d with
  | [] => Raise KeyError
  | (k', v) :: d' =>
      if String.eqb k k' then Ok d'
      else match dict_del k d' with
           | Ok r => Ok ((k', v) :: r)
           | Raise e => Raise e
           | NoFuel => NoFuel
           end
  end.

(** The parameters a proxied stream URL carries. *)
Definition stream_params (gid location country cluster : pyval)
  : list (string * pyval) :=
  [("__guest_id", gid);
   ("__location", location);
   ("__country", country);
   ("__cluster", cluster);
   ("__platform", PStr "web");
   ("__la", PStr "ja");
   ("__pcv", PStr "v2.9.44");
   ("sfr", PStr "pc");
   ("accessToken", PStr "");
   ("is_lhls", PStr "0")].

Section WithEnv.

Variable E : env.
Variable guest_id : M state pyval.

(** [MildomVodIE._real_extract], the stream query:
    [stream_query = self._common_queries({'is_lhls': '0'})] and then
    [del stream_query['timestamp']]. *)
Definition vod_stream_query : M state (list (string * pyval)) :=
  (stream_query <- _common_queries E guest_id [("is_lhls", PStr "0")] false ;;
   lift (dict_del "timestamp" stream_query))%py.

(** [MildomIE._real_extract], the stream query: [_common_queries] with
    the request id [random_uuidv4()] gave, then the manifest request,
    which reads the query ([manifest] stands for it), then
    [del stream_query['streamReqId'], stream_query['timestamp']]. *)
Definition live_stream_query {A : Type} (uuid : string)
    (manifest : list (string * pyval) -> M state A)
  : M state (A * list (string * pyval)) :=
  (stream_query <- _common_queries E guest_id
                     [("streamReqId", PStr uuid); ("is_lhls", PStr "0")] false ;;
   formats <- manifest stream_query ;;
   stream_query <- lift (dict_del "streamReqId" stream_query) ;;
   stream_query <- lift (dict_del "timestamp" stream_query) ;;
   ret (formats, stream_query))%py.

End WithEnv.

End MildomStreams.

(* ================================================================== *)
(** * Properties *)
(* ================================================================== *)

(** ** The extractor list *)

Section RegistryFacts.
Import Registry.

Lemma resolve_from_app (l r : list klass) (url : string) (i : nat) :
  resolve_from i (l ++ r) url =
  match resolve_from i l url with
  | Some x => Some x
  | None => resolve_from (i + List.length l) r url
  end.
Proof.
  revert i; induction l as [|k l IH]; intros i; simpl.
  - now rewrite Nat.add_0_r.
  - destruct (suitable k url); [reflexivity|].
    rewrite IH. now rewrite Nat.add_succ_comm.
Qed.

Lemma resolve_from_none (l : list klass) (url : string) (i : nat) :
  resolve_from i l url = None <-> Forall (fun k => suitable k url = false) l.
Proof.
  revert i; induction l as [|k l IH]; intros i; simpl.
  - split; auto.
  - destruct (suitable k url) eqn:Hk.
    + split; [discriminate|]. intros H; inversion H; congruence.
    + rewrite IH. split; [now constructor|]. intros H; now inversion H.
Qed.

Lemma resolve_from_some_lt (l : list klass) (url : string) (i j : nat) (k : klass) :
  resolve_from i l url = Some (j, k) -> j < i + List.length l.
Proof.
  revert i; induction l as [|c l IH]; intros i; simpl; [discriminate|].
  destruct (suitable c url).
  - intros H; inversion H; subst. lia.
  - intros H. apply IH in H. lia.
Qed.

End RegistryFacts.

Section RegistryOrder.
Import Registry.

(** How first-match resolution behaves on a list with a distinguished last
    entry. *)
Lemma resolve_last_entry (front : list klass) (c : klass) (url : string) :
  (forall i k, resolve (front ++ [c]) url = Some (i, k) ->
     i = List.length front ->
     k = c /\ Forall (fun x => suitable x url = false) front) /\
  (forall i k, resolve (front ++ [c]) url = Some (i, k) ->
     i < List.length front -> resolve front url = Some (i, k)) /\
  (Forall (fun x => suitable x url = false) front ->
     suitable c url = true ->
     resolve (front ++ [c]) url = Some (List.length front, c)).
Proof.
  unfold resolve. rewrite resolve_from_app. simpl.
  destruct (resolve_from 0 front url) as [[j k']|] eqn:Hf.
  - pose proof (resolve_from_some_lt _ _ _ _ _ Hf) as Hlt. simpl in Hlt.
    split; [|split].
    + intros i k H Hi. inversion H; subst. lia.
    + intros i k H _. exact H.
    + intros Hall _. apply (resolve_from_none front url 0) in Hall. congruence.
  - apply (resolve_from_none front url 0) in Hf.
    destruct (suitable c url) eqn:Hc.
    + split; [|split].
      * intros i k H _. inversion H; subst. split; [reflexivity | exact Hf].
      * intros i k H Hi. inversion H; subst. lia.
      * reflexivity.
    + split; [|split]; discriminate.
Qed.

Lemma last_of_app (a b : list klass) (d : klass) :
  b <> [] -> last (a ++ b) d = last b d.
Proof.
  intros Hb. induction a as [|x a IH]; [reflexivity|].
  simpl. destruct (a ++ b) eqn:Hab; [|exact IH].
  apply app_eq_nil in Hab. destruct Hab as [_ Hab]. contradiction.
Qed.

(** C1.  A successful import, whatever the environment, the namespace and
    the plugins are.  When the generated lazy module was not loaded, the
    list of [gen_extractor_classes] is the plugin classes, then the
    comprehension over the namespace, then [GenericIE]: the class bound to
    that name is the last entry wherever the name was bound, and under
    first-match resolution the last position is chosen only when no entry
    in front of it, plugin or built-in, is suitable for the URL, and it is
    chosen whenever none is and the catch-all matches.  When the lazy
    module was loaded, nothing is appended: the list is the plugin classes
    followed by the list that module exports, in its order, and its last
    entry is the last entry of the exported list. *)
Theorem generic_last_when_eager
    (no_lazy : bool) (lazy_module : option (list klass))
    (extractors plugins : namespace) (m : module_state) :
  module_init no_lazy lazy_module extractors plugins = Ok m ->
  if _LAZY_LOADER m
  then
    no_lazy = false /\
    exists exported,
      lazy_module = Some exported /\
      gen_extractor_classes m = map snd plugins ++ exported /\
      forall d, exported <> [] -> last (gen_extractor_classes m) d = last exported d
  else
    (no_lazy = true \/ lazy_module = None) /\
    exists generic,
      ns_lookup "GenericIE" extractors = Some generic /\
      let front := map snd plugins ++ eager_classes extractors in
      gen_extractor_classes m = front ++ [generic] /\
      (forall d, last (gen_extractor_classes m) d = generic) /\
      forall url,
        (forall i k,
            resolve (gen_extractor_classes m) url = Some (i, k) ->
            i = List.length front ->
            k = generic /\ Forall (fun x => suitable x url = false) front) /\
        (forall i k,
            resolve (gen_extractor_classes m) url = Some (i, k) ->
            i < List.length front -> resolve front url = Some (i, k)) /\
        (Forall (fun x => suitable x url = false) front ->
         suitable generic url = true ->
         resolve (gen_extractor_classes m) url = Some (List.length front, generic)).
Proof.
  intros Hinit.
  assert (Heager :
    forall g,
      ns_lookup "GenericIE" extractors = Some g ->
      m = {| _LAZY_LOADER := false;
             _ALL_CLASSES := map snd plugins ++ eager_classes extractors ++ [g];
             _SELFHOSTED_CLASSES := filter _SELF_HOSTED (eager_classes extractors);
             _PLUGIN_CLASSES := plugins |} ->
      exists generic,
        ns_lookup "GenericIE" extractors = Some generic /\
        let front := map snd plugins ++ eager_classes extractors in
        gen_extractor_classes m = front ++ [generic] /\
        (forall d, last (gen_extractor_classes m) d = generic) /\
        forall url,
          (forall i k,
              resolve (gen_extractor_classes m) url = Some (i, k) ->
              i = List.length front ->
              k = generic /\ Forall (fun x => suitable x url = false) front) /\
          (forall i k,
              resolve (gen_extractor_classes m) url = Some (i, k) ->
              i < List.length front -> resolve front url = Some (i, k)) /\
          (Forall (fun x => suitable x url = false) front ->
           suitable generic url = true ->
           resolve (gen_extractor_classes m) url = Some (List.length front, generic))).
  { intros g Hg ->. exists g. split; [exact Hg|]. cbv zeta.
    unfold gen_extractor_classes. cbn [_ALL_CLASSES]. rewrite app_assoc.
    split; [reflexivity|]. split; [intros d; apply last_last|].
    intros url. apply resolve_last_entry. }
  unfold module_init in Hinit.
  destruct no_lazy; simpl in Hinit.
  - destruct (ns_lookup "GenericIE" extractors) as [g|] eqn:Hg; [|discriminate].
    injection Hinit as Hm. symmetry in Hm.
    assert (Hl : _LAZY_LOADER m = false) by now rewrite Hm.
    rewrite Hl. split; [now left|]. exact (Heager g eq_refl Hm).
  - destruct lazy_module as [all|].
    + injection Hinit as Hm. subst m. cbn [_LAZY_LOADER].
      split; [reflexivity|]. exists all. split; [reflexivity|].
      unfold gen_extractor_classes. cbn [_ALL_CLASSES].
      split; [reflexivity|]. intros d Hne. now apply last_of_app.
    + destruct (ns_lookup "GenericIE" extractors) as [g|] eqn:Hg; [|discriminate].
      injection Hinit as Hm. symmetry in Hm.
      assert (Hl : _LAZY_LOADER m = false) by now rewrite Hm.
      rewrite Hl. split; [now right|]. exact (Heager g eq_refl Hm).
Qed.

(** The eager import of the sample namespace, in which [GenericIE] was
    bound first: the plugin comes first, the catch-all last, and a Mildom
    URL resolves to the Mildom extractor in front of it. *)
Lemma generic_last_when_eager_witness :
  module_init true None Examples.extractors_ns Examples.plugins_ns
  = Ok Examples.eager_module /\
  gen_extractor_classes Examples.eager_module
  = (map snd Examples.plugins_ns ++ eager_classes Examples.extractors_ns)
    ++ [Examples.GenericIE] /\
  last (gen_extractor_classes Examples.eager_module) Examples.MildomIE
  = Examples.GenericIE.
Proof.
  split; [reflexivity|].
  destruct (generic_last_when_eager true None Examples.extractors_ns
              Examples.plugins_ns Examples.eager_module eq_refl)
    as (_ & generic & Hg & Hlist & Hlast & _).
  injection Hg as <-. split; [exact Hlist | exact (Hlast Examples.MildomIE)].
Defined.

(** A generated module that exports [GenericIE] in front of the Mildom
    extractor: the import succeeds, the catch-all is not the last entry,
    and a Mildom URL resolves to the catch-all although the Mildom
    extractor is suitable for it. *)
Lemma lazy_list_taken_as_exported :
  exists m,
    module_init false (Some [Examples.GenericIE; Examples.MildomIE])
      Examples.extractors_ns Examples.plugins_ns = Ok m /\
    gen_extractor_classes m
    = [Examples.SamplePluginIE; Examples.GenericIE; Examples.MildomIE] /\
    ie_name (last (gen_extractor_classes m) Examples.GenericIE) = "mildom" /\
    suitable Examples.MildomIE "https://www.mildom.com/10534224" = true /\
    resolve (gen_extractor_classes m) "https://www.mildom.com/10534224"
    = Some (1, Examples.GenericIE).
Proof.
  eexists. split; [reflexivity|]. vm_compute. repeat split.
Qed.

End RegistryOrder.

(** ** Mildom: the dispatcher configuration *)

Section MildomConfig.
Import Mildom.
Variable E : env.

Lemma fetch_cached (st : state) :
  truthy (_DISPATCHER_CONFIG st) = true ->
  _fetch_dispatcher_config E st = (Ok (_DISPATCHER_CONFIG st), st).
Proof.
  intros H. unfold _fetch_dispatcher_config, bind, get_DISPATCHER_CONFIG, ret.
  simpl. rewrite H. reflexivity.
Qed.

Lemma proxy_host_known (n : nat) :
  In (nth (n mod List.length _MILDOM_PROXY_HOSTS) _MILDOM_PROXY_HOSTS "")
     _MILDOM_PROXY_HOSTS.
Proof.
  apply nth_In. apply Nat.mod_upper_bound. simpl. discriminate.
Qed.

Lemma getitem_fuel (v : pyval) (key : string) : getitem v key <> NoFuel.
Proof.
  destruct v; simpl; try discriminate.
  destruct (assoc key d); discriminate.
Qed.

Lemma decode_serverList_fuel (tmp : pyval) : decode_serverList E tmp <> NoFuel.
Proof.
  unfold decode_serverList, py_b64decode, parse_json.
  pose proof (getitem_fuel tmp "data") as Hg.
  destruct (getitem tmp "data") as [d|e|]; try discriminate; [|congruence].
  destruct d; try discriminate.
  destruct (b64decode E s); try discriminate.
  destruct (_parse_json E s0); discriminate.
Qed.

(** C4 (amended).  With nothing cached, the lookup reads the clock and
    sends the primary request first.  When the download and the decoding
    of its answer succeed, that value is stored and returned and nothing
    else is requested.  When the primary attempt raises [ExtractorError]
    (the download failed, or the decoded payload is not JSON), exactly one
    further request is made, to the fallback path on a host drawn from the
    proxy hosts; its answer is stored and returned, and if it fails too
    the lookup fails with [ExtractorError] after these two requests.  Any
    other exception of the primary attempt leaves the lookup at once. *)
Theorem fetch_dispatcher_config_two_tier (st : state) :
  truthy (_DISPATCHER_CONFIG st) = false ->
  let t := clock st in
  let data := Some (serverListV2_data E (now E t) (user_agent E)) in
  let req1 := EvDownload serverListV2_url data in
  let primary :=
    match net E (S t) serverListV2_url data with
    | Some tmp => decode_serverList E tmp
    | None => Raise ExtractorError
    end in
  match primary with
  | Ok v =>
      _fetch_dispatcher_config E st
      = (Ok v, advanced st (_GUEST_ID st) v 2 [EvClock; req1])
  | Raise ExtractorError =>
      let host :=
        nth (choice E (2 + t) mod List.length _MILDOM_PROXY_HOSTS)
            _MILDOM_PROXY_HOSTS "" in
      let url2 := ("https://" ++ host ++ "/api/mildom/dispatcher_config")%string in
      let evs := [EvClock; req1; EvRandom; EvDownload url2 None] in
      In host _MILDOM_PROXY_HOSTS /\
      match net E (3 + t) url2 None with
      | Some v =>
          _fetch_dispatcher_config E st
          = (Ok v, advanced st (_GUEST_ID st) v 4 evs)
      | None =>
          _fetch_dispatcher_config E st
          = (Raise ExtractorError,
             advanced st (_GUEST_ID st) (_DISPATCHER_CONFIG st) 4 evs)
      end
  | Raise e =>
      _fetch_dispatcher_config E st
      = (Raise e, advanced st (_GUEST_ID st) (_DISPATCHER_CONFIG st) 2 [EvClock; req1])
  | NoFuel => False
  end.
Proof.
  intros Hc. cbv zeta.
  unfold _fetch_dispatcher_config, try_except_ExtractorError, iso_timestamp,
    _mildom_proxy_host, _download_json, set_DISPATCHER_CONFIG,
    get_DISPATCHER_CONFIG, tick, bind, ret, raise, lift, advanced,
    serverListV2_url.
  simpl. rewrite Hc. simpl.
  destruct (net E (S (clock st)) _ _) as [tmp|]; simpl.
  - destruct (decode_serverList E tmp) as [v|e|] eqn:Hd; simpl.
    + now rewrite <- app_assoc.
    + destruct e; simpl; try (now rewrite <- app_assoc).
      split; [apply proxy_host_known|].
      destruct (net E (S (S (S (clock st)))) _ _); simpl;
        now repeat rewrite <- app_assoc.
    + now apply decode_serverList_fuel in Hd.
  - split; [apply proxy_host_known|].
    destruct (net E (S (S (S (clock st)))) _ _); simpl;
      now repeat rewrite <- app_assoc.
Qed.

End MildomConfig.

(** ** Mildom: the guest id *)

Section MildomGuest.
Import Mildom.
Variable E : env.

Lemma guest_calls_app (a b : list event) :
  guest_calls (a ++ b) = guest_calls a + guest_calls b.
Proof. unfold guest_calls. now rewrite filter_app, length_app. Qed.

Lemma quiet_ret {A} (a : A) : quiet (ret a).
Proof.
  intros st; split; [discriminate|]. exists []. simpl. now rewrite app_nil_r.
Qed.

Lemma quiet_raise {A} (e : exn) : quiet (@raise state A e).
Proof.
  intros st; split; [discriminate|]. exists []. simpl. now rewrite app_nil_r.
Qed.

Lemma quiet_lift {A} (r : res A) : r <> NoFuel -> quiet (lift r).
Proof.
  intros H st; split; [exact H|]. exists []. simpl. now rewrite app_nil_r.
Qed.

Lemma quiet_bind {A B} (m : M state A) (k : A -> M state B) :
  quiet m -> (forall a, quiet (k a)) -> quiet (bind m k).
Proof.
  intros Hm Hk st. unfold bind.
  destruct (Hm st) as (Hf & evs & Ht & Hg).
  destruct (m st) as [[a|e|] st1]; simpl in *.
  - destruct (Hk a st1) as (Hf' & evs' & Ht' & Hg'). split; [exact Hf'|].
    exists (evs ++ evs'). rewrite Ht', Ht, app_assoc, guest_calls_app. split; [reflexivity|lia].
  - split; [discriminate|]. now exists evs.
  - congruence.
Qed.

Lemma quiet_tick (ev : event) : ev <> EvGuestId -> quiet (tick ev).
Proof.
  intros H st; split; [discriminate|]. exists [ev]. simpl. split; [reflexivity|].
  destruct ev; try reflexivity. congruence.
Qed.

Lemma quiet_try_except {A} (m h : M state A) :
  quiet m -> quiet h -> quiet (try_except_ExtractorError m h).
Proof.
  intros Hm Hh st. unfold try_except_ExtractorError.
  destruct (Hm st) as (Hf & evs & Ht & Hg).
  destruct (m st) as [[a|e|] st1]; simpl in *.
  - split; [discriminate|]. now exists evs.
  - destruct e; try (split; [discriminate|]; now exists evs).
    destruct (Hh st1) as (Hf' & evs' & Ht' & Hg'). split; [exact Hf'|].
    exists (evs ++ evs'). rewrite Ht', Ht, app_assoc, guest_calls_app. split; [reflexivity|lia].
  - congruence.
Qed.

Lemma quiet_try_get {Src} (src : Src) (getters : list (Src -> M state pyval))
    (ty : pyval -> bool) :
  Forall (fun g => quiet (g src)) getters -> quiet (try_get src getters ty).
Proof.
  induction 1 as [|g gs Hg _ IH]; [apply quiet_ret|].
  intros st. simpl.
  destruct (Hg st) as (Hf & evs & Ht & Hc).
  destruct (g src st) as [[v|e|] st1]; simpl in *; [| |congruence].
  - destruct (negb (is_none v) && ty v); simpl.
    + split; [discriminate|]. now exists evs.
    + destruct (IH st1) as (Hf' & evs' & Ht' & Hc'). split; [exact Hf'|].
      exists (evs ++ evs'). rewrite Ht', Ht, app_assoc, guest_calls_app.
      split; [reflexivity|lia].
  - destruct (passes_over e); simpl.
    + destruct (IH st1) as (Hf' & evs' & Ht' & Hc'). split; [exact Hf'|].
      exists (evs ++ evs'). rewrite Ht', Ht, app_assoc, guest_calls_app.
      split; [reflexivity|lia].
    + split; [discriminate|]. now exists evs.
Qed.

Lemma quiet_get_DISPATCHER_CONFIG : quiet get_DISPATCHER_CONFIG.
Proof.
  intros st; split; [discriminate|]. exists []. simpl. now rewrite app_nil_r.
Qed.

Lemma quiet_set_DISPATCHER_CONFIG (v : pyval) : quiet (set_DISPATCHER_CONFIG v).
Proof.
  intros st; split; [discriminate|]. exists []. simpl. now rewrite app_nil_r.
Qed.

Ltac quiet_step :=
  first
    [ apply quiet_ret
    | apply quiet_raise
    | apply quiet_get_DISPATCHER_CONFIG
    | apply quiet_set_DISPATCHER_CONFIG
    | apply quiet_tick; discriminate
    | apply quiet_lift; first [apply getitem_fuel | apply decode_serverList_fuel]
    | apply quiet_try_except
    | apply quiet_bind; [|intros ?]
    | match goal with
      | |- quiet (match ?x with _ => _ end) => destruct x
      end ].

Lemma quiet_fetch_dispatcher_config : quiet (_fetch_dispatcher_config E).
Proof.
  unfold _fetch_dispatcher_config, iso_timestamp, _download_json,
    _mildom_proxy_host.
  repeat quiet_step.
Qed.

Lemma quiet_common_queries_init (gid : M state pyval) (query : list (string * pyval)) :
  quiet (_common_queries E gid query true).
Proof.
  unfold _common_queries, iso_timestamp, lang_code.
  repeat first [apply quiet_fetch_dispatcher_config | quiet_step].
Qed.

Lemma quiet_call_api_init (gid : M state pyval) (url : string)
    (query : list (string * pyval)) :
  quiet (_call_api E gid url query true).
Proof.
  unfold _call_api, _download_json.
  repeat first [apply quiet_common_queries_init | quiet_step].
Qed.

Lemma quiet_h5init_guest_id (gid : M state pyval) : quiet (h5init_guest_id E gid).
Proof.
  unfold h5init_guest_id.
  repeat first [apply quiet_call_api_init | quiet_step].
Qed.

Lemma quiet_cookie_gid (url : string) : quiet (cookie_gid E url).
Proof.
  unfold cookie_gid, _get_cookies.
  repeat quiet_step.
Qed.

Lemma guest_id_unfold (n : nat) (st : state) :
  guest_id E (S n) st =
  let st0 := advanced st (_GUEST_ID st) (_DISPATCHER_CONFIG st) 0 [EvGuestId] in
  if truthy (_GUEST_ID st) then (Ok (_GUEST_ID st), st0)
  else
    match try_get tt
            [ (fun _ : unit => h5init_guest_id E (guest_id E n));
              (fun _ : unit => cookie_gid E www);
              (fun _ : unit => cookie_gid E mobile) ] compat_str st0 with
    | (Ok v, st1) =>
        (Ok (py_or v (PStr "")),
         advanced st1 (py_or v (PStr "")) (_DISPATCHER_CONFIG st1) 0 [])
    | (Raise e, st1) => (Raise e, st1)
    | (NoFuel, st1) => (NoFuel, st1)
    end.
Proof.
  cbv zeta. cbn [guest_id]. unfold bind at 1 2, log, get_GUEST_ID, advanced.
  cbn [_GUEST_ID _DISPATCHER_CONFIG clock trace Nat.add].
  destruct (truthy (_GUEST_ID st)); [reflexivity|].
  unfold bind at 1.
  match goal with
  | |- context [try_get tt ?l ?ty ?s] =>
      destruct (try_get tt l ty s) as [[v|e|] st1]
  end; try reflexivity.
  unfold bind, set_GUEST_ID, get_GUEST_ID. cbn. now rewrite app_nil_r.
Qed.

Lemma py_or_str (a : string) : py_or (PStr a) (PStr "") = PStr a.
Proof.
  unfold py_or. simpl. destruct (String.eqb_spec a ""); simpl; congruence.
Qed.

(** One step of the combinator. *)
Lemma try_get_cons {St Src : Type} (src : Src) (g : Src -> M St pyval)
    (rest : list (Src -> M St pyval)) (ty : pyval -> bool) (st : St) :
  try_get src (g :: rest) ty st
  = match g src st with
    | (Ok v, st') =>
        if negb (is_none v) && ty v then (Ok v, st') else try_get src rest ty st'
    | (Raise e, st') =>
        if passes_over e then try_get src rest ty st' else (Raise e, st')
    | (NoFuel, st') => (NoFuel, st')
    end.
Proof. reflexivity. Qed.

(** What the two cookie producers of [guest_id] give from the state [sa]
    that the first producer left: the value the combinator returns, and
    the state after it. *)
Lemma cookie_sources (sa : state) :
  try_get tt [ (fun _ : unit => cookie_gid E www);
               (fun _ : unit => cookie_gid E mobile) ] compat_str sa
  = match cookie_get "gid" (jar E (clock sa) www) with
    | Some b =>
        (Ok (PStr b),
         advanced sa (_GUEST_ID sa) (_DISPATCHER_CONFIG sa) 1 [EvCookies www])
    | None =>
        (Ok match cookie_get "gid" (jar E (1 + clock sa) mobile) with
            | Some c => PStr c
            | None => PNone
            end,
         advanced sa (_GUEST_ID sa) (_DISPATCHER_CONFIG sa) 2
           [EvCookies www; EvCookies mobile])
    end.
Proof.
  cbn [try_get]. unfold cookie_gid, _get_cookies, bind, tick, ret, raise, advanced.
  cbn [clock trace _GUEST_ID _DISPATCHER_CONFIG].
  destruct (cookie_get "gid" (jar E (clock sa) www)) as [b|]; cbn; [reflexivity|].
  destruct (cookie_get "gid" (jar E (S (clock sa)) mobile)) as [c|]; cbn;
    rewrite <- app_assoc; reflexivity.
Qed.

(** [guest_id] from the point where its first producer was passed over
    in the state [sa]. *)
Lemma cookie_fallback (sa : state) :

        (let (r, st1) :=
           try_get tt [ (fun _ : unit => cookie_gid E www);
                        (fun _ : unit => cookie_gid E mobile) ] compat_str sa in
         match r with
         | Ok v => (Ok (py_or v (PStr "")),
                    advanced st1 (py_or v (PStr "")) (_DISPATCHER_CONFIG st1) 0 [])
         | Raise e => (Raise e, st1)
         | NoFuel => (NoFuel, st1)
         end)
        = match cookie_get "gid" (jar E (clock sa) www) with
          | Some b =>
              (Ok (PStr b),
               advanced sa (PStr b) (_DISPATCHER_CONFIG sa) 1 [EvCookies www])
          | None =>
              (Ok (PStr match cookie_get "gid" (jar E (1 + clock sa) mobile) with
                        | Some c => c
                        | None => ""
                        end),
               advanced sa
                 (PStr match cookie_get "gid" (jar E (1 + clock sa) mobile) with
                       | Some c => c
                       | None => ""
                       end)
                 (_DISPATCHER_CONFIG sa) 2 [EvCookies www; EvCookies mobile])
          end.
Proof.
  rewrite cookie_sources.
  destruct (cookie_get "gid" (jar E (clock sa) www)) as [b|].
  - rewrite py_or_str. unfold advanced. cbn. now rewrite app_nil_r.
  - destruct (cookie_get "gid" (jar E (1 + clock sa) mobile)) as [c|].
    + rewrite py_or_str. unfold advanced. cbn. now rewrite app_nil_r.
    + unfold advanced. cbn. now rewrite app_nil_r.
Qed.

(** C3.  [guest_id] with its three sources, in every state and every
    world.  A truthy cached value is returned as it is.  Otherwise source
    (a) is the [guest_id] member of the body of the [h5init] call made
    with [init=True]: a truthy string there is the result, and no cookie
    is looked up.  If (a) gives anything else, or fails on a lookup (no
    [guest_id] member, a body that is not a dictionary), source (b), the
    [gid] cookie of [www.mildom.com], is looked up, and source (c), the
    [gid] cookie of [m.mildom.com], only if (b) is missing; the result is
    the empty string when neither cookie exists.  Whatever is returned is
    stored in [_GUEST_ID].  If the [h5init] call fails otherwise (an
    [ExtractorError] of the request or of the dispatcher lookup, a
    [ValueError] of the decoding), that exception leaves [guest_id]:
    nothing is stored and no cookie is looked up.  The call depth given
    always suffices. *)
Theorem guest_id_fallback_chain (n : nat) (st : state) :
  let st0 := advanced st (_GUEST_ID st) (_DISPATCHER_CONFIG st) 0 [EvGuestId] in
  let call := _call_api E (guest_id E n) h5init_url [] true st0 in
  let sa := snd call in
  let source_a :=
    match fst call with
    | Ok body => getitem body "guest_id"
    | Raise e => Raise e
    | NoFuel => NoFuel
    end in
  let stored (v : pyval) (evs : list event) :=
    (Ok v, advanced sa v (_DISPATCHER_CONFIG sa) (List.length evs) evs) in
  let from_cookies :=
    match cookie_get "gid" (jar E (clock sa) www) with
    | Some b => stored (PStr b) [EvCookies www]
    | None =>
        stored (PStr match cookie_get "gid" (jar E (1 + clock sa) mobile) with
                     | Some c => c
                     | None => ""
                     end)
               [EvCookies www; EvCookies mobile]
    end in
  source_a <> NoFuel /\
  guest_id E (S n) st
  = if truthy (_GUEST_ID st) then (Ok (_GUEST_ID st), st0)
    else match source_a with
         | Ok g => if truthy g && compat_str g then stored g [] else from_cookies
         | Raise e => if passes_over e then from_cookies else (Raise e, sa)
         | NoFuel => (NoFuel, sa)
         end.
Proof.
  cbv zeta.
  set (st0 := advanced st (_GUEST_ID st) (_DISPATCHER_CONFIG st) 0 [EvGuestId]).
  pose proof (quiet_call_api_init (guest_id E n) h5init_url [] st0) as [Hfuel _].
  split.
  - destruct (fst (_call_api E (guest_id E n) h5init_url [] true st0));
      [apply getitem_fuel|discriminate|congruence].
  - rewrite guest_id_unfold. cbv zeta. fold st0.
    destruct (truthy (_GUEST_ID st)); [reflexivity|].
    rewrite try_get_cons. unfold h5init_guest_id, bind at 1.
    destruct (_call_api E (guest_id E n) h5init_url [] true st0) as [[body|e|] sa];
      cbn [fst snd]; [| |cbn [fst] in Hfuel; congruence].
    + unfold bind, lift, ret.
      destruct (getitem body "guest_id") as [g|e|] eqn:Hg;
        [| |exfalso; exact (getitem_fuel _ _ Hg)].
      * destruct (truthy g) eqn:Htg.
        -- assert (Hor : py_or g PNone = g) by (unfold py_or; now rewrite Htg).
           assert (Hn : is_none g = false) by (destruct g; [discriminate|reflexivity ..]).
           rewrite Hor, Hn. cbn [negb andb].
           destruct (compat_str g); [|exact (cookie_fallback sa)].
           unfold py_or. rewrite Htg. reflexivity.
        -- assert (Hor : py_or g PNone = PNone) by (unfold py_or; now rewrite Htg).
           rewrite Hor. cbn [is_none negb andb]. exact (cookie_fallback sa).
      * destruct (passes_over e); [exact (cookie_fallback sa)|reflexivity].
    + destruct (passes_over e); [exact (cookie_fallback sa)|reflexivity].
Qed.

Lemma assoc_dict_set (k k' : string) (v : pyval) (d : list (string * pyval)) :
  assoc k (dict_set k' v d) = if String.eqb k k' then Some v else assoc k d.
Proof.
  induction d as [|[k0 v0] d IH]; simpl.
  - reflexivity.
  - destruct (String.eqb_spec k' k0) as [->|Hne]; simpl.
    + destruct (String.eqb k k0); reflexivity.
    + rewrite IH. destruct (String.eqb_spec k k0) as [->|Hk].
      * destruct (String.eqb_spec k0 k'); congruence.
      * reflexivity.
Qed.

Lemma assoc_dict_update (k : string) (d q : list (string * pyval)) :
  assoc k q = None -> assoc k (dict_update d q) = assoc k d.
Proof.
  unfold dict_update. revert d.
  induction q as [|[k0 v0] q IH]; intros d Hq; simpl in *; [reflexivity|].
  destruct (String.eqb k k0) eqn:Hk; [discriminate|].
  rewrite IH by assumption. rewrite assoc_dict_set. now rewrite Hk.
Qed.

Lemma common_queries_init_any (gid gid' : M state pyval)
    (query : list (string * pyval)) (st : state) :
  _common_queries E gid query true st = _common_queries E gid' query true st.
Proof. reflexivity. Qed.

Lemma call_api_init_any (gid gid' : M state pyval) (url : string)
    (query : list (string * pyval)) (st : state) :
  _call_api E gid url query true st = _call_api E gid' url query true st.
Proof. reflexivity. Qed.

Lemma guest_id_depth (n : nat) (st : state) : guest_id E (S n) st = guest_id E 1 st.
Proof. rewrite !guest_id_unfold. reflexivity. Qed.

Lemma guest_id_quiet_after_entry (n : nat) (st : state) :
  fst (guest_id E (S n) st) <> NoFuel /\
  guest_calls (trace (snd (guest_id E (S n) st))) = 1 + guest_calls (trace st).
Proof.
  rewrite guest_id_unfold. cbv zeta.
  destruct (truthy (_GUEST_ID st)).
  - split; [discriminate|]. unfold advanced; cbn [fst snd trace].
    rewrite guest_calls_app. cbn. lia.
  - set (st0 := advanced st (_GUEST_ID st) (_DISPATCHER_CONFIG st) 0 [EvGuestId]).
    assert (Hq : quiet (try_get tt
                  [ (fun _ : unit => h5init_guest_id E (guest_id E n));
                    (fun _ : unit => cookie_gid E www);
                    (fun _ : unit => cookie_gid E mobile) ] compat_str)).
    { apply quiet_try_get.
      apply Forall_cons; [apply quiet_h5init_guest_id|].
      apply Forall_cons; [apply quiet_cookie_gid|].
      apply Forall_cons; [apply quiet_cookie_gid|apply Forall_nil]. }
    destruct (Hq st0) as (Hf & evs & Ht & Hc).
    destruct (try_get _ _ _ st0) as [[v|e|] st1]; cbn [fst snd] in *.
    + split; [discriminate|]. unfold advanced; cbn [trace]. rewrite app_nil_r, Ht.
      unfold st0, advanced; cbn [trace]. rewrite !guest_calls_app, Hc. cbn. lia.
    + split; [discriminate|]. rewrite Ht.
      unfold st0, advanced; cbn [trace]. rewrite !guest_calls_app, Hc. cbn. lia.
    + congruence.
Qed.

(** C10.  With [init=True] the query is built without calling
    [guest_id]: the outcome is the same whatever [guest_id] would do, no
    entry into [guest_id] is recorded, and unless the caller's own query
    carries [__guest_id] (the initialization request passes none) that
    parameter is the empty string.  Hence one level of call depth is
    enough for [guest_id] in every state and world: it never runs out of
    depth, and one call records exactly one entry into [guest_id]. *)
Theorem init_query_skips_guest_id :
  (forall (gid gid' : M state pyval) url query st,
      _common_queries E gid query true st = _common_queries E gid' query true st /\
      _call_api E gid url query true st = _call_api E gid' url query true st) /\
  (forall (gid : M state pyval) query st q st',
      _common_queries E gid query true st = (Ok q, st') ->
      guest_calls (trace st') = guest_calls (trace st) /\
      (assoc "__guest_id" query = None -> assoc "__guest_id" q = Some (PStr ""))) /\
  (forall n st,
      guest_id E (S n) st = guest_id E 1 st /\
      fst (guest_id E (S n) st) <> NoFuel /\
      guest_calls (trace (snd (guest_id E (S n) st))) = 1 + guest_calls (trace st)).
Proof.
  split; [|split].
  - intros. split; reflexivity.
  - intros gid query st q st' Hrun. split.
    + destruct (quiet_common_queries_init gid query st) as (_ & evs & Ht & Hc).
      rewrite Hrun in Ht. cbn [snd] in Ht. rewrite Ht, guest_calls_app. lia.
    + intros Hq. revert Hrun.
      unfold _common_queries, bind, iso_timestamp, lang_code, tick, ret, lift.
      destruct (_fetch_dispatcher_config E st) as [[dc|e|] st1]; try discriminate.
      destruct (getitem dc "location"); try discriminate.
      destruct (getitem dc "country"); try discriminate.
      destruct (getitem dc "cluster"); try discriminate.
      intros H. inversion H; subst q. clear H.
      rewrite assoc_dict_update by assumption. reflexivity.
  - intros n st. split; [apply guest_id_depth|apply guest_id_quiet_after_entry].
Qed.

End MildomGuest.

(** ** Mildom: memoization *)

Section MildomMemo.
Import Mildom.
Variable E : env.

Lemma fetch_returns_cache (st st' : state) (v : pyval) :
  _fetch_dispatcher_config E st = (Ok v, st') -> _DISPATCHER_CONFIG st' = v.
Proof.
  unfold _fetch_dispatcher_config, get_DISPATCHER_CONFIG, bind, ret. cbn [fst snd].
  destruct (negb (truthy (_DISPATCHER_CONFIG st))).
  - destruct (try_except_ExtractorError _ _ st) as [[u|e|] s1];
      intros H; inversion H; reflexivity.
  - intros H; inversion H; reflexivity.
Qed.

Lemma guest_returns_cache (n : nat) (st st' : state) (v : pyval) :
  guest_id E (S n) st = (Ok v, st') -> _GUEST_ID st' = v.
Proof.
  rewrite guest_id_unfold. cbv zeta.
  destruct (truthy (_GUEST_ID st)).
  - intros H; inversion H; reflexivity.
  - destruct (try_get _ _ _ _) as [[u|e|] s1]; intros H; inversion H; reflexivity.
Qed.

Lemma guest_cached (m : nat) (st : state) :
  truthy (_GUEST_ID st) = true ->
  guest_id E (S m) st
  = (Ok (_GUEST_ID st),
     advanced st (_GUEST_ID st) (_DISPATCHER_CONFIG st) 0 [EvGuestId]).
Proof. intros H. rewrite guest_id_unfold. cbv zeta. now rewrite H. Qed.

Lemma calls_fetch_cached (N : nat) (st : state) :
  truthy (_DISPATCHER_CONFIG st) = true ->
  Examples.calls (_fetch_dispatcher_config E) N st
  = (repeat (Ok (_DISPATCHER_CONFIG st)) N, st).
Proof.
  intros H. induction N as [|N IH]; simpl; [reflexivity|].
  rewrite fetch_cached by assumption. now rewrite IH.
Qed.

Lemma calls_guest_cached (m N : nat) (st : state) :
  truthy (_GUEST_ID st) = true ->
  Examples.calls (guest_id E (S m)) N st
  = (repeat (Ok (_GUEST_ID st)) N,
     advanced st (_GUEST_ID st) (_DISPATCHER_CONFIG st) 0 (repeat EvGuestId N)).
Proof.
  revert st. induction N as [|N IH]; intros st H.
  - simpl. unfold advanced. rewrite app_nil_r. now destruct st.
  - cbn [Examples.calls]. rewrite guest_cached by assumption.
    rewrite IH by exact H. unfold advanced; cbn.
    now rewrite <- app_assoc.
Qed.

(** C2 (amended).  On one extractor instance, once a call of
    [_fetch_dispatcher_config] or of [guest_id] has returned a truthy
    value, that value is the instance's cache and each of any number of
    later calls returns it without touching the world: the state is
    unchanged for the configuration, and only the entries into [guest_id]
    are added to the history for the guest id.  A call that returned a
    falsy value (the empty guest id, an empty configuration) leaves the
    cache falsy, so the next call runs the chain again. *)
Theorem memoized_once_truthy :
  (forall st v st',
      _fetch_dispatcher_config E st = (Ok v, st') ->
      (truthy v = true ->
       forall N,
         Examples.calls (_fetch_dispatcher_config E) N st' = (repeat (Ok v) N, st')) /\
      (truthy v = false -> truthy (_DISPATCHER_CONFIG st') = false)) /\
  (forall n st v st',
      guest_id E (S n) st = (Ok v, st') ->
      (truthy v = true ->
       forall N m,
         Examples.calls (guest_id E (S m)) N st'
         = (repeat (Ok v) N,
            advanced st' v (_DISPATCHER_CONFIG st') 0 (repeat EvGuestId N))) /\
      (truthy v = false -> truthy (_GUEST_ID st') = false)).
Proof.
  split.
  - intros st v st' Hrun. apply fetch_returns_cache in Hrun. subst v. split.
    + intros Hv N. now apply calls_fetch_cached.
    + auto.
  - intros n st v st' Hrun. apply guest_returns_cache in Hrun. subst v. split.
    + intros Hv N m. now apply calls_guest_cached.
    + auto.
Qed.

End MildomMemo.

(** Against the server that hands out [guest-42]: the first call fetches
    it, and five further calls return it with no further request. *)
Lemma memoized_once_truthy_witness :
  Mildom.guest_id Examples.world_ok 1 Mildom.fresh
  = (Ok (PStr "guest-42"),
     snd (Mildom.guest_id Examples.world_ok 1 Mildom.fresh)) /\
  fst (Examples.calls (Mildom.guest_id Examples.world_ok 1) 5
         (snd (Mildom.guest_id Examples.world_ok 1 Mildom.fresh)))
  = repeat (Ok (PStr "guest-42")) 5.
Proof.
  split; [reflexivity|].
  destruct (memoized_once_truthy Examples.world_ok) as [_ H].
  destruct (H 0 Mildom.fresh (PStr "guest-42")
              (snd (Mildom.guest_id Examples.world_ok 1 Mildom.fresh)) eq_refl)
    as [Hmemo _].
  now rewrite (Hmemo eq_refl 5 0).
Defined.

(** C2, as stated, fails: the server hands out an empty guest id and the
    jar holds no [gid] cookie.  Two calls in a row, with nothing
    invalidated in between, both complete with the empty string, and the
    [h5init] request is sent twice. *)
Lemma guest_id_refetched_when_empty :
  let run := Examples.calls (Mildom.guest_id Examples.world_anonymous 1) 2 Mildom.fresh in
  fst run = [Ok (PStr ""); Ok (PStr "")] /\
  Examples.downloads_of "/guest/h5init" (Mildom.trace (snd run)) = 2 /\
  Mildom.guest_calls (Mildom.trace (snd run)) = 2.
Proof. vm_compute. repeat split. Qed.

(** With the primary endpoint unreachable, the amended C4 gives the
    fallback path: one request to a proxy host, whose answer is returned. *)
Lemma fetch_dispatcher_config_two_tier_witness :
  Mildom._fetch_dispatcher_config Examples.world_primary_down Mildom.fresh
  = (Ok Examples.dispatcher,
     Mildom.advanced Mildom.fresh PNone Examples.dispatcher 4
       [Mildom.EvClock;
        Mildom.EvDownload Mildom.serverListV2_url
          (Some "rtm=2021-06-20T00:00:00.000Z;ua=Mozilla/5.0");
        Mildom.EvRandom;
        Mildom.EvDownload
          "https://bookish-octo-barnacle.vercel.app/api/mildom/dispatcher_config"
          None]).
Proof.
  pose proof (fetch_dispatcher_config_two_tier Examples.world_primary_down
                Mildom.fresh eq_refl) as H.
  cbn in H. destruct H as [_ H]. exact H.
Defined.

(** C4, as stated, fails: the primary endpoint answers with a JSON object
    that has no [data] member.  The lookup fails with [KeyError] after the
    primary request alone; the fallback endpoint, which would have
    answered, is never asked. *)
Lemma lookup_fails_without_fallback :
  let run := Mildom._fetch_dispatcher_config Examples.world_nodata Mildom.fresh in
  fst run = Raise KeyError /\
  Examples.downloads_of "disp.mildom.com/serverListV2" (Mildom.trace (snd run)) = 1 /\
  Examples.downloads_of "/api/mildom/dispatcher_config" (Mildom.trace (snd run)) = 0 /\
  List.length (Mildom.trace (snd run)) = 2 /\
  Forall (fun host =>
            Mildom.net Examples.world_nodata 3
              ("https://" ++ host ++ "/api/mildom/dispatcher_config")%string None
            = Some Examples.dispatcher)
         Mildom._MILDOM_PROXY_HOSTS.
Proof. vm_compute. repeat split; repeat constructor. Qed.

(** The [h5init] request fails while the jar holds a [gid] cookie:
    [guest_id] raises [ExtractorError], stores nothing and never looks
    into the jar. *)
Lemma guest_id_fails_with_h5init :
  ~ (forall (E : Mildom.env) (st : Mildom.state),
        Mildom._GUEST_ID st = PNone ->
        exists s st', Mildom.guest_id E 1 st = (Ok (PStr s), st')) /\
  let run := Mildom.guest_id Examples2.world_h5init_down 1 Mildom.fresh in
  fst run = Raise ExtractorError /\
  Mildom._GUEST_ID (snd run) = PNone /\
  MildomObs.cookie_lookups (Mildom.trace (snd run)) = 0 /\
  Mildom.cookie_get "gid"
    (Mildom.jar Examples2.world_h5init_down 0 Mildom.www) = Some "cookie-7".
Proof.
  split; [|vm_compute; repeat split].
  intros H.
  destruct (H Examples2.world_h5init_down Mildom.fresh eq_refl) as (s & st' & Hrun).
  vm_compute in Hrun. discriminate.
Qed.

(** The initialization request of a fresh instance against the sample
    server: the query is built, [__guest_id] is empty and no entry into
    [guest_id] is recorded. *)
Lemma init_query_skips_guest_id_witness :
  exists q st',
    Mildom._common_queries Examples.world_ok (fun st => (NoFuel, st)) [] true Mildom.fresh
    = (Ok q, st') /\
    assoc "__guest_id" q = Some (PStr "") /\
    Mildom.guest_calls (Mildom.trace st') = 0.
Proof.
  destruct (init_query_skips_guest_id Examples.world_ok) as (_ & H & _).
  eexists. eexists. split; [reflexivity|].
  match goal with
  | |- assoc _ ?q = _ /\ Mildom.guest_calls (Mildom.trace ?s) = _ =>
      destruct (H (fun st => (NoFuel, st)) [] Mildom.fresh q s eq_refl) as [Hc Hq]
  end.
  split; [exact (Hq eq_refl) | exact Hc].
Defined.

(** ** The fallback combinator *)

Section TryGet.
Context {St Src : Type}.
Variable src : Src.
Variable expected_type : pyval -> bool.

Lemma try_get_skips (pre rest : list (Src -> M St pyval)) (st st1 : St) :
  skipped src pre expected_type st st1 ->
  try_get src (pre ++ rest) expected_type st = try_get src rest expected_type st1.
Proof.
  revert st. induction pre as [|g pre IH]; intros st Hs; simpl in *.
  - now subst.
  - destruct (g src st) as [[v|e|] st0]; [| |contradiction].
    + destruct Hs as [Hv Hs]. rewrite Hv. now apply IH.
    + destruct Hs as [He Hs]. rewrite He. now apply IH.
Qed.

End TryGet.

(** C5.  The combinator evaluates the producers in order.  If every
    producer in front of [p] failed on a lookup or produced a value that
    is null or not of the expected type, and [p] produces a non-null value of the
    expected type, then that value is the result, and the state is the one
    [p] left: whatever producers follow are not evaluated.  If no producer
    is usable the result is null.  For producers [[null, null, "X", "Y"]]
    that note their evaluation, the result is ["X"] and the notes are those
    of the first three only. *)
Theorem try_get_first_usable :
  (forall (St Src : Type) (src : Src) (ty : pyval -> bool)
          (pre post : list (Src -> M St pyval)) (p : Src -> M St pyval)
          (st st1 st2 : St) (v : pyval),
      skipped src pre ty st st1 ->
      p src st1 = (Ok v, st2) ->
      is_none v = false ->
      ty v = true ->
      try_get src (pre ++ p :: post) ty st = (Ok v, st2)) /\
  (forall (St Src : Type) (src : Src) (ty : pyval -> bool)
          (all : list (Src -> M St pyval)) (st st1 : St),
      skipped src all ty st st1 ->
      try_get src all ty st = (Ok PNone, st1)) /\
  try_get tt Examples.four_producers compat_str []
  = (Ok (PStr "X"), ["first"; "second"; "third"]).
Proof.
  split; [|split].
  - intros St Src src ty pre post p st st1 st2 v Hs Hp Hn Ht.
    rewrite (try_get_skips src ty pre (p :: post) st st1 Hs).
    simpl. rewrite Hp, Hn, Ht. reflexivity.
  - intros St Src src ty all st st1 Hs.
    rewrite <- (app_nil_r all).
    rewrite (try_get_skips src ty all [] st st1 Hs). reflexivity.
  - reflexivity.
Qed.

(** The general statement at the four sample producers: two are skipped,
    the third is usable. *)
Lemma try_get_first_usable_witness :
  skipped tt [Examples.producer "first" (Ok PNone);
              Examples.producer "second" (Ok PNone)] compat_str
          [] ["first"; "second"] /\
  try_get tt Examples.four_producers compat_str []
  = (Ok (PStr "X"), ["first"; "second"; "third"]).
Proof.
  assert (Hs : skipped tt [Examples.producer "first" (Ok PNone);
                           Examples.producer "second" (Ok PNone)] compat_str
                       [] ["first"; "second"]).
  { simpl. repeat split. }
  split; [exact Hs|].
  exact (proj1 try_get_first_usable (list string) unit tt compat_str
           [Examples.producer "first" (Ok PNone); Examples.producer "second" (Ok PNone)]
           [Examples.producer "fourth" (Ok (PStr "Y"))]
           (Examples.producer "third" (Ok (PStr "X")))
           [] ["first"; "second"] ["first"; "second"; "third"] (PStr "X")
           Hs eq_refl eq_refl eq_refl).
Defined.

(** ** Paginated listings *)

Section Pagination.

Lemma drain_pages_listing (E : Mildom.env) (gid : M Mildom.state pyval)
    (user_id : string) (page : nat) (st st' : Mildom.state)
    (pages : list (list string)) :
  Mildom.listing E gid user_id page st pages st' ->
  forall fuel results,
    List.length pages < fuel ->
    Mildom.drain_pages E gid user_id fuel page results st
    = (Ok (results ++ List.concat pages), st').
Proof.
  induction 1 as [page st st' reply Hcall Hfalsy
                 |page st st1 st' reply urls rest Hcall Htruthy Hurls _ IH];
    intros fuel results Hfuel.
  - destruct fuel as [|fuel]; [simpl in Hfuel; lia|].
    simpl. unfold bind at 1. rewrite Hcall, Hfalsy. simpl.
    now rewrite app_nil_r.
  - destruct fuel as [|fuel]; [simpl in Hfuel; lia|].
    simpl in Hfuel.
    simpl. unfold bind at 1. rewrite Hcall, Htruthy. simpl.
    unfold bind at 1, lift. rewrite Hurls.
    rewrite IH by lia. now rewrite <- app_assoc.
Qed.

Lemma yield_all_spec (es : list TwitCasting.url_result) (st : TwitCasting.state) :
  TwitCasting.yield_all es st = (Ok tt, TwitCasting.with_yielded st es).
Proof.
  revert st. induction es as [|e es IH]; intros st; simpl.
  - unfold ret, TwitCasting.with_yielded. rewrite app_nil_r. now destruct st.
  - unfold bind, TwitCasting.yield. rewrite IH.
    unfold TwitCasting.with_yielded; simpl. now rewrite <- app_assoc.
Qed.

Lemma download_webpage_yielded (E : TwitCasting.env) (url page : string)
    (data : option string) (st st1 : TwitCasting.state) :
  TwitCasting._download_webpage E url data st = (Ok page, st1) ->
  TwitCasting.yielded st1 = TwitCasting.yielded st.
Proof.
  unfold TwitCasting._download_webpage, bind, TwitCasting.tick, ret, raise. simpl.
  destruct (TwitCasting.download_webpage E _ _ _); intros H; inversion H.
  reflexivity.
Qed.

Lemma entries_from_history (E : TwitCasting.env) (uploader_id base_url : string)
    (page_num : nat) (url : string) (st st' : TwitCasting.state)
    (pages : list (list TwitCasting.url_result)) :
  TwitCasting.history E uploader_id base_url page_num url st pages st' ->
  (forall fuel,
      List.length pages <= fuel ->
      TwitCasting.entries_from E uploader_id base_url fuel page_num url st
      = (Ok tt, st')) /\
  TwitCasting.yielded st' = TwitCasting.yielded st ++ List.concat pages.
Proof.
  induction 1 as [page_num url webpage st st1 Hdl Hlast
                 |page_num url webpage next st st1 st' rest Hdl Hnext Hmore _ IH].
  - split.
    + intros fuel Hfuel. destruct fuel as [|fuel]; [simpl in Hfuel; lia|].
      simpl. unfold bind at 1. rewrite Hdl.
      unfold bind at 1. rewrite yield_all_spec.
      destruct (TwitCasting.urljoin E base_url _) as [u|]; [|reflexivity].
      now rewrite Hlast.
    + simpl. rewrite app_nil_r. apply download_webpage_yielded in Hdl.
      now rewrite Hdl.
  - destruct IH as [IHrun IHy]. split.
    + intros fuel Hfuel. destruct fuel as [|fuel]; [simpl in Hfuel; lia|].
      simpl in Hfuel.
      simpl. unfold bind at 1. rewrite Hdl.
      unfold bind at 1. rewrite yield_all_spec.
      rewrite Hnext, Hmore. apply IHrun. lia.
    + rewrite IHy. simpl. apply download_webpage_yielded in Hdl.
      rewrite Hdl. now rewrite app_assoc.
Qed.

(** C7 (amended).  [MildomUserVodIE] asks for pages 1, 2, ... and stops at
    the first falsy reply: it collects exactly the entries of the replies
    before it, in order.  [TwitCastingUserIE] follows the next-page link
    of each page it fetched and stops at the first page that carries no
    such link: it yields exactly the entries of all pages fetched, in
    order, whether or not a page lists anything.  In both cases the loop
    ends within one iteration per page served. *)
Theorem paginated_drain :
  (forall E gid user_id page st pages st',
      Mildom.listing E gid user_id page st pages st' ->
      forall fuel results,
        List.length pages < fuel ->
        Mildom.drain_pages E gid user_id fuel page results st
        = (Ok (results ++ List.concat pages), st')) /\
  (forall E uploader_id base_url page_num url st pages st',
      TwitCasting.history E uploader_id base_url page_num url st pages st' ->
      (forall fuel,
          List.length pages <= fuel ->
          TwitCasting.entries_from E uploader_id base_url fuel page_num url st
          = (Ok tt, st')) /\
      TwitCasting.yielded st' = TwitCasting.yielded st ++ List.concat pages).
Proof.
  split.
  - intros. now apply drain_pages_listing.
  - intros. now apply entries_from_history.
Qed.

End Pagination.

(** The three linked history pages [[a, b], [c], []] and the three-page
    Mildom listing: both drains end at the third page with [a, b, c]. *)
Lemma paginated_drain_witness :
  (fst (TwitCasting._entries Examples.world_three_pages 3 "noriyukicas"
          TwitCasting.fresh) = Ok tt /\
   TwitCasting.yielded
     (snd (TwitCasting._entries Examples.world_three_pages 3 "noriyukicas"
             TwitCasting.fresh))
   = [Examples.entry "1"; Examples.entry "2"; Examples.entry "3"]) /\
  fst (Mildom.drain_pages Examples.world_ok (Mildom.guest_id Examples.world_ok 1)
         "10093333" 3 1 [] Mildom.fresh)
  = Ok ["https://www.mildom.com/playback/10093333/a";
        "https://www.mildom.com/playback/10093333/b";
        "https://www.mildom.com/playback/10093333/c"].
Proof.
  destruct paginated_drain as [Hm Ht].
  split.
  - assert (H : exists st',
               TwitCasting.history Examples.world_three_pages "noriyukicas"
                 Examples.user_show 1 Examples.user_show TwitCasting.fresh
                 [[Examples.entry "1"; Examples.entry "2"]; [Examples.entry "3"]; []]
                 st').
    { eexists.
      eapply (TwitCasting.history_next Examples.world_three_pages "noriyukicas"
                Examples.user_show 1 Examples.user_show "history page 1"
                "https://twitcasting.tv/noriyukicas/show/1-100");
        [reflexivity | reflexivity | reflexivity |].
      eapply (TwitCasting.history_next Examples.world_three_pages "noriyukicas"
                Examples.user_show 2 _ "history page 2"
                "https://twitcasting.tv/noriyukicas/show/2-100");
        [reflexivity | reflexivity | reflexivity |].
      eapply (TwitCasting.history_last Examples.world_three_pages "noriyukicas"
                Examples.user_show 3 _ "history page 3");
        [reflexivity | reflexivity]. }
    destruct H as [st' H].
    destruct (Ht _ _ _ _ _ _ _ _ H) as [Hrun Hy].
    unfold TwitCasting._entries. cbv zeta.
    change (TwitCasting.show_url "noriyukicas") with Examples.user_show.
    rewrite (Hrun 3 (le_n 3)). split; [reflexivity | exact Hy].
  - assert (H : exists st',
               Mildom.listing Examples.world_ok (Mildom.guest_id Examples.world_ok 1)
                 "10093333" 1 Mildom.fresh
                 [["https://www.mildom.com/playback/10093333/a";
                   "https://www.mildom.com/playback/10093333/b"];
                  ["https://www.mildom.com/playback/10093333/c"]]
                 st').
    { eexists.
      eapply Mildom.listing_page; [vm_compute; reflexivity | reflexivity | reflexivity |].
      eapply Mildom.listing_page; [vm_compute; reflexivity | reflexivity | reflexivity |].
      eapply Mildom.listing_end; [vm_compute; reflexivity | reflexivity]. }
    destruct H as [st' H].
    now rewrite (Hm _ _ _ _ _ _ _ H 3 [] (le_n 3)).
Defined.

(** C7, as stated, fails for [TwitCastingUserIE]: the first history page
    lists no movie but links to a second page.  The drain does not stop at
    that empty page: it fetches the second page and yields its entry. *)
Lemma drain_passes_empty_page :
  TwitCasting.movie_hrefs Examples.world_gap "history page 1" = [] /\
  TwitCasting.download_webpage Examples.world_gap 0 Examples.user_show None
  = Some "history page 1" /\
  TwitCasting._entries Examples.world_gap 2 "noriyukicas" TwitCasting.fresh
  = (Ok tt,
     {| TwitCasting.clock := 2;
        TwitCasting.trace :=
          [TwitCasting.EvWebpage Examples.user_show None;
           TwitCasting.EvWebpage (Examples.user_show ++ "/1-100")%string None];
        TwitCasting.yielded := [Examples.entry "3"] |}).
Proof. vm_compute. repeat split. Qed.

(** ** NHK for School: subject portal against program list *)

Section RegexFacts.

Lemma re_match_Void (s : string) : re_match Void s = false.
Proof. induction s; simpl; auto. Qed.

Lemma re_match_nullable (r : regex) (s : string) :
  nullable r = true -> re_match r s = true.
Proof. intros H. destruct s; simpl; now rewrite H. Qed.

Lemma re_match_Alt (a b : regex) (s : string) :
  re_match (Alt a b) s = re_match a s || re_match b s.
Proof.
  revert a b. induction s as [|c s IH]; intros a b; simpl.
  - now rewrite !orb_false_r.
  - rewrite IH.
    destruct (nullable a), (nullable b), (re_match (deriv c a) s); reflexivity.
Qed.

Lemma re_match_Seq_l (a b : regex) (s : string) :
  re_match (Seq a b) s = true -> re_match a s = true.
Proof.
  revert a b. induction s as [|c s IH]; intros a b; simpl.
  - rewrite !orb_false_r. intros H. now apply andb_prop in H.
  - destruct (nullable a) eqn:Ha; [reflexivity|]. simpl.
    rewrite re_match_Alt, re_match_Void, orb_false_r. apply IH.
Qed.

(** A match of [a b c] at the start of [s] begins with a match of [a b]. *)
Lemma re_match_Seq_prefix (a b c : regex) (s : string) :
  re_match (Seq a (Seq b c)) s = true -> re_match (Seq a b) s = true.
Proof.
  revert a. induction s as [|ch s IH]; intros a; simpl.
  - rewrite !orb_false_r. intros H.
    apply andb_prop in H as [Ha H]. apply andb_prop in H as [Hb _].
    now rewrite Ha, Hb.
  - destruct (nullable a) eqn:Ha; simpl.
    + destruct (nullable b) eqn:Hb; simpl; [reflexivity|].
      rewrite !re_match_Alt. intros H.
      apply orb_prop in H as [H|H].
      * apply IH in H. now rewrite H.
      * rewrite re_match_Void, orb_false_r in H.
        apply re_match_Seq_l in H. rewrite H. apply orb_true_r.
    + rewrite !re_match_Alt, !re_match_Void, !orb_false_r. apply IH.
Qed.

End RegexFacts.

(** C6.  A URL that the program-list extractor is suitable for matches
    the subject extractor's own pattern too (the pattern is a prefix of
    the program-list pattern), yet [NhkForSchoolSubjectIE.suitable]
    returns [False] for it: of the two handlers, exactly the program-list
    one is suitable. *)
Theorem subject_yields_to_program_list (url : string) :
  Nhk.NhkForSchoolProgramListIE_suitable url = true ->
  Nhk.InfoExtractor_suitable Nhk.NhkForSchoolSubjectIE_VALID_URL url = true /\
  Nhk.NhkForSchoolSubjectIE_suitable url = false /\
  xorb (Nhk.NhkForSchoolSubjectIE_suitable url)
       (Nhk.NhkForSchoolProgramListIE_suitable url) = true.
Proof.
  intros H. split; [|split].
  - unfold Nhk.NhkForSchoolProgramListIE_suitable, Nhk.InfoExtractor_suitable,
      Nhk.NhkForSchoolProgramListIE_VALID_URL, Nhk.NhkForSchoolSubjectIE_VALID_URL in *.
    now apply re_match_Seq_prefix in H.
  - unfold Nhk.NhkForSchoolSubjectIE_suitable. rewrite H. apply andb_false_r.
  - unfold Nhk.NhkForSchoolSubjectIE_suitable. rewrite H.
    now rewrite andb_false_r.
Qed.

(** The program-list URL of the extractor's own test. *)
Lemma subject_yields_to_program_list_witness :
  Nhk.NhkForSchoolProgramListIE_suitable "https://www.nhk.or.jp/school/sougou/q/" = true /\
  Nhk.NhkForSchoolSubjectIE_suitable "https://www.nhk.or.jp/school/sougou/q/" = false /\
  Nhk.NhkForSchoolSubjectIE_suitable "https://www.nhk.or.jp/school/sougou/" = true /\
  Nhk.NhkForSchoolProgramListIE_suitable "https://www.nhk.or.jp/school/sougou/" = false.
Proof.
  split; [vm_compute; reflexivity|].
  split; [|split; vm_compute; reflexivity].
  exact (proj1 (proj2 (subject_yields_to_program_list
                         "https://www.nhk.or.jp/school/sougou/q/" eq_refl))).
Defined.

(** ** TwitCasting: the returned liveness flag *)

Section TwitCastingLive.
Import TwitCasting.
Variable E : env.

Lemma extract_with_shape (is_live : bool) (uploader_id video_id webpage : string)
    (title js : pyval) (st st' : state) (info : media_result) :
  TwitCastingIE_extract_with E is_live uploader_id video_id webpage title js st
  = (Ok info, st') ->
  exists thumb dur formats,
    dict_get js "thumbnailUrl" PNone = Ok thumb /\
    dict_get js "duration" PNone = Ok dur /\
    info = info_dict E uploader_id video_id webpage title thumb dur formats.
Proof.
  unfold TwitCastingIE_extract_with.
  unfold bind at 1.
  destruct (try_get webpage _ compat_str st) as [[m3u8|e|] s0]; try discriminate.
  unfold bind at 1.
  match goal with
  | |- context [(if is_live then ?a else ?b) s0] =>
      destruct ((if is_live then a else b) s0) as [[formats|e|] s1]
  end; try discriminate.
  unfold bind, lift, ret.
  destruct (dict_get js "thumbnailUrl" PNone) as [thumb|e|]; try discriminate.
  destruct (dict_get js "duration" PNone) as [dur|e|]; try discriminate.
  intros H. inversion H. now exists thumb, dur, formats.
Qed.

(** C9.  Every result [TwitCastingIE._real_extract] returns has
    [is_live] set, whatever the page says.  The liveness flag computed
    from the page only enters the format list: two successful runs of the
    rest of the extraction that differ in the flag alone return the same
    result up to [formats]. *)
Theorem twitcasting_is_live_constant :
  (forall videopassword url st info st',
      TwitCastingIE_real_extract E videopassword url st = (Ok info, st') ->
      mr_is_live info = true) /\
  (forall flag flag' uploader_id video_id webpage title js st info st1 info' st2,
      TwitCastingIE_extract_with E flag uploader_id video_id webpage title js st
      = (Ok info, st1) ->
      TwitCastingIE_extract_with E flag' uploader_id video_id webpage title js st
      = (Ok info', st2) ->
      without_formats info = without_formats info').
Proof.
  split.
  - intros pw url st info st'. unfold TwitCastingIE_real_extract.
    destruct (match_valid_url E url) as [[uploader_id video_id]|]; [|discriminate].
    cbv zeta. unfold bind at 1.
    destruct (_download_webpage E url _ st) as [[webpage|e|] s0]; try discriminate.
    unfold bind at 1.
    destruct (try_get webpage _ compat_str s0) as [[title|e|] s1]; try discriminate.
    destruct (negb (truthy title)); [discriminate|].
    unfold bind at 1.
    destruct (try_get webpage _ is_dict s1) as [[js|e|] s2]; try discriminate.
    intros H. apply extract_with_shape in H as (thumb & dur & formats & _ & _ & ->).
    reflexivity.
  - intros flag flag' uploader_id video_id webpage title js st info st1 info' st2 H1 H2.
    apply extract_with_shape in H1 as (thumb & dur & formats & Ht & Hd & ->).
    apply extract_with_shape in H2 as (thumb' & dur' & formats' & Ht' & Hd' & ->).
    rewrite Ht in Ht'. rewrite Hd in Hd'. inversion Ht'. inversion Hd'. reflexivity.
Qed.

End TwitCastingLive.

(** An archived movie page, which does not report [data-status="online"]:
    the extraction succeeds with the single [hls] format and [is_live] set. *)
Lemma twitcasting_is_live_constant_witness :
  contains TwitCasting.online_marker Examples.archived_page = false /\
  exists info st',
    TwitCasting.TwitCastingIE_real_extract Examples.world_gap PNone
      Examples.movie_url TwitCasting.fresh = (Ok info, st') /\
    List.length (TwitCasting.mr_formats info) = 1 /\
    TwitCasting.mr_is_live info = true.
Proof.
  split; [reflexivity|].
  destruct (TwitCasting.TwitCastingIE_real_extract Examples.world_gap PNone
              Examples.movie_url TwitCasting.fresh) as [[info|e|] st'] eqn:Hrun;
    [|vm_compute in Hrun; discriminate ..].
  exists info, st'. split; [reflexivity|]. split.
  - vm_compute in Hrun. inversion Hrun. reflexivity.
  - exact (proj1 (twitcasting_is_live_constant Examples.world_gap) PNone
             Examples.movie_url TwitCasting.fresh info st' Hrun).
Defined.

(** ** Redirect results *)

Section Redirects.
Import Pipeline.

Section Bounded.
Variables St Media Playlist : Type.
Variable extract : string -> option string -> M St (extraction_result Media Playlist).

(** Redirects within the budget are followed. *)
Lemma start_at_follows (n : nat) (url url' : string) (hint hint' : option string)
    (st st' : St) :
  redirects St Media Playlist extract n url hint st url' hint' st' ->
  forall d,
    start_at St Media Playlist extract (n + d) url hint st
    = start_at St Media Playlist extract d url' hint' st'.
Proof.
  induction 1 as [|n url target url' hint hint1 hint' st st1 st' Hx _ IH]; intros d.
  - reflexivity.
  - cbn [Nat.add start_at]. rewrite Hx. apply IH.
Qed.

(** One redirect more than the budget is rejected when it is returned. *)
Lemma start_at_exceeds (n : nat) (url url' : string) (hint hint' : option string)
    (st st' : St) :
  redirects St Media Playlist extract (S n) url hint st url' hint' st' ->
  start_at St Media Playlist extract n url hint st = (Failed RedirectLoop, st').
Proof.
  revert url hint st. induction n as [|n IH]; intros url hint st Hr.
  - inversion Hr as [|n0 u t u' h h1 h' s s1 s' Hx Hrest]; subst.
    inversion Hrest; subst. cbn [start_at]. now rewrite Hx.
  - inversion Hr as [|n0 u t u' h h1 h' s s1 s' Hx Hrest]; subst.
    cbn [start_at]. rewrite Hx. now apply IH.
Qed.

(** A handler that always points back at the URL it was given. *)
Lemma start_at_self_redirect (url : string) (hint : option string) :
  (forall st, exists st', extract url hint st = (Ok (RedirectResult url hint), st')) ->
  forall d st,
    fst (start_at St Media Playlist extract d url hint st) = Failed RedirectLoop.
Proof.
  intros Hloop d. induction d as [|d IH]; intros st; cbn [start_at];
    destruct (Hloop st) as [st' ->]; [reflexivity|apply IH].
Qed.

End Bounded.


End Redirects.


(* ================================================================== *)
(** * Further properties *)
(* ================================================================== *)

(** ** The extractor list: self-hosted classes, plugins, listing *)

Section RegistryMore.
Import Registry.

(** X1.  After a successful import, every class returned by
    [gen_selfhosted_extractor_classes] has [_SELF_HOSTED] set and is also
    in the list of [gen_extractor_classes]; the classes appear in the same
    relative order as in the namespace.  When the generated lazy module
    was loaded the self-hosted list is empty, whatever that module
    exports. *)
Theorem selfhosted_classes_sound
    (no_lazy : bool) (lazy_module : option (list klass))
    (extractors plugins : namespace) (m : module_state) :
  module_init no_lazy lazy_module extractors plugins = Ok m ->
  Forall (fun k => _SELF_HOSTED k = true /\ In k (gen_extractor_classes m))
         (gen_selfhosted_extractor_classes m) /\
  (_LAZY_LOADER m = true -> gen_selfhosted_extractor_classes m = []) /\
  (_LAZY_LOADER m = false ->
   gen_selfhosted_extractor_classes m
   = filter _SELF_HOSTED (eager_classes extractors)).
Proof.
  unfold module_init. intros H.
  assert (Heager :
    forall g,
      Forall (fun k => _SELF_HOSTED k = true /\
                       In k (map snd plugins ++ eager_classes extractors ++ [g]))
             (filter _SELF_HOSTED (eager_classes extractors))).
  { intros g. apply Forall_forall. intros k Hk.
    apply filter_In in Hk as [Hin Hs]. split; [exact Hs|].
    apply in_or_app. right. apply in_or_app. now left. }
  destruct no_lazy; simpl in H.
  - destruct (ns_lookup "GenericIE" extractors) as [g|]; [|discriminate].
    inversion H; subst m; simpl.
    split; [apply Heager|]. split; [discriminate|reflexivity].
  - destruct lazy_module as [all|].
    + inversion H; subst m; simpl.
      split; [constructor|]. split; [reflexivity|discriminate].
    + destruct (ns_lookup "GenericIE" extractors) as [g|]; [|discriminate].
      inversion H; subst m; simpl.
      split; [apply Heager|]. split; [discriminate|reflexivity].
Qed.

(** The sample namespace: [PeerTubeIE] is the only self-hosted class. *)
Lemma selfhosted_classes_sound_witness :
  gen_selfhosted_extractor_classes Examples.eager_module = [Examples.PeerTubeIE] /\
  Forall (fun k => _SELF_HOSTED k = true /\
                   In k (gen_extractor_classes Examples.eager_module))
         (gen_selfhosted_extractor_classes Examples.eager_module).
Proof.
  split; [reflexivity|].
  exact (proj1 (selfhosted_classes_sound true None Examples.extractors_ns
                  Examples.plugins_ns Examples.eager_module eq_refl)).
Defined.

Lemma module_init_base
    (no_lazy : bool) (lazy_module : option (list klass))
    (extractors plugins : namespace) (m : module_state) :
  module_init no_lazy lazy_module extractors plugins = Ok m ->
  exists base, gen_extractor_classes m = map snd plugins ++ base.
Proof.
  unfold module_init. intros H.
  destruct (if no_lazy then None else lazy_module) as [all|].
  - inversion H; subst m. now exists all.
  - destruct (ns_lookup "GenericIE" extractors) as [g|]; [|discriminate].
    inversion H; subst m. now exists (eager_classes extractors ++ [g]).
Qed.

Lemma resolve_from_shift (l : list klass) (url : string) (n : nat) :
  resolve_from n l url
  = match resolve_from 0 l url with
    | Some (i, k) => Some (n + i, k)
    | None => None
    end.
Proof.
  revert n. induction l as [|c l IH]; intros n; simpl; [reflexivity|].
  destruct (suitable c url).
  - now rewrite Nat.add_0_r.
  - rewrite (IH (S n)), (IH 1).
    destruct (resolve_from 0 l url) as [[i k]|]; [|reflexivity].
    f_equal. f_equal. lia.
Qed.

(** X2.  Plugin classes are placed in front of every other class: under
    first-match resolution a URL that some plugin class is suitable for
    resolves to the first such plugin class, whatever the other classes
    would say; a URL no plugin class is suitable for resolves as it does
    on the list without plugins, [len(plugins)] positions further on. *)
Theorem plugins_take_precedence
    (no_lazy : bool) (lazy_module : option (list klass))
    (extractors plugins : namespace) (m : module_state) (url : string) :
  module_init no_lazy lazy_module extractors plugins = Ok m ->
  exists base,
    gen_extractor_classes m = map snd plugins ++ base /\
    match resolve (map snd plugins) url with
    | Some (i, k) => resolve (gen_extractor_classes m) url = Some (i, k)
    | None =>
        resolve (gen_extractor_classes m) url
        = match resolve base url with
          | Some (i, k) => Some (List.length plugins + i, k)
          | None => None
          end
    end.
Proof.
  intros H.
  destruct (module_init_base no_lazy lazy_module extractors plugins m H)
    as [base Hb].
  exists base. split; [exact Hb|].
  rewrite Hb. unfold resolve. rewrite resolve_from_app.
  destruct (resolve_from 0 (map snd plugins) url) as [[i k]|]; [reflexivity|].
  rewrite length_map. simpl.
  apply resolve_from_shift.
Qed.

(** The sample namespace with its plugin: a plugin URL resolves to the
    plugin, a Mildom URL to [MildomIE] one position later than without
    the plugin. *)
Lemma plugins_take_precedence_witness :
  resolve (gen_extractor_classes Examples.eager_module)
          "https://plugin.example/v/1" = Some (0, Examples.SamplePluginIE) /\
  exists base,
    gen_extractor_classes Examples.eager_module
    = map snd Examples.plugins_ns ++ base /\
    resolve (gen_extractor_classes Examples.eager_module)
            "https://www.mildom.com/10534224"
    = match resolve base "https://www.mildom.com/10534224" with
      | Some (i, k) => Some (List.length Examples.plugins_ns + i, k)
      | None => None
      end.
Proof.
  split; [reflexivity|].
  destruct (plugins_take_precedence true None Examples.extractors_ns
              Examples.plugins_ns Examples.eager_module
              "https://www.mildom.com/10534224" eq_refl) as (base & Hb & Hr).
  exists base. split; [exact Hb|]. exact Hr.
Defined.

Section ListingFacts.
Import Listing.
Context {A : Type}.
Variable key : A -> string.

Lemma insert_by_perm (x : A) (l : list A) : Permutation (x :: l) (insert_by key x l).
Proof.
  induction l as [|y l IH]; simpl; [reflexivity|].
  destruct (String.leb (key x) (key y)); [reflexivity|].
  rewrite perm_swap. now constructor.
Qed.

Lemma sorted_perm (l : list A) : Permutation l (sorted key l).
Proof.
  induction l as [|x l IH]; simpl; [constructor|].
  rewrite <- insert_by_perm. now constructor.
Qed.

Lemma insert_by_hd (a x : A) (l : list A) :
  key_le key a x -> HdRel (key_le key) a l -> HdRel (key_le key) a (insert_by key x l).
Proof.
  intros Hax Hal. destruct l as [|y l]; simpl; [now constructor|].
  destruct (String.leb (key x) (key y)); constructor; [exact Hax|].
  now inversion Hal.
Qed.

Lemma insert_by_sorted (x : A) (l : list A) :
  Sorted (key_le key) l -> Sorted (key_le key) (insert_by key x l).
Proof.
  induction 1 as [|y l Hs IH Hhd]; simpl; [repeat constructor|].
  destruct (String.leb (key x) (key y)) eqn:Hxy.
  - constructor; [now constructor|]. now constructor.
  - constructor; [exact IH|].
    apply insert_by_hd; [|exact Hhd].
    unfold key_le. destruct (String.leb_total (key x) (key y)); congruence.
Qed.

Lemma sorted_sorted (l : list A) : Sorted (key_le key) (sorted key l).
Proof.
  induction l as [|x l IH]; simpl; [constructor|]. now apply insert_by_sorted.
Qed.

Lemma leb_refl (s : string) : String.leb s s = true.
Proof. now destruct (String.leb_total s s). Qed.

Lemma insert_by_stable (v : string) (x : A) (l : list A) :
  filter (fun y => String.eqb (key y) v) (insert_by key x l)
  = filter (fun y => String.eqb (key y) v) (x :: l).
Proof.
  induction l as [|y l IH]; simpl; [reflexivity|].
  destruct (String.leb (key x) (key y)) eqn:Hxy; [reflexivity|].
  simpl. rewrite IH. simpl.
  destruct (String.eqb_spec (key x) v) as [Hx|Hx];
    destruct (String.eqb_spec (key y) v) as [Hy|Hy]; try reflexivity.
  rewrite Hx, Hy, leb_refl in Hxy. discriminate.
Qed.

Lemma sorted_stable (v : string) (l : list A) :
  filter (fun y => String.eqb (key y) v) (sorted key l)
  = filter (fun y => String.eqb (key y) v) l.
Proof.
  induction l as [|x l IH]; simpl; [reflexivity|].
  rewrite insert_by_stable. simpl. now rewrite IH.
Qed.

End ListingFacts.

Section ListExtractors.
Import Listing.
Variable is_suitable : klass -> nat -> bool.
Variable lower : string -> string.

(** X3.  [list_extractors(age_limit)] returns exactly the extractors of
    [gen_extractors] that are suitable for the age limit, each as often as
    it occurs there, in non-decreasing order of the lower-cased name;
    extractors whose lower-cased names are equal keep their registry
    order. *)
Theorem list_extractors_sorted (m : module_state) (age_limit : nat) :
  let listed := list_extractors is_suitable lower m age_limit in
  Permutation (filter (fun ie => is_suitable ie age_limit) (gen_extractor_classes m))
              listed /\
  Sorted (fun a b => String.leb (lower (ie_name a)) (lower (ie_name b)) = true) listed /\
  (forall ie, In ie listed <->
              In ie (gen_extractor_classes m) /\ is_suitable ie age_limit = true) /\
  (forall name,
      filter (fun ie => String.eqb (lower (ie_name ie)) name) listed
      = filter (fun ie => String.eqb (lower (ie_name ie)) name)
               (filter (fun ie => is_suitable ie age_limit) (gen_extractor_classes m))).
Proof.
  cbv zeta. unfold list_extractors, gen_extractors.
  split; [apply sorted_perm|]. split; [apply (sorted_sorted (name_key lower))|].
  split.
  - intros ie. split; intros H.
    + apply (Permutation_in _ (Permutation_sym (sorted_perm (name_key lower) _))) in H.
      now apply filter_In in H.
    + apply (Permutation_in _ (sorted_perm (name_key lower) _)).
      now apply filter_In.
  - intros name. apply (sorted_stable (name_key lower)).
Qed.

End ListExtractors.

End RegistryMore.

(** ** Mildom: query parameters and the cost of an API call *)

Section MildomQueries.
Import Mildom MildomObs.
Variable E : env.

Lemma assoc_app (k : string) (a b : list (string * pyval)) :
  assoc k (a ++ b) = match assoc k a with Some v => Some v | None => assoc k b end.
Proof.
  induction a as [|[k0 v0] a IH]; simpl; [reflexivity|].
  destruct (String.eqb k k0); [reflexivity|exact IH].
Qed.

(** A lookup after [d.update(q)]: the last value [q] gives the key, or
    else what [d] had. *)
Lemma assoc_dict_update_last (k : string) (d q : list (string * pyval)) :
  assoc k (dict_update d q)
  = match assoc k (rev q) with Some v => Some v | None => assoc k d end.
Proof.
  unfold dict_update. revert d.
  induction q as [|[k0 v0] q IH]; intros d; simpl; [reflexivity|].
  rewrite IH, assoc_app, assoc_dict_set. simpl.
  destruct (assoc k (rev q)); [reflexivity|].
  destruct (String.eqb k k0); reflexivity.
Qed.

(** X4.  When [_common_queries] returns, the result is the ten built-in
    parameters updated with the caller's query: a key of the query has
    the value the query gives it last, every other key has its built-in
    value, where [__location], [__country] and [__cluster] are the members
    of the dispatcher configuration the call obtained and [__guest_id] is
    the empty string for an initialization call. *)
Theorem common_queries_merge (gid : M state pyval) (query : list (string * pyval))
    (init : bool) (st st' : state) (q : list (string * pyval)) :
  _common_queries E gid query init st = (Ok q, st') ->
  exists dc st1 ts g location country cluster,
    _fetch_dispatcher_config E st = (Ok dc, st1) /\
    getitem dc "location" = Ok location /\
    getitem dc "country" = Ok country /\
    getitem dc "cluster" = Ok cluster /\
    (init = true -> g = PStr "") /\
    forall k,
      assoc k q
      = match assoc k (rev query) with
        | Some v => Some v
        | None => assoc k (default_queries ts g location country cluster)
        end.
Proof.
  unfold _common_queries, bind at 1.
  destruct (_fetch_dispatcher_config E st) as [[dc|e|] st1]; try discriminate.
  unfold iso_timestamp, lang_code, tick, lift, ret, bind.
  cbn [fst snd].
  destruct init.
  - destruct (getitem dc "location") as [location|e|] eqn:Hl; try discriminate.
    destruct (getitem dc "country") as [country|e|] eqn:Hc; try discriminate.
    destruct (getitem dc "cluster") as [cluster|e|] eqn:Hk; try discriminate.
    intros H. injection H as Hq Hst. subst q st'.
    exists dc, st1, (now E (clock st1)), (PStr ""), location, country, cluster.
    split; [reflexivity|]. repeat (split; [assumption|]).
    split; [reflexivity|].
    intros k. apply assoc_dict_update_last.
  - match goal with
    | |- context [gid ?s] => destruct (gid s) as [[g|e|] st3]
    end; try discriminate.
    destruct (getitem dc "location") as [location|e|] eqn:Hl; try discriminate.
    destruct (getitem dc "country") as [country|e|] eqn:Hc; try discriminate.
    destruct (getitem dc "cluster") as [cluster|e|] eqn:Hk; try discriminate.
    intros H. injection H as Hq Hst. subst q st'.
    exists dc, st1, (now E (clock st1)), g, location, country, cluster.
    split; [reflexivity|]. repeat (split; [assumption|]).
    split; [discriminate|].
    intros k. apply assoc_dict_update_last.
Qed.

End MildomQueries.

(** The first listing request of the sample server: the caller's
    [user_id] is added, and a caller's [sfr] would replace the built-in
    one. *)
Lemma common_queries_merge_witness :
  exists q st',
    Mildom._common_queries Examples.world_ok (Mildom.guest_id Examples.world_ok 1)
      [("user_id", PStr "10093333"); ("sfr", PStr "mobile")] false Mildom.fresh
    = (Ok q, st') /\
    assoc "user_id" q = Some (PStr "10093333") /\
    assoc "sfr" q = Some (PStr "mobile") /\
    assoc "__platform" q = Some (PStr "web").
Proof.
  destruct (Mildom._common_queries Examples.world_ok
              (Mildom.guest_id Examples.world_ok 1)
              [("user_id", PStr "10093333"); ("sfr", PStr "mobile")] false
              Mildom.fresh) as [[q|e|] st'] eqn:Hrun;
    [|vm_compute in Hrun; discriminate ..].
  exists q, st'. split; [reflexivity|].
  destruct (common_queries_merge Examples.world_ok _ _ _ _ _ _ Hrun)
    as (dc & st1 & ts & g & l & c & cl & _ & _ & _ & _ & _ & Hq).
  rewrite !Hq. repeat split.
Defined.

(** ** Mildom: how many requests a call sends *)

Section MildomCosts.
Import Mildom MildomObs.
Variable E : env.

Lemma requests_app (a b : list event) : requests (a ++ b) = requests a + requests b.
Proof. unfold requests. now rewrite filter_app, length_app. Qed.

Lemma cookie_lookups_app (a b : list event) :
  cookie_lookups (a ++ b) = cookie_lookups a + cookie_lookups b.
Proof. unfold cookie_lookups. now rewrite filter_app, length_app. Qed.

Lemma costs_nothing {A} (m : M state A) :
  (forall st, trace (snd (m st)) = trace st) -> costs_at_most 0 0 m.
Proof.
  intros H st. exists []. rewrite H, app_nil_r. repeat split; apply le_n.
Qed.

Lemma costs_weaken {A} (n c n' c' : nat) (m : M state A) :
  n <= n' -> c <= c' -> costs_at_most n c m -> costs_at_most n' c' m.
Proof.
  intros Hn Hc H st. destruct (H st) as (evs & Ht & Hr & Hk).
  exists evs. repeat split; [exact Ht | lia | lia].
Qed.

Lemma costs_bind {A B} (n1 c1 n2 c2 : nat) (m : M state A) (k : A -> M state B) :
  costs_at_most n1 c1 m -> (forall a, costs_at_most n2 c2 (k a)) ->
  costs_at_most (n1 + n2) (c1 + c2) (bind m k).
Proof.
  intros Hm Hk st. unfold bind.
  destruct (Hm st) as (evs & Ht & Hr & Hc).
  destruct (m st) as [[a|e|] st1]; cbn [snd] in *.
  - destruct (Hk a st1) as (evs' & Ht' & Hr' & Hc').
    exists (evs ++ evs'). rewrite Ht', Ht, app_assoc, requests_app, cookie_lookups_app.
    repeat split; lia.
  - exists evs. repeat split; [exact Ht | lia | lia].
  - exists evs. repeat split; [exact Ht | lia | lia].
Qed.

Lemma costs_tick (ev : event) :
  costs_at_most (if is_download ev then 1 else 0)
                (if is_cookie_lookup ev then 1 else 0) (tick ev).
Proof.
  intros st. exists [ev]. split; [reflexivity|].
  unfold requests, cookie_lookups. simpl.
  destruct (is_download ev), (is_cookie_lookup ev); simpl; split; lia.
Qed.

Lemma costs_log (ev : event) :
  costs_at_most (if is_download ev then 1 else 0)
                (if is_cookie_lookup ev then 1 else 0) (log ev).
Proof.
  intros st. exists [ev]. split; [reflexivity|].
  unfold requests, cookie_lookups. simpl.
  destruct (is_download ev), (is_cookie_lookup ev); simpl; split; lia.
Qed.

Lemma costs_try_except {A} (n1 c1 n2 c2 : nat) (m h : M state A) :
  costs_at_most n1 c1 m -> costs_at_most n2 c2 h ->
  costs_at_most (n1 + n2) (c1 + c2) (try_except_ExtractorError m h).
Proof.
  intros Hm Hh st. unfold try_except_ExtractorError.
  destruct (Hm st) as (evs & Ht & Hr & Hc).
  destruct (m st) as [[a|e|] st1]; cbn [snd] in *;
    try (exists evs; repeat split; [exact Ht | lia | lia]).
  destruct e; try (exists evs; repeat split; [exact Ht | lia | lia]).
  destruct (Hh st1) as (evs' & Ht' & Hr' & Hc').
  exists (evs ++ evs'). rewrite Ht', Ht, app_assoc, requests_app, cookie_lookups_app.
  repeat split; lia.
Qed.

Lemma costs_try_get_cons {Src} (n c n' c' : nat) (src : Src)
    (g : Src -> M state pyval) (rest : list (Src -> M state pyval))
    (ty : pyval -> bool) :
  costs_at_most n c (g src) ->
  costs_at_most n' c' (try_get src rest ty) ->
  costs_at_most (n + n') (c + c') (try_get src (g :: rest) ty).
Proof.
  intros Hg Hrest st. simpl.
  destruct (Hg st) as (evs & Ht & Hr & Hc).
  destruct (g src st) as [[v|e|] st1]; cbn [snd] in *.
  - destruct (negb (is_none v) && ty v).
    + exists evs. repeat split; [exact Ht | lia | lia].
    + destruct (Hrest st1) as (evs' & Ht' & Hr' & Hc').
      exists (evs ++ evs').
      rewrite Ht', Ht, app_assoc, requests_app, cookie_lookups_app.
      repeat split; lia.
  - destruct (passes_over e).
    + destruct (Hrest st1) as (evs' & Ht' & Hr' & Hc').
      exists (evs ++ evs').
      rewrite Ht', Ht, app_assoc, requests_app, cookie_lookups_app.
      repeat split; lia.
    + exists evs. repeat split; [exact Ht | lia | lia].
  - exists evs. repeat split; [exact Ht | lia | lia].
Qed.

Lemma costs_download_json (url : string) (data : option string) :
  costs_at_most 1 0 (_download_json E url data).
Proof.
  unfold _download_json.
  apply (costs_bind 1 0 0 0); [apply (costs_tick (EvDownload url data))|].
  intros t. apply costs_nothing. intros st. now destruct (net E t url data).
Qed.

Lemma costs_fetch_dispatcher_config : costs_at_most 2 0 (_fetch_dispatcher_config E).
Proof.
  unfold _fetch_dispatcher_config.
  apply (costs_bind 0 0 2 0); [now apply costs_nothing|]. intros dc.
  apply (costs_bind 2 0 0 0); [|intros; now apply costs_nothing].
  destruct (negb (truthy dc)); [|apply (costs_weaken 0 0); try lia; now apply costs_nothing].
  apply (costs_try_except 1 0 1 0).
  - apply (costs_bind 0 0 1 0); [apply (costs_tick EvClock)|]. intros rtm.
    apply (costs_bind 1 0 0 0); [apply costs_download_json|]. intros tmp.
    apply (costs_bind 0 0 0 0); [now apply costs_nothing|]. intros v.
    now apply costs_nothing.
  - apply (costs_bind 0 0 1 0); [apply (costs_tick EvRandom)|]. intros host.
    apply (costs_bind 1 0 0 0); [apply costs_download_json|]. intros v.
    now apply costs_nothing.
Qed.

Lemma costs_common_queries_init (gid : M state pyval) (query : list (string * pyval)) :
  costs_at_most 2 0 (_common_queries E gid query true).
Proof.
  unfold _common_queries.
  apply (costs_bind 2 0 0 0); [apply costs_fetch_dispatcher_config|]. intros dc.
  apply (costs_bind 0 0 0 0); [apply (costs_tick EvClock)|]. intros ts.
  apply (costs_bind 0 0 0 0); [now apply costs_nothing|]. intros g.
  repeat (apply (costs_bind 0 0 0 0); [now apply costs_nothing|]; intros ?).
  now apply costs_nothing.
Qed.

Lemma costs_call_api_init (gid : M state pyval) (url : string)
    (query : list (string * pyval)) :
  costs_at_most 3 0 (_call_api E gid url query true).
Proof.
  unfold _call_api.
  apply (costs_bind 2 0 1 0); [apply costs_common_queries_init|]. intros q.
  apply (costs_bind 1 0 0 0); [apply costs_download_json|]. intros resp.
  now apply costs_nothing.
Qed.

Lemma costs_cookie_gid (url : string) : costs_at_most 0 1 (cookie_gid E url).
Proof.
  unfold cookie_gid, _get_cookies.
  apply (costs_bind 0 1 0 0).
  - apply (costs_bind 0 1 0 0); [apply (costs_tick (EvCookies url))|].
    intros t. now apply costs_nothing.
  - intros c. apply costs_nothing. intros st. now destruct (cookie_get "gid" c).
Qed.

(** X5.  Whatever the world answers and whatever the outcome, an API
    call made with [init=True] sends at most three requests (two for the
    dispatcher configuration, one for the call itself) and never looks
    into the cookie jar; [_fetch_dispatcher_config] sends at most two
    requests; one call of [guest_id] sends at most three requests and
    looks up at most two cookies.  The bounds are reached in a world where
    the primary dispatcher endpoint is down and no guest id is to be
    had. *)
Theorem guest_id_cost (n : nat) :
  costs_at_most 2 0 (_fetch_dispatcher_config E) /\
  (forall gid url query, costs_at_most 3 0 (_call_api E gid url query true)) /\
  costs_at_most 3 2 (guest_id E (S n)) /\
  (let tr := trace (snd (guest_id Examples2.world_worst 1 fresh)) in
   requests tr = 3 /\ cookie_lookups tr = 2).
Proof.
  split; [apply costs_fetch_dispatcher_config|].
  split; [intros; apply costs_call_api_init|].
  split; [|vm_compute; split; reflexivity].
  cbn [guest_id].
  apply (costs_bind 0 0 3 2); [apply (costs_log EvGuestId)|]. intros _.
  apply (costs_bind 0 0 3 2); [now apply costs_nothing|]. intros cached.
  destruct (truthy cached);
    [apply (costs_weaken 0 0); try lia; now apply costs_nothing|].
  apply (costs_bind 3 2 0 0).
  - apply (costs_try_get_cons 3 0 0 2).
    + unfold h5init_guest_id.
      apply (costs_bind 3 0 0 0); [apply costs_call_api_init|]. intros body.
      apply (costs_bind 0 0 0 0); [now apply costs_nothing|]. intros g.
      now apply costs_nothing.
    + apply (costs_try_get_cons 0 1 0 1); [apply costs_cookie_gid|].
      apply (costs_try_get_cons 0 1 0 0); [apply costs_cookie_gid|].
      now apply costs_nothing.
  - intros v. apply (costs_bind 0 0 0 0); [now apply costs_nothing|].
    intros _. now apply costs_nothing.
Qed.

End MildomCosts.

Section MildomWarm.
Import Mildom MildomObs.
Variable E : env.

Lemma bind_ok {St A B : Type} (m : M St A) (k : A -> M St B) (st st1 : St) (a : A) :
  m st = (Ok a, st1) -> bind m k st = k a st1.
Proof. intros H. unfold bind. now rewrite H. Qed.

Lemma common_queries_warm (n : nat) (query : list (string * pyval))
    (init : bool) (st : state) (location country cluster : pyval) :
  truthy (_DISPATCHER_CONFIG st) = true ->
  truthy (_GUEST_ID st) = true ->
  getitem (_DISPATCHER_CONFIG st) "location" = Ok location ->
  getitem (_DISPATCHER_CONFIG st) "country" = Ok country ->
  getitem (_DISPATCHER_CONFIG st) "cluster" = Ok cluster ->
  _common_queries E (guest_id E (S n)) query init st
  = (Ok (dict_update
           (default_queries (now E (clock st))
              (if init then PStr "" else _GUEST_ID st) location country cluster)
           query),
     advanced st (_GUEST_ID st) (_DISPATCHER_CONFIG st) 1
       ([EvClock] ++ (if init then [] else [EvGuestId]))).
Proof.
  intros Hcfg Hgid Hl Hc Hk.
  unfold _common_queries.
  erewrite bind_ok; [|apply fetch_cached; exact Hcfg].
  erewrite bind_ok; [|reflexivity].
  cbn [fst snd clock trace _GUEST_ID _DISPATCHER_CONFIG].
  destruct init.
  - erewrite bind_ok; [|reflexivity].
    unfold lift, lang_code.
    erewrite bind_ok; [|exact (f_equal (fun r => (r, _)) Hl)].
    erewrite bind_ok; [|exact (f_equal (fun r => (r, _)) Hc)].
    erewrite bind_ok; [|exact (f_equal (fun r => (r, _)) Hk)].
    erewrite bind_ok; [|reflexivity].
    reflexivity.
  - erewrite bind_ok; [|apply guest_cached; exact Hgid].
    unfold lift, lang_code.
    erewrite bind_ok; [|exact (f_equal (fun r => (r, _)) Hl)].
    erewrite bind_ok; [|exact (f_equal (fun r => (r, _)) Hc)].
    erewrite bind_ok; [|exact (f_equal (fun r => (r, _)) Hk)].
    erewrite bind_ok; [|reflexivity].
    unfold ret, advanced. cbn [fst snd clock trace _GUEST_ID _DISPATCHER_CONFIG Nat.add].
    now rewrite <- app_assoc.
Qed.

(** X6.  On an instance whose two caches are filled (the configuration
    having its three members), an API call asks the world for the time,
    sends exactly one request and returns the [body] member of the answer
    ([ExtractorError] if the request fails, [KeyError] if there is no
    [body]).  The request carries the built-in parameters updated with
    the caller's query, with the cached guest id (the empty string for an
    initialization call); the caches stay as they are and no cookie is
    looked up. *)
Theorem call_api_warm (n : nat) (url : string) (query : list (string * pyval))
    (init : bool) (st : state) (location country cluster : pyval) :
  truthy (_DISPATCHER_CONFIG st) = true ->
  truthy (_GUEST_ID st) = true ->
  getitem (_DISPATCHER_CONFIG st) "location" = Ok location ->
  getitem (_DISPATCHER_CONFIG st) "country" = Ok country ->
  getitem (_DISPATCHER_CONFIG st) "cluster" = Ok cluster ->
  let g := if init then PStr "" else _GUEST_ID st in
  let q := dict_update (default_queries (now E (clock st)) g location country cluster)
                       query in
  let u := update_url_query E url q in
  _call_api E (guest_id E (S n)) url query init st
  = (match net E (S (clock st)) u None with
     | Some resp => getitem resp "body"
     | None => Raise ExtractorError
     end,
     advanced st (_GUEST_ID st) (_DISPATCHER_CONFIG st) 2
       ([EvClock] ++ (if init then [] else [EvGuestId]) ++ [EvDownload u None])).
Proof.
  intros Hcfg Hgid Hl Hc Hk. cbv zeta.
  unfold _call_api.
  erewrite bind_ok; [|apply (common_queries_warm n query init st location country cluster);
                      assumption].
  unfold _download_json, tick, bind, ret, raise, lift, advanced.
  cbn [fst snd clock trace _GUEST_ID _DISPATCHER_CONFIG Nat.add].
  destruct (net E (S (clock st)) _ None); cbn [fst snd];
    now rewrite <- !app_assoc.
Qed.

End MildomWarm.

(** A listing request on the warm sample instance. *)
Lemma call_api_warm_witness :
  Mildom.trace
    (snd (Mildom._call_api Examples.world_ok (Mildom.guest_id Examples.world_ok 1)
            Mildom.playbackList_url (Mildom.page_query "10093333" 1) false
            Examples2.warm))
  = [Mildom.EvClock; Mildom.EvGuestId;
     Mildom.EvDownload
       (Examples.add_query Mildom.playbackList_url
          (Mildom.dict_update
             (MildomObs.default_queries "2021-06-20T00:00:00.000Z" (PStr "guest-42")
                (PStr "Japan|Tokyo") (PStr "Japan") (PStr "aws_japan"))
             (Mildom.page_query "10093333" 1)))
       None].
Proof.
  now rewrite (call_api_warm Examples.world_ok 0 Mildom.playbackList_url
                 (Mildom.page_query "10093333" 1) false Examples2.warm
                 (PStr "Japan|Tokyo") (PStr "Japan") (PStr "aws_japan")
                 eq_refl eq_refl eq_refl eq_refl eq_refl).
Defined.

(** ** Mildom: the pages of a VOD listing *)

Section MildomPages.
Import Mildom.
Variable E : env.

Lemma entry_urls_ok (user_id : string) (items : list pyval) (urls : list string) :
  entry_urls E user_id items = Ok urls ->
  Forall2 (fun x url => exists v, getitem x "v_id" = Ok v /\
                                  url = playback_url E user_id v) items urls.
Proof.
  revert urls. induction items as [|x items IH]; intros urls; simpl.
  - intros H; inversion H. constructor.
  - destruct (getitem x "v_id") as [v|e|] eqn:Hv; try discriminate.
    destruct (entry_urls E user_id items) as [us|e|]; try discriminate.
    intros H; inversion H; subst. constructor; [now exists v|now apply IH].
Qed.

Lemma entry_urls_raise (user_id : string) (items : list pyval) (e : exn) :
  entry_urls E user_id items = Raise e ->
  exists before x after,
    items = before ++ x :: after /\
    getitem x "v_id" = Raise e /\
    Forall (fun y => exists v, getitem y "v_id" = Ok v) before.
Proof.
  induction items as [|x items IH]; simpl; [discriminate|].
  destruct (getitem x "v_id") as [v|e'|] eqn:Hv.
  - destruct (entry_urls E user_id items) as [us|e'|]; try discriminate.
    intros H; inversion H; subst e'.
    destruct (IH eq_refl) as (before & y & after & -> & Hy & Hb).
    exists (x :: before), y, after. repeat split; [exact Hy|].
    constructor; [now exists v|exact Hb].
  - intros H; inversion H; subst e'. exists [], x, items. repeat split; [exact Hv|constructor].
  - now apply getitem_fuel in Hv.
Qed.

(** X7.  A reply of the listing API is turned into playback URLs as a
    whole or not at all.  It succeeds exactly on a list whose items all
    have a [v_id]: then there is one URL per item, in order, each being
    [https://www.mildom.com/playback/<user_id>/<v_id>].  A reply that is
    not a list raises [TypeError]; otherwise the first item that has no
    [v_id] decides the exception ([KeyError] for a dictionary without the
    key, [TypeError] for anything that is not a dictionary), and no URL
    of the page is kept. *)
Theorem reply_urls_all_or_nothing (user_id : string) (reply : pyval) :
  match reply_urls E user_id reply with
  | Ok urls =>
      exists items,
        reply = PList items /\
        Forall2 (fun x url => exists v, getitem x "v_id" = Ok v /\
                                        url = playback_url E user_id v) items urls
  | Raise e =>
      (forall items, reply <> PList items) /\ e = TypeError \/
      exists before x after,
        reply = PList (before ++ x :: after) /\
        getitem x "v_id" = Raise e /\
        Forall (fun y => exists v, getitem y "v_id" = Ok v) before
  | NoFuel => False
  end.
Proof.
  destruct reply as [| | | |items|]; simpl;
    try (left; split; [discriminate|reflexivity]).
  destruct (entry_urls E user_id items) as [urls|e|] eqn:Hurls.
  - exists items. split; [reflexivity|now apply entry_urls_ok].
  - right. destruct (entry_urls_raise _ _ _ Hurls) as (b & x & a & -> & Hx & Hb).
    now exists b, x, a.
  - revert Hurls. clear. induction items as [|x items IH]; simpl; [discriminate|].
    destruct (getitem x "v_id") eqn:Hv; try discriminate.
    + destruct (entry_urls E user_id items); try discriminate. now apply IH.
    + now apply getitem_fuel in Hv.
Qed.

(** X8.  [MildomUserVodIE._real_extract]: it warns, fetches the profile,
    and drains the listing.  If the profile answer has a [user_info] with a
    [loginname] and the listing serves truthy pages up to a first falsy
    reply, the result is the playlist of all their playback URLs in page
    order, each to be handled by [MildomVod], with the user id as its id
    and [Uploads from <loginname>] as its title.  If the profile answer
    has no [user_info], the extraction fails before any listing request
    is sent. *)
Theorem user_vod_playlist (d fuel : nat) (user_id : string) (st st1 st2 : state)
    (body : pyval) (pages : list (list string)) :
  _call_api E (guest_id E d)
    "https://cloudac.mildom.com/nonolive/gappserv/user/profileV2"
    [("user_id", PStr user_id)] false
    (advanced st (_GUEST_ID st) (_DISPATCHER_CONFIG st) 0 [EvWarning])
  = (Ok body, st1) ->
  match getitem body "user_info" with
  | Ok profile =>
      listing E (guest_id E d) user_id 1 st1 pages st2 ->
      List.length pages < fuel ->
      MildomUserVodIE_real_extract E d fuel user_id st
      = match getitem profile "loginname" with
        | Ok loginname =>
            (Ok {| pl_entries :=
                     map (fun u => {| ur_url := u; ur_ie_key := Some "MildomVod" |})
                         (List.concat pages);
                   pl_id := user_id;
                   pl_title := ("Uploads from " ++ fmt_s E loginname)%string |},
             st2)
        | Raise e => (Raise e, st2)
        | NoFuel => (NoFuel, st2)
        end
  | Raise e => MildomUserVodIE_real_extract E d fuel user_id st = (Raise e, st1)
  | NoFuel => False
  end.
Proof.
  intros Hprofile.
  unfold advanced in Hprofile. cbn [Nat.add] in Hprofile.
  destruct (getitem body "user_info") as [profile|e|] eqn:Hinfo.
  - intros Hlist Hfuel. unfold MildomUserVodIE_real_extract.
    erewrite bind_ok; [|reflexivity].
    erewrite bind_ok; [|exact Hprofile].
    erewrite bind_ok; [|exact (f_equal (fun r => (r, st1)) Hinfo)].
    erewrite bind_ok;
      [|exact (drain_pages_listing E _ _ _ _ _ _ Hlist fuel [] Hfuel)].
    cbn [app]. unfold bind, lift, ret.
    destruct (getitem profile "loginname"); reflexivity.
  - unfold MildomUserVodIE_real_extract.
    erewrite bind_ok; [|reflexivity].
    erewrite bind_ok; [|exact Hprofile].
    unfold bind, lift. now rewrite Hinfo.
  - now apply getitem_fuel in Hinfo.
Qed.

End MildomPages.

(** The sample server: profile [neko], listing [[a, b], [c], []]. *)
Lemma user_vod_playlist_witness :
  fst (Mildom.MildomUserVodIE_real_extract Examples.world_ok 1 3 "10093333"
         Mildom.fresh)
  = Ok {| Mildom.pl_entries :=
            map (fun u => {| Mildom.ur_url := u;
                             Mildom.ur_ie_key := Some "MildomVod" |})
                ["https://www.mildom.com/playback/10093333/a";
                 "https://www.mildom.com/playback/10093333/b";
                 "https://www.mildom.com/playback/10093333/c"];
          Mildom.pl_id := "10093333";
          Mildom.pl_title := "Uploads from neko" |}.
Proof.
  set (run := Mildom._call_api Examples.world_ok (Mildom.guest_id Examples.world_ok 1)
                "https://cloudac.mildom.com/nonolive/gappserv/user/profileV2"
                [("user_id", PStr "10093333")] false
                (Mildom.advanced Mildom.fresh (Mildom._GUEST_ID Mildom.fresh)
                   (Mildom._DISPATCHER_CONFIG Mildom.fresh) 0 [Mildom.EvWarning])).
  assert (Hp : run = (Ok (PDict [("user_info", PDict [("loginname", PStr "neko")])]),
                      snd run)) by (vm_compute; reflexivity).
  assert (Hl : exists st2,
             Mildom.listing Examples.world_ok (Mildom.guest_id Examples.world_ok 1)
               "10093333" 1 (snd run)
               [["https://www.mildom.com/playback/10093333/a";
                 "https://www.mildom.com/playback/10093333/b"];
                ["https://www.mildom.com/playback/10093333/c"]] st2).
  { eexists.
    eapply Mildom.listing_page; [vm_compute; reflexivity | reflexivity | reflexivity |].
    eapply Mildom.listing_page; [vm_compute; reflexivity | reflexivity | reflexivity |].
    eapply Mildom.listing_end; [vm_compute; reflexivity | reflexivity]. }
  destruct Hl as [st2 Hl].
  pose proof (user_vod_playlist Examples.world_ok 1 3 "10093333" Mildom.fresh
                (snd run) st2 _
                [["https://www.mildom.com/playback/10093333/a";
                  "https://www.mildom.com/playback/10093333/b"];
                 ["https://www.mildom.com/playback/10093333/c"]] Hp) as H.
  cbn [getitem assoc String.eqb Ascii.eqb Bool.eqb] in H.
  now rewrite (H Hl (le_n 3)).
Defined.

(** ** Regular expressions: the matcher against the matched strings *)

Section RegexCorrect.
Import RegexSem.

Lemma append_nil_r (s : string) : (s ++ "")%string = s.
Proof. induction s; simpl; congruence. Qed.

Lemma append_assoc (a b c : string) : ((a ++ b) ++ c)%string = (a ++ (b ++ c))%string.
Proof. induction a; simpl; congruence. Qed.

Lemma lang_nullable (r : regex) : lang r "" -> nullable r = true.
Proof.
  intros H. remember EmptyString as s eqn:Hs.
  induction H; simpl; try reflexivity; try discriminate.
  - destruct s1; [|discriminate]. simpl in Hs. subst s2.
    rewrite IHlang1, IHlang2; reflexivity.
  - now rewrite IHlang.
  - rewrite IHlang; [apply orb_true_r|assumption].
Qed.

Lemma nullable_lang (r : regex) : nullable r = true -> lang r "".
Proof.
  induction r; simpl; intros H; try discriminate.
  - constructor.
  - apply andb_prop in H as [H1 H2].
    change EmptyString with (EmptyString ++ EmptyString)%string.
    constructor; auto.
  - apply orb_prop in H as [H|H]; [apply lang_alt_l|apply lang_alt_r]; auto.
  - constructor.
Qed.

Lemma lang_deriv (r : regex) (c : ascii) (s : string) :
  lang r (String c s) -> lang (deriv c r) s.
Proof.
  intros H. remember (String c s) as cs eqn:Hcs. revert c s Hcs.
  induction H; intros c0 s0 Hcs; simpl; try discriminate.
  - inversion Hcs; subst. rewrite H. constructor.
  - destruct s1 as [|c1 s1].
    + simpl in Hcs. subst s2.
      apply lang_alt_r. rewrite (lang_nullable _ H). now apply IHlang2.
    + simpl in Hcs. inversion Hcs; subst.
      apply lang_alt_l. constructor; [now apply IHlang1|assumption].
  - apply lang_alt_l. now apply IHlang.
  - apply lang_alt_r. now apply IHlang.
  - destruct s1 as [|c1 s1].
    + simpl in Hcs. now apply IHlang2.
    + simpl in Hcs. inversion Hcs; subst.
      constructor; [now apply IHlang1|assumption].
Qed.

Lemma deriv_lang (r : regex) (c : ascii) (s : string) :
  lang (deriv c r) s -> lang r (String c s).
Proof.
  revert s. induction r; simpl; intros s H.
  - inversion H.
  - inversion H.
  - destruct (p c) eqn:Hp; inversion H; subst. now constructor.
  - inversion H; subst.
    + match goal with Hs : lang (Seq _ _) _ |- _ => inversion Hs; subst end.
      change (String c (s1 ++ s2)) with (String c s1 ++ s2)%string.
      constructor; [now apply IHr1|assumption].
    + destruct (nullable r1) eqn:Hn.
      * change (String c s) with (EmptyString ++ String c s)%string.
        constructor; [now apply nullable_lang|now apply IHr2].
      * match goal with Hv : lang Void _ |- _ => inversion Hv end.
  - inversion H; subst; [apply lang_alt_l|apply lang_alt_r]; auto.
  - inversion H; subst.
    change (String c (s1 ++ s2)) with (String c s1 ++ s2)%string.
    constructor; [now apply IHr|assumption].
Qed.

(** The matcher answers [true] exactly when some prefix of the string is
    matched by the expression. *)
Lemma re_match_iff (r : regex) (s : string) :
  re_match r s = true <-> exists s1 s2, s = (s1 ++ s2)%string /\ lang r s1.
Proof.
  revert r. induction s as [|c s IH]; intros r; simpl.
  - rewrite orb_false_r. split.
    + intros H. exists EmptyString, EmptyString. split; [reflexivity|now apply nullable_lang].
    + intros (s1 & s2 & Hs & Hl). destruct s1; [|discriminate]. now apply lang_nullable.
  - split.
    + intros H. apply orb_prop in H as [H|H].
      * exists EmptyString, (String c s). split; [reflexivity|now apply nullable_lang].
      * apply IH in H as (s1 & s2 & -> & Hl).
        exists (String c s1), s2. split; [reflexivity|now apply deriv_lang].
    + intros (s1 & s2 & Hs & Hl). destruct s1 as [|c1 s1].
      * rewrite (lang_nullable _ Hl). reflexivity.
      * simpl in Hs. inversion Hs; subst.
        apply orb_true_intro. right. apply IH.
        exists s1, s2. split; [reflexivity|now apply lang_deriv].
Qed.

Lemma lang_Lit (p : string) : lang (Lit p) p.
Proof.
  induction p as [|c p IH]; simpl; [constructor|].
  change (String c p) with (String c EmptyString ++ p)%string.
  constructor; [|exact IH]. constructor. apply Ascii.eqb_refl.
Qed.

Lemma lang_Star_all (p : ascii -> bool) (s : string) :
  all_chars p s = true -> lang (Star (Cls p)) s.
Proof.
  induction s as [|c s IH]; simpl; intros H; [constructor|].
  apply andb_prop in H as [Hc Hs].
  change (String c s) with (String c EmptyString ++ s)%string.
  constructor; [now constructor|now apply IH].
Qed.

Lemma lang_Plus_all (p : ascii -> bool) (s : string) :
  s <> EmptyString -> all_chars p s = true -> lang (Plus (Cls p)) s.
Proof.
  destruct s as [|c s]; [congruence|]. simpl. intros _ H.
  apply andb_prop in H as [Hc Hs].
  change (String c s) with (String c EmptyString ++ s)%string.
  constructor; [now constructor|now apply lang_Star_all].
Qed.

End RegexCorrect.

(** ** TwitCasting: what a media extraction requests and returns *)

Section TwitCastingMedia.
Import TwitCasting TwitCastingParts.
Variable E : env.

Lemma bind_raise {St A B : Type} (m : M St A) (k : A -> M St B) (st st1 : St) (e : exn) :
  m st = (Raise e, st1) -> bind m k st = (Raise e, st1).
Proof. intros H. unfold bind. now rewrite H. Qed.

Lemma source_url_fuel (js : pyval) : source_url js <> NoFuel.
Proof.
  unfold source_url. pose proof (getitem_fuel js "source") as H.
  destruct (getitem js "source") as [s|e|]; [apply getitem_fuel|discriminate|congruence].
Qed.

Lemma getitem_lookup (v : pyval) (key : string) (e : exn) :
  getitem v key = Raise e -> passes_over e = true.
Proof.
  destruct v; simpl; try (intros H; injection H as <-; reflexivity).
  destruct (assoc key d); [discriminate|]. intros H; injection H as <-; reflexivity.
Qed.

Lemma source_url_lookup (js : pyval) (e : exn) :
  source_url js = Raise e -> passes_over e = true.
Proof.
  unfold source_url.
  destruct (getitem js "source") as [s0|e0|] eqn:H0; [| |discriminate].
  - apply getitem_lookup.
  - intros H; injection H as <-. exact (getitem_lookup _ _ _ H0).
Qed.

Lemma m3u8_url_value (is_live : bool) (uploader_id webpage : string) (js : pyval)
    (st : state) :
  try_get webpage
    [ (fun x => ret (search_movie_url E x));
      (fun _ => lift (source_url js));
      (fun _ => ret (if is_live
                     then PStr ("https://twitcasting.tv/" ++ uploader_id
                                ++ "/metastream.m3u8")%string
                     else PNone)) ]
    compat_str st
  = (Ok (m3u8_choice E is_live uploader_id webpage js), st).
Proof.
  unfold m3u8_choice. cbn [try_get]. unfold ret, lift.
  destruct (search_movie_url E webpage) as [| | |s| |] eqn:Hs; cbn;
    try reflexivity;
    (pose proof (source_url_fuel js) as Hf;
     pose proof (source_url_lookup js) as Hl;
     destruct (source_url js) as [v|e|];
     [|rewrite (Hl e eq_refl); destruct is_live; reflexivity|congruence];
     destruct v; cbn; try reflexivity; destruct is_live; reflexivity).
Qed.

Lemma video_js_data_is_dict (webpage : string) :
  exists d, video_js_data_of E webpage = PDict d.
Proof.
  unfold video_js_data_of.
  destruct (movie_playlist_entry E webpage) as [v|e|]; try (now exists []).
  destruct v; try (now exists []). now exists d.
Qed.

Lemma video_js_data_step {A : Type} (k : pyval -> M state A) (webpage : string)
    (st : state) :
  movie_playlist_entry E webpage <> NoFuel ->
  bind (try_get webpage [ (fun x => lift (movie_playlist_entry E x)) ] is_dict)
       (fun js => k (py_or js (PDict []))) st
  = match playlist_failure E webpage with
    | Some e => (Raise e, st)
    | None => k (video_js_data_of E webpage) st
    end.
Proof.
  intros Hf. unfold bind, video_js_data_of, playlist_failure. cbn [try_get].
  unfold lift, ret.
  destruct (movie_playlist_entry E webpage) as [v|e|]; [| |congruence].
  - destruct v as [| | | | |d]; cbn; try reflexivity.
    destruct d; reflexivity.
  - destruct (passes_over e); reflexivity.
Qed.

Lemma title_step {A : Type} (k : pyval -> M state A) (webpage : string) (st : state) :
  bind (try_get webpage
          [ (fun x => ret (html_search_meta E ["og:title"; "twitter:title"] x)) ]
          compat_str) k st
  = k (match html_search_meta E ["og:title"; "twitter:title"] webpage with
       | PStr t => PStr t
       | _ => PNone
       end) st.
Proof.
  unfold bind. cbn [try_get]. unfold ret.
  destruct (html_search_meta E ["og:title"; "twitter:title"] webpage); reflexivity.
Qed.

Lemma extract_with_tail (uploader_id video_id webpage : string) (title : pyval)
    (formats : list pyval) (st : state) :
  bind (lift (dict_get (video_js_data_of E webpage) "thumbnailUrl" PNone))
       (fun thumb =>
          bind (lift (dict_get (video_js_data_of E webpage) "duration" PNone))
               (fun dur =>
                  ret (info_dict E uploader_id video_id webpage title thumb dur formats)))
       st
  = (Ok (info_dict E uploader_id video_id webpage title
           (js_get E webpage "thumbnailUrl") (js_get E webpage "duration") formats),
     st).
Proof.
  unfold js_get. destruct (video_js_data_is_dict webpage) as [d ->].
  unfold bind, lift, ret, dict_get.
  destruct (assoc "thumbnailUrl" d), (assoc "duration" d); reflexivity.
Qed.

(** X9.  A movie page that does not report [data-status="online"] costs
    one request and nothing else: once the URL matches and the page is
    downloaded (with the password as POST data if one is set), no manifest
    is requested, whatever the outcome.  Without a non-empty title the
    extraction fails with [ExtractorError].  With one, it fails exactly
    when reading the page's movie playlist fails otherwise than on a
    lookup (an attribute that is not JSON: the [ExtractorError] of
    [_parse_json]), with that exception.  In every other case it succeeds,
    and its only format is the [hls] entry for the page's
    [data-movie-url], else the playlist's source URL, else [None]. *)
Theorem twitcasting_archived_page (videopassword : pyval) (url uploader_id video_id
    webpage : string) (st : state) :
  match_valid_url E url = Some (uploader_id, video_id) ->
  let data := if truthy videopassword
              then Some (urlencode_postdata E videopassword) else None in
  download_webpage E (clock st) url data = Some webpage ->
  contains online_marker webpage = false ->
  movie_playlist_entry E webpage <> NoFuel ->
  TwitCastingIE_real_extract E videopassword url st
  = (match html_search_meta E ["og:title"; "twitter:title"] webpage with
     | PStr t =>
         if String.eqb t "" then Raise ExtractorError
         else
           match playlist_failure E webpage with
           | Some e => Raise e
           | None =>
               Ok (result_for E uploader_id video_id webpage
                     [hls_format
                        (m3u8_choice E false uploader_id webpage
                           (video_js_data_of E webpage))])
           end
     | _ => Raise ExtractorError
     end,
     {| clock := S (clock st);
        trace := trace st ++ [EvWebpage url data];
        yielded := yielded st |}).
Proof.
  intros Hm data Hdl Hlive Hfuel.
  unfold TwitCastingIE_real_extract. rewrite Hm. cbv zeta.
  fold data.
  erewrite bind_ok;
    [|unfold _download_webpage, bind, tick, ret; cbn [fst snd]; rewrite Hdl; reflexivity].
  set (st1 := {| clock := S (clock st); trace := trace st ++ [EvWebpage url data];
                 yielded := yielded st |}).
  rewrite title_step. unfold result_for.
  destruct (html_search_meta E ["og:title"; "twitter:title"] webpage)
    as [| | |t| |]; cbn [truthy negb]; try reflexivity.
  destruct (String.eqb t ""); cbn [negb]; [reflexivity|].
  rewrite (video_js_data_step
             (fun d => TwitCastingIE_extract_with E (contains online_marker webpage)
                         uploader_id video_id webpage (PStr t) d) webpage st1 Hfuel).
  destruct (playlist_failure E webpage); [reflexivity|].
  rewrite Hlive.
  unfold TwitCastingIE_extract_with.
  erewrite bind_ok;
    [|exact (m3u8_url_value false uploader_id webpage (video_js_data_of E webpage) st1)].
  erewrite bind_ok; [|reflexivity].
  rewrite extract_with_tail. reflexivity.
Qed.

End TwitCastingMedia.

Section TwitCastingLivePage.
Import TwitCasting TwitCastingParts.
Variable E : env.

Lemma m3u8_choice_live_is_str (uploader_id webpage : string) (js : pyval) :
  compat_str (m3u8_choice E true uploader_id webpage js) = true.
Proof.
  unfold m3u8_choice.
  destruct (compat_str (search_movie_url E webpage)) eqn:H; [exact H|].
  destruct (source_url js) as [v|e|]; try reflexivity.
  destruct v; reflexivity.
Qed.

(** X10.  A movie page that reports [data-status="online"] and has a
    title.  If reading the page's movie playlist fails otherwise than on a
    lookup (an attribute that is not JSON), the extraction fails with that
    exception after the one request for the page.  In every other case it
    costs two requests: the page, then the manifest.  The manifest URL is
    always a string: the page's [data-movie-url], else the playlist's
    source URL, else [https://twitcasting.tv/<uploader_id>/metastream.m3u8].
    The result carries the sorted formats of that manifest; a failure of
    the manifest download or of the sorting is the failure of the
    extraction. *)
Theorem twitcasting_live_page (videopassword : pyval) (url uploader_id video_id
    webpage t : string) (st : state) :
  match_valid_url E url = Some (uploader_id, video_id) ->
  let data := if truthy videopassword
              then Some (urlencode_postdata E videopassword) else None in
  download_webpage E (clock st) url data = Some webpage ->
  contains online_marker webpage = true ->
  movie_playlist_entry E webpage <> NoFuel ->
  html_search_meta E ["og:title"; "twitter:title"] webpage = PStr t ->
  String.eqb t "" = false ->
  let m := m3u8_choice E true uploader_id webpage (video_js_data_of E webpage) in
  compat_str m = true /\
  TwitCastingIE_real_extract E videopassword url st
  = match playlist_failure E webpage with
    | Some e =>
        (Raise e,
         {| clock := S (clock st);
            trace := trace st ++ [EvWebpage url data];
            yielded := yielded st |})
    | None =>
        (match extract_m3u8_formats E (S (clock st)) m with
         | Ok fs =>
             match sort_formats E fs with
             | Ok sorted => Ok (result_for E uploader_id video_id webpage sorted)
             | Raise e => Raise e
             | NoFuel => NoFuel
             end
         | Raise e => Raise e
         | NoFuel => NoFuel
         end,
         {| clock := S (S (clock st));
            trace := trace st ++ [EvWebpage url data; EvManifest m];
            yielded := yielded st |})
    end.
Proof.
  intros Hm data Hdl Hlive Hfuel Ht Hne m.
  split; [apply m3u8_choice_live_is_str|].
  unfold TwitCastingIE_real_extract. rewrite Hm. cbv zeta.
  fold data.
  erewrite bind_ok;
    [|unfold _download_webpage, bind, tick, ret; cbn [fst snd]; rewrite Hdl; reflexivity].
  set (st1 := {| clock := S (clock st); trace := trace st ++ [EvWebpage url data];
                 yielded := yielded st |}).
  rewrite title_step. unfold result_for. rewrite Ht. cbn [truthy]. rewrite Hne.
  cbn [negb].
  rewrite (video_js_data_step E
             (fun d => TwitCastingIE_extract_with E (contains online_marker webpage)
                         uploader_id video_id webpage (PStr t) d) webpage st1 Hfuel).
  destruct (playlist_failure E webpage); [reflexivity|].
  rewrite Hlive.
  unfold TwitCastingIE_extract_with.
  erewrite bind_ok;
    [|exact (m3u8_url_value E true uploader_id webpage (video_js_data_of E webpage) st1)].
  fold m. subst st1.
  unfold _extract_m3u8_formats, tick, lift, ret, bind, js_get.
  cbn [fst snd clock trace yielded].
  destruct (video_js_data_is_dict E webpage) as [d ->]. unfold dict_get.
  destruct (extract_m3u8_formats E (S (clock st)) m) as [fs|e|];
    [|now rewrite <- app_assoc ..].
  destruct (sort_formats E fs) as [sorted|e|];
    [|now rewrite <- app_assoc ..].
  rewrite <- app_assoc.
  destruct (assoc "thumbnailUrl" d), (assoc "duration" d); reflexivity.
Qed.

End TwitCastingLivePage.

(** The archived sample page: one request, the [hls] format for the
    page's [data-movie-url]. *)
Lemma twitcasting_archived_page_witness :
  TwitCasting.TwitCastingIE_real_extract Examples.world_gap PNone Examples.movie_url
    TwitCasting.fresh
  = (Ok (TwitCastingParts.result_for Examples.world_gap "noriyukicas" "189037369"
           Examples.archived_page
           [TwitCastingParts.hls_format (PStr Examples.manifest_url)]),
     {| TwitCasting.clock := 1;
        TwitCasting.trace := [TwitCasting.EvWebpage Examples.movie_url None];
        TwitCasting.yielded := [] |}).
Proof.
  exact (twitcasting_archived_page Examples.world_gap PNone Examples.movie_url
           "noriyukicas" "189037369" Examples.archived_page TwitCasting.fresh
           eq_refl eq_refl eq_refl ltac:(discriminate)).
Defined.

(** The online sample page: the page and then the manifest are requested. *)
Lemma twitcasting_live_page_witness :
  TwitCasting.trace
    (snd (TwitCasting.TwitCastingIE_real_extract Examples.world_online PNone
            Examples.movie_url TwitCasting.fresh))
  = [TwitCasting.EvWebpage Examples.movie_url None;
     TwitCasting.EvManifest (PStr Examples.manifest_url)].
Proof.
  destruct (twitcasting_live_page Examples.world_online PNone Examples.movie_url
              "noriyukicas" "189037369" Examples.online_page "Live #189037369"
              TwitCasting.fresh eq_refl eq_refl eq_refl ltac:(discriminate)
              eq_refl eq_refl) as [_ H].
  now rewrite H.
Defined.

(** ** TwitCasting: the live redirect and a history that breaks *)

Section TwitCastingRedirect.
Import TwitCasting TwitCastingParts RegexSem.
Variable E : env.

(** A movie URL built from a user name and a numeric id is matched by the
    pattern of [TwitCastingIE]. *)
Lemma movie_url_matches (uploader_id live : string) :
  uploader_id <> "" -> all_chars not_slash uploader_id = true ->
  live <> "" -> all_chars Nhk.is_digit live = true ->
  re_match TwitCastingIE_VALID_URL
    ("https://twitcasting.tv/" ++ uploader_id ++ "/movie/" ++ live)%string = true.
Proof.
  intros Hu Hus Hl Hls. apply re_match_iff.
  exists ("https://twitcasting.tv/" ++ uploader_id ++ "/movie/" ++ live)%string, "".
  split; [now rewrite append_nil_r|].
  change ("https://twitcasting.tv/" ++ uploader_id ++ "/movie/" ++ live)%string
    with ("http" ++ ("s" ++ ("://" ++ ("" ++ ("twitcasting.tv/" ++
            (uploader_id ++ ("/" ++ ("movie" ++ ("/" ++ live)))))))))%string.
  unfold TwitCastingIE_VALID_URL.
  apply lang_seq; [apply lang_Lit|].
  apply lang_seq; [apply lang_alt_l; constructor; reflexivity|].
  apply lang_seq; [apply lang_Lit|].
  apply lang_seq; [apply lang_alt_r; constructor|].
  apply lang_seq; [apply lang_Lit|].
  apply lang_seq; [now apply lang_Plus_all|].
  apply lang_seq; [constructor; reflexivity|].
  apply lang_seq; [apply lang_alt_l; apply lang_Lit|].
  apply lang_seq; [constructor; reflexivity|].
  now apply lang_Plus_all.
Qed.

(** X11.  [TwitCastingLiveIE._real_extract] announces itself and sends
    one request, for the user's page.  If no current live id is found on
    it the extraction fails with [ExtractorError]; otherwise the result is
    a plain URL result, with no extractor key, for
    [https://twitcasting.tv/<uploader_id>/movie/<id>].  The user name
    having no slash and the id being digits, as the patterns that produce
    them require, this URL is one [TwitCastingIE] is suitable for. *)
Theorem live_redirect_target (url uploader_id webpage : string) (st : state) :
  match_id E url = Some uploader_id ->
  download_webpage E (clock st) url None = Some webpage ->
  uploader_id <> "" -> all_chars not_slash uploader_id = true ->
  (forall live, search_current_live E webpage = Some live ->
                live <> "" /\ all_chars Nhk.is_digit live = true) ->
  let st' := {| clock := S (clock st);
                trace := trace st ++ [EvScreen; EvWebpage url None];
                yielded := yielded st |} in
  match search_current_live E webpage with
  | Some live =>
      let target := ("https://twitcasting.tv/" ++ uploader_id ++ "/movie/" ++ live)%string in
      TwitCastingLiveIE_real_extract E url st
      = (Ok {| ur_url := Some target; ur_ie_key := None |}, st') /\
      Nhk.InfoExtractor_suitable TwitCastingIE_VALID_URL target = true
  | None => TwitCastingLiveIE_real_extract E url st = (Raise ExtractorError, st')
  end.
Proof.
  intros Hid Hdl Hu Hus Hlive. cbv zeta.
  unfold TwitCastingLiveIE_real_extract. rewrite Hid.
  erewrite bind_ok; [|reflexivity].
  erewrite bind_ok;
    [|unfold _download_webpage, bind, tick, ret; cbn [fst snd clock];
      rewrite Hdl; reflexivity].
  cbn [clock trace yielded]. rewrite <- app_assoc. cbn [app].
  destruct (search_current_live E webpage) as [live|] eqn:Hs.
  - destruct (Hlive live eq_refl) as [Hne Hd].
    destruct (String.eqb_spec live ""); [contradiction|].
    split; [reflexivity|].
    now apply movie_url_matches.
  - reflexivity.
Qed.

Lemma download_webpage_yielded_any (url : string) (data : option string)
    (st st1 : state) (r : res string) :
  _download_webpage E url data st = (r, st1) -> yielded st1 = yielded st.
Proof.
  unfold _download_webpage, bind, tick, ret, raise. simpl.
  destruct (download_webpage E _ _ _); intros H; inversion H; reflexivity.
Qed.

(** X12.  When the download of a history page fails, the generator of
    [TwitCastingUserIE] raises that error, and the entries of all pages
    fetched before it have been yielded, in order: the pages before the
    failure are not lost. *)
Theorem entries_before_failure (uploader_id base_url : string) (page_num : nat)
    (url : string) (st st' : state) (pages : list (list url_result)) (e : exn) :
  broken_history E uploader_id base_url page_num url st pages e st' ->
  (forall fuel,
      List.length pages < fuel ->
      entries_from E uploader_id base_url fuel page_num url st = (Raise e, st')) /\
  yielded st' = yielded st ++ List.concat pages.
Proof.
  induction 1 as [page_num url st st1 e Hdl
                 |page_num url webpage next st st1 st' rest e Hdl Hnext Hmore _ IH].
  - split.
    + intros fuel Hfuel. destruct fuel as [|fuel]; [simpl in Hfuel; lia|].
      simpl. now apply bind_raise.
    + simpl. rewrite app_nil_r. now apply download_webpage_yielded_any in Hdl.
  - destruct IH as [IHrun IHy]. split.
    + intros fuel Hfuel. destruct fuel as [|fuel]; [simpl in Hfuel; lia|].
      simpl in Hfuel. simpl.
      erewrite bind_ok; [|exact Hdl].
      erewrite bind_ok; [|apply yield_all_spec].
      rewrite Hnext, Hmore. apply IHrun. lia.
    + rewrite IHy. simpl. apply download_webpage_yielded_any in Hdl.
      rewrite Hdl. now rewrite app_assoc.
Qed.

End TwitCastingRedirect.

(** The user page of the sample world shows the live [189037369]. *)
Lemma live_redirect_target_witness :
  TwitCasting.TwitCastingLiveIE_real_extract Examples.world_gap Examples.user_live
    TwitCasting.fresh
  = (Ok {| TwitCasting.ur_url := Some Examples.movie_url;
           TwitCasting.ur_ie_key := None |},
     {| TwitCasting.clock := 1;
        TwitCasting.trace :=
          [TwitCasting.EvScreen; TwitCasting.EvWebpage Examples.user_live None];
        TwitCasting.yielded := [] |}) /\
  Nhk.InfoExtractor_suitable TwitCastingParts.TwitCastingIE_VALID_URL
    Examples.movie_url = true.
Proof.
  assert (Hlive : forall live,
             TwitCasting.search_current_live Examples.world_gap Examples.user_page
             = Some live ->
             live <> "" /\ RegexSem.all_chars Nhk.is_digit live = true).
  { intros live H. vm_compute in H. inversion H. split; [discriminate|reflexivity]. }
  exact (live_redirect_target Examples.world_gap Examples.user_live "noriyukicas"
           Examples.user_page TwitCasting.fresh eq_refl eq_refl
           ltac:(discriminate) eq_refl Hlive).
Defined.

(** The second history page cannot be downloaded: the two entries of the
    first page are yielded and the generator raises. *)
Lemma entries_before_failure_witness :
  fst (TwitCasting._entries Examples2.world_broken 2 "noriyukicas" TwitCasting.fresh)
  = Raise ExtractorError /\
  TwitCasting.yielded
    (snd (TwitCasting._entries Examples2.world_broken 2 "noriyukicas" TwitCasting.fresh))
  = [Examples.entry "1"; Examples.entry "2"].
Proof.
  assert (H : exists st',
             TwitCastingParts.broken_history Examples2.world_broken "noriyukicas"
               Examples.user_show 1 Examples.user_show TwitCasting.fresh
               [[Examples.entry "1"; Examples.entry "2"]] ExtractorError st').
  { eexists.
    eapply (TwitCastingParts.broken_later Examples2.world_broken "noriyukicas"
              Examples.user_show 1 Examples.user_show "history page 1"
              "https://twitcasting.tv/noriyukicas/show/9-999");
      [reflexivity | reflexivity | reflexivity |].
    eapply TwitCastingParts.broken_here. reflexivity. }
  destruct H as [st' H].
  destruct (entries_before_failure _ _ _ _ _ _ _ _ _ H) as [Hrun Hy].
  unfold TwitCasting._entries. cbv zeta.
  change (TwitCasting.show_url "noriyukicas") with Examples.user_show.
  rewrite (Hrun 2 (le_n 2)). split; [reflexivity | exact Hy].
Defined.

(** ** NHK World: episodes, programs and chapters *)

Section NhkEpisodes.
Import NhkWorld.
Variable E : env.

Lemma dict_get_fuel (v : pyval) (key : string) (d : pyval) : dict_get v key d <> NoFuel.
Proof.
  destruct v; simpl; try discriminate. destruct (assoc key d0); discriminate.
Qed.

(** What the callers of [_extract_episode_info] rely on when they hand
    it an episode. *)
Lemma episode_info_given_shape (url : option string) (episode : pyval) (st : state) :
  snd (_extract_episode_info E url (Some episode) st) = st /\
  forall i,
    fst (_extract_episode_info E url (Some episode) st) = Ok i ->
    i_type i = Some "url_transparent" /\
    i_formats i = None /\
    exists u lang m_type raw_id,
      url = Some u /\
      vod_groups E u = Some (lang, m_type, raw_id) /\
      if String.eqb m_type "video"
      then i_ie_key i = Some "Piksel"
      else i_ie_key i = Some "NhkVod" /\ i_url i = Some u.
Proof.
  unfold _extract_episode_info.
  destruct url as [u|]; [|split; [reflexivity|discriminate]].
  destruct (vod_groups E u) as [[[lang m_type] raw_id]|] eqn:Hg;
    [|split; [reflexivity|discriminate]].
  cbv zeta. unfold bind, lift, ret.
  destruct (episode_title episode) as [title|e|];
    [|split; [reflexivity|discriminate] ..].
  destruct (get_clean_field episode "title") as [series|e|];
    [|split; [reflexivity|discriminate] ..].
  destruct (thumbnails_of episode sizes) as [ths|e|];
    [|split; [reflexivity|discriminate] ..].
  destruct (get_clean_field episode "description") as [descr|e|];
    [|split; [reflexivity|discriminate] ..].
  destruct (String.eqb m_type "video") eqn:Hv.
  - destruct (getitem episode "vod_id") as [vod|e|] eqn:Hvod;
      [|split; [reflexivity|discriminate] ..].
    destruct vod as [| | |s| |]; cbn; try (split; [reflexivity|discriminate]).
    split; [reflexivity|]. intros i Hi. injection Hi as <-. cbn.
    split; [reflexivity|]. split; [reflexivity|].
    exists u, lang, m_type, raw_id. split; [reflexivity|]. split; [exact Hg|].
    rewrite Hv. reflexivity.
  - cbn. split; [reflexivity|]. intros i Hi. injection Hi as <-. cbn.
    split; [reflexivity|]. split; [reflexivity|].
    exists u, lang, m_type, raw_id. split; [reflexivity|]. split; [exact Hg|].
    rewrite Hv. split; reflexivity.
Qed.

(** X13.  Given an episode of a listing, [_extract_episode_info] sends no
    request and leaves the world as it is, whatever its outcome.  When it
    succeeds the result is always a transparent redirect without formats:
    for a video URL to [Piksel], at the player URL of the episode's
    [vod_id], which is also the result's id; for an audio URL to [NhkVod],
    at the very URL it was given. *)
Theorem episode_info_from_listing (url : option string) (episode : pyval) (st : state) :
  snd (_extract_episode_info E url (Some episode) st) = st /\
  forall i,
    fst (_extract_episode_info E url (Some episode) st) = Ok i ->
    i_type i = Some "url_transparent" /\
    i_formats i = None /\
    exists u lang m_type raw_id,
      url = Some u /\
      vod_groups E u = Some (lang, m_type, raw_id) /\
      if String.eqb m_type "video"
      then i_ie_key i = Some "Piksel" /\
           exists vod_id,
             getitem episode "vod_id" = Ok (PStr vod_id) /\
             i_id i = vod_id /\
             i_url i
             = Some ("https://player.piksel.com/v/refid/nhkworld/prefid/" ++ vod_id)%string
      else i_ie_key i = Some "NhkVod" /\ i_url i = Some u.
Proof.
  unfold _extract_episode_info.
  destruct url as [u|]; [|split; [reflexivity|discriminate]].
  destruct (vod_groups E u) as [[[lang m_type] raw_id]|] eqn:Hg;
    [|split; [reflexivity|discriminate]].
  cbv zeta. unfold bind, lift, ret.
  destruct (episode_title episode) as [title|e|];
    [|split; [reflexivity|discriminate] ..].
  destruct (get_clean_field episode "title") as [series|e|];
    [|split; [reflexivity|discriminate] ..].
  destruct (thumbnails_of episode sizes) as [ths|e|];
    [|split; [reflexivity|discriminate] ..].
  destruct (get_clean_field episode "description") as [descr|e|];
    [|split; [reflexivity|discriminate] ..].
  destruct (String.eqb m_type "video") eqn:Hv.
  - destruct (getitem episode "vod_id") as [vod|e|] eqn:Hvod;
      [|split; [reflexivity|discriminate] ..].
    destruct vod as [| | |s| |]; cbn; try (split; [reflexivity|discriminate]).
    split; [reflexivity|]. intros i Hi. injection Hi as <-. cbn.
    split; [reflexivity|]. split; [reflexivity|].
    exists u, lang, m_type, raw_id. split; [reflexivity|]. split; [exact Hg|].
    rewrite Hv. split; [reflexivity|]. now exists s.
  - cbn. split; [reflexivity|]. intros i Hi. injection Hi as <-. cbn.
    split; [reflexivity|]. split; [reflexivity|].
    exists u, lang, m_type, raw_id. split; [reflexivity|]. split; [exact Hg|].
    rewrite Hv. split; reflexivity.
Qed.

Lemma extract_fetch_shape (url : string) (st st' : state) (i : info) :
  NhkVodIE_real_extract E url st = (Ok i, st') ->
  exists lang m_type raw_id,
    vod_groups E url = Some (lang, m_type, raw_id) /\
    if String.eqb m_type "video"
    then i_type i = Some "url_transparent" /\ i_ie_key i = Some "Piksel" /\
         i_formats i = None
    else i_type i = None /\ i_ie_key i = None /\ i_url i = None /\
         exists fs, i_formats i = Some fs.
Proof.
  unfold NhkVodIE_real_extract, _extract_episode_info.
  destruct (vod_groups E url) as [[[lang m_type] raw_id]|]; [|discriminate].
  cbv zeta. intros H. exists lang, m_type, raw_id. split; [reflexivity|].
  revert H. unfold bind at 1.
  match goal with
  | |- context [bind ?m ?k st] => destruct (bind m k st) as [[ep|e|] s1]
  end; try discriminate.
  unfold bind, lift, ret.
  destruct (episode_title ep) as [title|e|]; try discriminate.
  destruct (get_clean_field ep "title") as [series|e|]; try discriminate.
  destruct (thumbnails_of ep sizes) as [ths|e|]; try discriminate.
  destruct (get_clean_field ep "description") as [descr|e|]; try discriminate.
  destruct (String.eqb m_type "video").
  - destruct (getitem ep "vod_id") as [vod|e|]; try discriminate.
    destruct (str_add _ vod) as [target|e|]; try discriminate.
    intros H; inversion H; subst; cbn. repeat split.
  - destruct (getitem ep "audio") as [audio|e|]; try discriminate.
    destruct (getitem audio "audio") as [path|e|]; try discriminate.
    unfold tick. cbn [fst snd].
    destruct (set_language lang _) as [fs|e|]; try discriminate.
    destruct (sort_formats E fs) as [sorted|e|]; try discriminate.
    intros H; inversion H; subst; cbn. repeat split. now exists sorted.
Qed.

(** X14.  [NhkVodIE._real_extract] never hands a URL back to [NhkVod]:
    for a video URL it redirects to [Piksel], for an audio URL it returns
    formats and no redirect.  So the redirect an audio entry of a program
    listing makes to [NhkVod] is followed by no further redirect. *)
Theorem nhk_vod_redirects_once (url : string) (episode : pyval)
    (st st1 st2 : state) (entry leaf : info) :
  _extract_episode_info E (Some url) (Some episode) st = (Ok entry, st1) ->
  i_ie_key entry = Some "NhkVod" ->
  NhkVodIE_real_extract E url st1 = (Ok leaf, st2) ->
  i_url entry = Some url /\
  i_type leaf = None /\ i_ie_key leaf = None /\ i_url leaf = None /\
  exists fs, i_formats leaf = Some fs.
Proof.
  intros Hentry Hkey Hleaf.
  destruct (episode_info_given_shape (Some url) episode st) as [_ Hshape].
  rewrite Hentry in Hshape.
  destruct (Hshape entry eq_refl) as (_ & _ & u & lang & m_type & raw_id & Hu & Hg & Hcase).
  inversion Hu; subst u.
  destruct (extract_fetch_shape url st1 st2 leaf Hleaf)
    as (lang' & m_type' & raw_id' & Hg' & Hcase').
  rewrite Hg in Hg'. inversion Hg'; subst.
  destruct (String.eqb m_type' "video").
  - rewrite Hkey in Hcase. discriminate.
  - destruct Hcase as [_ Hurl]. split; [exact Hurl|]. exact Hcase'.
Qed.

Lemma call_api_value (m_id lang : string) (is_video is_episode is_clip : bool)
    (st : state) (resp data episodes : pyval) :
  download_json E (clock st) (api_url m_id lang is_video is_episode is_clip) = Some resp ->
  getitem resp "data" = Ok data ->
  getitem data "episodes" = Ok episodes ->
  _call_api E m_id lang is_video is_episode is_clip st
  = (Ok (py_or episodes (PList [])),
     {| clock := S (clock st);
        trace := trace st ++ [EvApi (api_url m_id lang is_video is_episode is_clip)] |}).
Proof.
  intros Hdl Hdata Heps.
  unfold _call_api, _download_json, tick, bind, lift, ret. cbn [fst snd].
  now rewrite Hdl, Hdata, Heps.
Qed.

(** X15.  When the API knows no episode for the id (its [episodes] member
    is null or empty), [NhkVodIE._real_extract] fails with [IndexError]
    after that one request: [_call_api] turns the falsy answer into an
    empty list, and the first item of it is asked for.  The request is
    for the id with a dash after its fourth character when the id is all
    digits ([str.isdigit], the digits of other scripts included), as a
    clip when its first four characters are [9999]. *)
Theorem nhk_vod_no_episode (url lang m_type raw_id : string) (st : state)
    (resp data episodes : pyval) :
  vod_groups E url = Some (lang, m_type, raw_id) ->
  let episode_id := normalize_id E raw_id in
  let api := api_url episode_id lang (String.eqb m_type "video") true
                     (String.eqb (take 4 episode_id) "9999") in
  download_json E (clock st) api = Some resp ->
  getitem resp "data" = Ok data ->
  getitem data "episodes" = Ok episodes ->
  truthy episodes = false ->
  NhkVodIE_real_extract E url st
  = (Raise IndexError,
     {| clock := S (clock st); trace := trace st ++ [EvApi api] |}).
Proof.
  intros Hg episode_id api Hdl Hdata Heps Hfalsy.
  unfold NhkVodIE_real_extract, _extract_episode_info. rewrite Hg.
  cbv beta iota zeta. apply bind_raise.
  erewrite bind_ok;
    [|exact (call_api_value episode_id lang (String.eqb m_type "video") true
               (String.eqb (take 4 episode_id) "9999") st resp data episodes
               Hdl Hdata Heps)].
  unfold py_or. rewrite Hfalsy. reflexivity.
Qed.

End NhkEpisodes.

Section NhkPrograms.
Import NhkWorld NhkEntries.
Variable E : env.

Lemma program_entries_shape (url : string) (items : list pyval) (acc : list info)
    (st : state) :
  snd (program_entries E url items acc st) = st /\
  forall es,
    fst (program_entries E url items acc st) = Ok es ->
    exists new,
      es = acc ++ new /\ Forall redirect_only new /\
      List.length new <= List.length items.
Proof.
  revert acc. induction items as [|ep items IH]; intros acc; simpl.
  - split; [reflexivity|]. intros es H. injection H as <-.
    exists []. rewrite app_nil_r. repeat split; [constructor|apply le_n].
  - unfold bind, lift.
    pose proof (dict_get_fuel ep "url" PNone) as Hf.
    destruct (dict_get ep "url" PNone) as [path|e|];
      [|split; [reflexivity|discriminate]|congruence].
    destruct (negb (truthy path)).
    + destruct (IH acc) as [Hs He]. split; [exact Hs|].
      intros es H. destruct (He es H) as (new & -> & Hnew & Hlen).
      exists new. repeat split; [exact Hnew|lia].
    + destruct (episode_info_given_shape E (urljoin E url path) ep st) as [Hs Hi].
      destruct (_extract_episode_info E (urljoin E url path) (Some ep) st)
        as [[entry|e|] s1]; cbn [fst snd] in *; subst s1;
        [|split; [reflexivity|discriminate] ..].
      destruct (IH (acc ++ [entry])) as [Hs' He]. split; [exact Hs'|].
      intros es H. destruct (He es H) as (new & -> & Hnew & Hlen).
      exists (entry :: new). rewrite <- app_assoc. split; [reflexivity|].
      split; [|simpl; lia].
      constructor; [|exact Hnew].
      destruct (Hi entry eq_refl) as (Ht & Hfm & _). now split.
Qed.

(** X16.  [NhkVodProgramIE._real_extract] builds its playlist from one
    API request and nothing else, whatever the outcome: no episode is
    fetched on its own.  A playlist it returns has the program id as its
    id, at most one entry per episode of the answer, every entry a
    transparent redirect without formats, and the series of the first
    entry as its title ([None] without entries).  When the API's
    [episodes] member is null or empty the result is the empty
    playlist. *)
Theorem program_playlist_one_request (url lang m_type program_id : string)
    (episode_type : option string) (st : state) :
  program_groups E url = Some (lang, m_type, program_id, episode_type) ->
  let api := api_url program_id lang (String.eqb m_type "video") false
               (match episode_type with
                | Some ty => String.eqb ty "clip"
                | None => false
                end) in
  let run := NhkVodProgramIE_real_extract E url st in
  snd run = {| clock := S (clock st); trace := trace st ++ [EvApi api] |} /\
  (forall pl,
      fst run = Ok pl ->
      pl_id pl = program_id /\
      Forall (fun i => i_type i = Some "url_transparent" /\ i_formats i = None)
             (pl_entries pl) /\
      pl_title pl = match pl_entries pl with e :: _ => i_series e | [] => PNone end) /\
  (forall resp data episodes,
      download_json E (clock st) api = Some resp ->
      getitem resp "data" = Ok data ->
      getitem data "episodes" = Ok episodes ->
      (truthy episodes = false ->
       fst run = Ok {| pl_entries := []; pl_id := program_id; pl_title := PNone |}) /\
      (forall pl items,
          fst run = Ok pl -> episodes = PList items ->
          List.length (pl_entries pl) <= List.length items)).
Proof.
  intros Hg api run. subst run.
  unfold NhkVodProgramIE_real_extract. rewrite Hg. fold api.
  assert (Hcall : snd (_call_api E program_id lang (String.eqb m_type "video") false
                         (match episode_type with
                          | Some ty => String.eqb ty "clip"
                          | None => false
                          end) st)
                  = {| clock := S (clock st); trace := trace st ++ [EvApi api] |}).
  { unfold _call_api, _download_json, tick, bind, lift, ret, raise. cbn [fst snd].
    fold api.
    destruct (download_json E (clock st) api) as [resp|]; [|reflexivity].
    destruct (getitem resp "data") as [data|e|]; try reflexivity.
    destruct (getitem data "episodes"); reflexivity. }
  set (st1 := {| clock := S (clock st); trace := trace st ++ [EvApi api] |}) in *.
  split; [|split].
  - unfold bind at 1.
    destruct (_call_api E _ _ _ _ _ st) as [[eps|e|] s1]; cbn [snd] in Hcall;
      subst s1; try reflexivity.
    unfold bind at 1, lift.
    destruct (iter_items eps) as [items|e|]; try reflexivity.
    unfold bind at 1.
    pose proof (program_entries_shape url items [] st1) as [Hs _].
    destruct (program_entries E url items [] st1) as [[es|e|] s2]; cbn [snd] in Hs;
      subst s2; reflexivity.
  - intros pl. unfold bind at 1.
    destruct (_call_api E _ _ _ _ _ st) as [[eps|e|] s1]; cbn [snd] in Hcall;
      subst s1; try discriminate.
    unfold bind at 1, lift.
    destruct (iter_items eps) as [items|e|]; try discriminate.
    unfold bind at 1.
    pose proof (program_entries_shape url items [] st1) as [_ He].
    destruct (program_entries E url items [] st1) as [[es|e|] s2]; try discriminate.
    destruct (He es eq_refl) as (new & Hes & Hnew & _). simpl in Hes. subst new.
    unfold ret. intros H. injection H as <-. cbn. repeat split. exact Hnew.
  - intros resp data episodes Hdl Hdata Heps.
    pose proof (call_api_value E program_id lang (String.eqb m_type "video") false
                  (match episode_type with
                   | Some ty => String.eqb ty "clip"
                   | None => false
                   end) st resp data episodes Hdl Hdata Heps) as Hv.
    fold api in Hv. fold st1 in Hv.
    split.
    + intros Hfalsy. erewrite bind_ok; [|exact Hv].
      unfold py_or. rewrite Hfalsy. reflexivity.
    + intros pl items Hpl ->. revert Hpl.
      erewrite bind_ok; [|exact Hv].
      assert (Hit : iter_items (py_or (PList items) (PList []))
                    = Ok (match items with [] => [] | _ => items end)).
      { destruct items; reflexivity. }
      unfold bind at 1, lift. rewrite Hit.
      unfold bind at 1.
      pose proof (program_entries_shape url
                    (match items with [] => [] | _ => items end) [] st1) as [_ He].
      destruct (program_entries E url _ [] st1) as [[es|e|] s2]; try discriminate.
      destruct (He es eq_refl) as (new & Hes & _ & Hlen). simpl in Hes. subst new.
      unfold ret. intros H. injection H as <-. cbn.
      destruct items; exact Hlen.
Qed.

End NhkPrograms.

Section Chapters.
Import NhkWorld.

Lemma zip3_maps (starts ends : list pyval) (titles : list string) :
  List.length starts = List.length titles ->
  List.length ends = List.length titles ->
  map start_time (zip3 starts ends titles) = starts /\
  map end_time (zip3 starts ends titles) = ends /\
  map ch_title (zip3 starts ends titles) = titles.
Proof.
  revert starts ends. induction titles as [|t titles IH]; intros starts ends Hs He.
  - destruct starts, ends; try discriminate. repeat split.
  - destruct starts as [|s starts], ends as [|e ends]; try discriminate.
    simpl in *. destruct (IH starts ends) as (H1 & H2 & H3); [lia|lia|].
    now rewrite H1, H2, H3.
Qed.

(** X17.  The chapters of a school program are given exactly when there
    is at least one chapter time and one chapter title and they are
    equally many.  Then there is one chapter per title, in order, starting
    at its chapter time; every chapter ends where the next one starts and
    the last one ends at the duration of the program. *)
Theorem chapters_are_contiguous (durations : list pyval) (titles : list string)
    (duration : pyval) :
  match chapters_of durations titles duration with
  | Some chapters =>
      durations <> [] /\
      List.length durations = List.length titles /\
      map ch_title chapters = titles /\
      map start_time chapters = durations /\
      map end_time chapters = tl (map start_time chapters) ++ [duration]
  | None =>
      durations = [] \/ titles = [] \/ List.length durations <> List.length titles
  end.
Proof.
  unfold chapters_of.
  destruct durations as [|d ds]; [now left|].
  destruct titles as [|t ts]; [right; now left|].
  destruct (Nat.eqb_spec (List.length (d :: ds)) (List.length (t :: ts))) as [Hlen|Hlen];
    [|right; now right].
  destruct (zip3_maps (d :: ds) (tl (d :: ds) ++ [duration]) (t :: ts)) as (H1 & H2 & H3).
  - exact Hlen.
  - simpl in *. rewrite length_app. simpl. lia.
  - split; [discriminate|]. split; [exact Hlen|]. split; [exact H3|].
    split; [exact H1|]. rewrite H2, H1. reflexivity.
Qed.

End Chapters.

(** The audio entry of the sample program points to [NhkVod], and
    [NhkVodIE] returns its formats. *)
Lemma nhk_vod_redirects_once_witness :
  exists entry leaf st1 st2,
    NhkWorld._extract_episode_info Examples3.nhk_world (Some Examples3.audio_url)
      (Some Examples3.audio_episode) NhkWorld.fresh = (Ok entry, st1) /\
    NhkWorld.NhkVodIE_real_extract Examples3.nhk_world Examples3.audio_url st1
    = (Ok leaf, st2) /\
    NhkWorld.i_url entry = Some Examples3.audio_url /\
    NhkWorld.i_type leaf = None.
Proof.
  destruct (NhkWorld._extract_episode_info Examples3.nhk_world
              (Some Examples3.audio_url) (Some Examples3.audio_episode)
              NhkWorld.fresh) as [[entry|e|] st1] eqn:He;
    [|vm_compute in He; discriminate ..].
  destruct (NhkWorld.NhkVodIE_real_extract Examples3.nhk_world Examples3.audio_url st1)
    as [[leaf|e|] st2] eqn:Hl;
    [| vm_compute in He; injection He as _ <-; vm_compute in Hl; discriminate ..].
  exists entry, leaf, st1, st2.
  split; [first [exact He | reflexivity]|]. split; [first [exact Hl | reflexivity]|].
  assert (Hk : NhkWorld.i_ie_key entry = Some "NhkVod").
  { vm_compute in He. injection He as <- _. reflexivity. }
  destruct (nhk_vod_redirects_once Examples3.nhk_world Examples3.audio_url
              Examples3.audio_episode NhkWorld.fresh st1 st2 entry leaf He Hk Hl)
    as (Hu & Ht & _).
  split; assumption.
Defined.

(** The sample API has no episode for the video [9999011]; an id of
    seven Arabic-Indic digits gets its dash after the fourth of them. *)
Lemma nhk_vod_no_episode_witness :
  NhkWorld.NhkVodIE_real_extract Examples3.nhk_world Examples3.video_url NhkWorld.fresh
  = (Raise IndexError,
     {| NhkWorld.clock := 1;
        NhkWorld.trace :=
          [NhkWorld.EvApi (NhkWorld.api_url "9999-011" "en" true true true)] |}) /\
  NhkWorld.normalize_id Examples3.nhk_world Examples3.arabic_indic_id
  = (String.concat "" (map Examples3.arabic_indic [2; 0; 1; 5]) ++ "-"
     ++ String.concat "" (map Examples3.arabic_indic [1; 7; 3]))%string.
Proof.
  split; [|reflexivity].
  exact (nhk_vod_no_episode Examples3.nhk_world Examples3.video_url "en" "video"
           "9999011" NhkWorld.fresh _ _ PNone eq_refl eq_refl eq_refl eq_refl eq_refl).
Defined.

(** The sample program: one request, and one entry for the one episode
    that has a page. *)
Lemma program_playlist_one_request_witness :
  NhkWorld.trace
    (snd (NhkWorld.NhkVodProgramIE_real_extract Examples3.nhk_world
            Examples3.program_url NhkWorld.fresh))
  = [NhkWorld.EvApi (NhkWorld.api_url "listener" "en" false false false)] /\
  exists pl,
    fst (NhkWorld.NhkVodProgramIE_real_extract Examples3.nhk_world
           Examples3.program_url NhkWorld.fresh) = Ok pl /\
    List.length (NhkWorld.pl_entries pl) = 1.
Proof.
  destruct (program_playlist_one_request Examples3.nhk_world Examples3.program_url
              "en" "audio" "listener" None NhkWorld.fresh eq_refl) as (Hs & _ & _).
  split; [now rewrite Hs|].
  eexists. split; [vm_compute; reflexivity|reflexivity].
Defined.

(** ** Mildom: the query of the proxied stream URLs *)

Section MildomStreamQueries.
Import Mildom MildomObs MildomStreams.
Variable E : env.
Variable gid : M state pyval.

(** What [_common_queries] returns, as a dictionary. *)
Lemma common_queries_value (query : list (string * pyval)) (init : bool)
    (st st' : state) (q : list (string * pyval)) :
  _common_queries E gid query init st = (Ok q, st') ->
  exists ts g location country cluster,
    q = dict_update (default_queries ts g location country cluster) query.
Proof.
  unfold _common_queries, bind at 1.
  destruct (_fetch_dispatcher_config E st) as [[dc|e|] st1]; try discriminate.
  unfold iso_timestamp, lang_code, tick, lift, ret, bind.
  cbn [fst snd].
  destruct init.
  - destruct (getitem dc "location") as [location|e|]; try discriminate.
    destruct (getitem dc "country") as [country|e|]; try discriminate.
    destruct (getitem dc "cluster") as [cluster|e|]; try discriminate.
    intros H. injection H as Hq _. subst q.
    now exists (now E (clock st1)), (PStr ""), location, country, cluster.
  - match goal with
    | |- context [gid ?s] => destruct (gid s) as [[g|e|] st3]
    end; try discriminate.
    destruct (getitem dc "location") as [location|e|]; try discriminate.
    destruct (getitem dc "country") as [country|e|]; try discriminate.
    destruct (getitem dc "cluster") as [cluster|e|]; try discriminate.
    intros H. injection H as Hq _. subst q.
    now exists (now E (clock st1)), g, location, country, cluster.
Qed.

(** X18.  The deletions from the stream query cannot fail: whenever
    [_common_queries] returns, [timestamp] (and, for a live stream,
    [streamReqId]) is among its keys.  For a recording and for a live
    stream alike, what is left are the nine other built-in parameters
    with the values [_common_queries] gave them, followed by
    [is_lhls = '0']: the proxied URLs carry neither the timestamp nor the
    request id the manifest request was sent with. *)
Theorem stream_query_deletions (A : Type) (uuid : string)
    (manifest : list (string * pyval) -> M state A) (st st1 : state)
    (q : list (string * pyval)) :
  (_common_queries E gid [("is_lhls", PStr "0")] false st = (Ok q, st1) ->
   exists g location country cluster,
     assoc "__guest_id" q = Some g /\
     assoc "__location" q = Some location /\
     assoc "__country" q = Some country /\
     assoc "__cluster" q = Some cluster /\
     vod_stream_query E gid st
     = (Ok (stream_params g location country cluster), st1)) /\
  (forall formats st2,
     _common_queries E gid [("streamReqId", PStr uuid); ("is_lhls", PStr "0")] false st
     = (Ok q, st1) ->
     manifest q st1 = (Ok formats, st2) ->
     exists g location country cluster,
       assoc "__guest_id" q = Some g /\
       assoc "__location" q = Some location /\
       assoc "__country" q = Some country /\
       assoc "__cluster" q = Some cluster /\
       assoc "streamReqId" q = Some (PStr uuid) /\
       live_stream_query E gid uuid manifest st
       = (Ok (formats, stream_params g location country cluster), st2)).
Proof.
  split.
  - intros Hq.
    destruct (common_queries_value _ _ _ _ _ Hq) as (ts & g & l & c & cl & ->).
    exists g, l, c, cl. repeat (split; [reflexivity|]).
    unfold vod_stream_query. erewrite bind_ok; [|exact Hq]. reflexivity.
  - intros formats st2 Hq Hm.
    destruct (common_queries_value _ _ _ _ _ Hq) as (ts & g & l & c & cl & ->).
    exists g, l, c, cl. repeat (split; [reflexivity|]).
    unfold live_stream_query. erewrite bind_ok; [|exact Hq].
    erewrite bind_ok; [|exact Hm]. reflexivity.
Qed.

End MildomStreamQueries.

(** The stream query of a recording on the sample server. *)
Lemma stream_query_deletions_witness :
  exists q st1 g location country cluster,
    Mildom._common_queries Examples.world_ok (Mildom.guest_id Examples.world_ok 1)
      [("is_lhls", PStr "0")] false Mildom.fresh = (Ok q, st1) /\
    MildomStreams.vod_stream_query Examples.world_ok
      (Mildom.guest_id Examples.world_ok 1) Mildom.fresh
    = (Ok (MildomStreams.stream_params g location country cluster), st1).
Proof.
  destruct (Mildom._common_queries Examples.world_ok
              (Mildom.guest_id Examples.world_ok 1)
              [("is_lhls", PStr "0")] false Mildom.fresh) as [[q|e|] st1] eqn:Hrun;
    [|vm_compute in Hrun; discriminate ..].
  destruct (stream_query_deletions Examples.world_ok
              (Mildom.guest_id Examples.world_ok 1) unit "none"
              (fun _ => Py.ret tt) Mildom.fresh st1 q) as [Hvod _].
  destruct (Hvod Hrun) as (g & l & c & cl & _ & _ & _ & _ & Hv).
  exists q, st1, g, l, c, cl. split; [reflexivity|exact Hv].
Defined.
